(** * Heat-pump tank simulator: a shallow embedding of the simulation core

    The development follows the Python sources of the simulator:

    - [Simulator/formulae.py]  (class [formulae]): thermal formulae, tank
      geometry and the aggregate energy integrals;
    - [Simulator/simulation.py] (class [Simulator]): the explicit Euler
      integrator with its hysteresis controller, and the aggregator;
    - [Simulator/DHW.py] (class [DHW]): the stochastic draw-off profile;
    - [Data/external_data_handling.py] (class [ManufacturerCOP]): the
      calibration of the COP model.

    Numbers.  The program computes with Python and numpy floats.  The
    embedding is parametric in the arithmetic: every function is written
    over a type [F] with the operations of the class [Arith], so that what
    is proved about the control structure of the code holds for every
    interpretation of [+], [-], [*], [/], the comparisons and so on.  Two
    instances are given: canonical rationals ([Q], every result reduced),
    on which the model runs, and the real numbers ([R]), on which the
    algebraic identities are proved.  Rounding is not modelled.

    Failure.  A Python exception is a [Raise e] result; [try]/[except]
    is [try_except]. *)

From Stdlib Require Import ZArith QArith Qreduction Reals Lra Lia.
From Stdlib Require Import String.
From stdpp Require Import base option list.
From stdpp Require gmap strings fin_maps.

(** ** Python results *)

Inductive PyError : Type :=
  | ZeroDivisionError
  | IndexError
  | ValueError
  | TypeError
  | KeyError
  | AttributeError
  | FileNotFoundError
  | RuntimeError.

Inductive result (A : Type) : Type :=
  | Ok (a : A)
  | Raise (e : PyError).
Arguments Ok {A} a.
Arguments Raise {A} e.

#[export] Instance result_ret : MRet result := fun A a => Ok a.
#[export] Instance result_bind : MBind result := fun A B f m =>
  match m with
  | Ok a => f a
  | Raise e => Raise e
  end.

(** [for i in idx: s = body(i, s)], stopping at the first exception. *)
Fixpoint for_each {S : Type} (idx : list nat) (body : nat -> S -> result S)
    (s : S) : result S :=
  match idx with
  | [] => Ok s
  | i :: idx' => s' ← body i s; for_each idx' body s'
  end.

(** [range(a, b)] for natural bounds. *)
Definition range (a b : nat) : list nat := seq a (b - a).

(** ** The arithmetic interface *)

Class Arith (F : Type) : Type := {
  of_Z : Z -> F;            (* an integer literal or an int used as a float *)
  add : F -> F -> F;
  sub : F -> F -> F;
  mul : F -> F -> F;
  div : F -> F -> F;        (* numpy division: never raises *)
  pow : F -> F -> F;        (* [x ** y] *)
  sqrt : F -> F;            (* [np.sqrt] *)
  pi : F;                   (* [math.pi] *)
  eqb : F -> F -> bool;
  ltb : F -> F -> bool;
  leb : F -> F -> bool;
  trunc : F -> Z            (* [int(x)]: truncation towards zero *)
}.

Declare Scope num_scope.
Delimit Scope num_scope with num.
Infix "+" := add : num_scope.
Infix "-" := sub : num_scope.
Infix "*" := mul : num_scope.
Infix "/" := div : num_scope.
Infix "**" := pow (at level 30, right associativity) : num_scope.
Infix "<?" := ltb : num_scope.
Infix "<=?" := leb : num_scope.
Notation "x >? y" := (ltb y x) (at level 70) : num_scope.
Notation "x >=? y" := (leb y x) (at level 70) : num_scope.
Notation "# n" := (of_Z n%Z) (at level 1, format "# n") : num_scope.

(** What the proofs need of the order: [a < b] excludes [b <= a], a
    number above zero is not zero, and [a <= b < c] gives [a < c].  The
    three hold for IEEE doubles (a comparison with NaN is false), for [Q]
    and for [R]. *)
Class ArithOrder (F : Type) `{Arith F} : Prop := {
  ltb_not_leb : forall a b : F, ltb a b = true -> leb b a = false;
  ltb_zero_neq : forall a : F, ltb (of_Z 0) a = true -> eqb a (of_Z 0) = false;
  leb_ltb_trans : forall a b c : F,
    leb a b = true -> ltb b c = true -> ltb a c = true
}.

(** ** Python sequences: a list or a numpy array of floats

    [euler] builds numpy arrays and returns them through [.tolist()]; the
    aggregator receives those lists.  The two kinds differ on [*]. *)

Inductive PySeq (F : Type) : Type :=
  | PyList (xs : list F)
  | NdArray (xs : list F).
Arguments PyList {F} xs.
Arguments NdArray {F} xs.

Section Sequences.
Context {F : Type} `{Arith F}.
Local Open Scope num_scope.

Definition items (s : PySeq F) : list F :=
  match s with PyList xs | NdArray xs => xs end.

(** [len(s)] *)
Definition len (s : PySeq F) : nat := length (items s).

(** [s[i]] for [0 <= i]: [IndexError] out of range. *)
Definition getitem (s : PySeq F) (i : nat) : result F :=
  match items s !! i with
  | Some x => Ok x
  | None => Raise IndexError
  end.

(** [a[i] = x] on an array, [0 <= i]: [IndexError] out of range. *)
Definition setitem (a : list F) (i : nat) (x : F) : result (list F) :=
  if decide (i < length a)%nat then Ok (<[i:=x]> a) else Raise IndexError.

(** [l * k] on a Python list: [k] copies of [l], one after the other. *)
Fixpoint list_repeat (k : nat) (l : list F) : list F :=
  match k with
  | O => []
  | S k' => l ++ list_repeat k' l
  end.

(** [s * k] for an int [k]: repetition on a list, element-wise product
    on an array. *)
Definition mul_int (s : PySeq F) (k : Z) : PySeq F :=
  match s with
  | PyList xs => PyList (list_repeat (Z.to_nat k) xs)
  | NdArray xs => NdArray (map (fun x => x * #k) xs)
  end.

(** [s.tolist()] *)
Definition tolist (a : list F) : PySeq F := PyList a.

(** [np.zeros(n)] *)
Definition np_zeros (n : nat) : list F := replicate n #0.

(** Python's [x / y] on Python numbers: a zero divisor raises. *)
Definition pydiv (x y : F) : result F :=
  if eqb y #0 then Raise ZeroDivisionError else Ok (x / y).

(** [np.linspace(start, stop, num)] (endpoint included), after numpy's
    [function_base.linspace]: a negative [num] is refused; the samples are
    [i * step + start] with [step = (stop - start) / (num - 1)] (computed
    as [(i / (num - 1)) * (stop - start)] when the step is zero), and the
    last sample of two or more is [stop] itself. *)
Definition np_linspace (start stop : F) (num : Z) : result (list F) :=
  if (num <? 0)%Z then Raise ValueError
  else
    let n := Z.to_nat num in
    let dv := #(num - 1) in
    let delta := stop - start in
    let step := delta / dv in
    let y := map (fun i : nat =>
                    if (0 <? num - 1)%Z
                    then if eqb step #0
                         then (#(Z.of_nat i) / dv) * delta + start
                         else #(Z.of_nat i) * step + start
                    else #(Z.of_nat i) * delta + start) (seq 0 n) in
    Ok (if (1 <? num)%Z then <[(n - 1)%nat := stop]> y else y).

End Sequences.

(** ** The parameter store

    [InputValues.value(category, name)] reads a loaded YAML store.  The
    store is held as a record with one field per (category, name) pair the
    simulator reads, so a lookup is a projection; a store with a missing
    key is outside the model.  [time_points] is the one integer. *)

Record InputValues (F : Type) : Type := {
  (* heat_pump *)
  off_temperature_threshold_K : F;
  on_temperature_threshold_K : F;
  overall_heat_transfer_coefficient : F;
  heat_transfer_area : F;
  fixed_condenser_temperature_K : F;
  (* simulation_parameters *)
  total_time_seconds : F;
  time_points : Z;
  (* initial_conditions *)
  initial_tank_temperature_K : F;
  (* building_properties *)
  wall_area : F;
  wall_U_value : F;
  roof_area : F;
  roof_U_value : F;
  indoor_setpoint_temperature_K : F;
  (* hot_water_tank *)
  mass_of_water : F;
  heat_loss_coefficient : F;
  total_thermal_capacity : F
}.
Arguments off_temperature_threshold_K {F} _.
Arguments on_temperature_threshold_K {F} _.
Arguments overall_heat_transfer_coefficient {F} _.
Arguments heat_transfer_area {F} _.
Arguments fixed_condenser_temperature_K {F} _.
Arguments total_time_seconds {F} _.
Arguments time_points {F} _.
Arguments initial_tank_temperature_K {F} _.
Arguments wall_area {F} _.
Arguments wall_U_value {F} _.
Arguments roof_area {F} _.
Arguments roof_U_value {F} _.
Arguments indoor_setpoint_temperature_K {F} _.
Arguments mass_of_water {F} _.
Arguments heat_loss_coefficient {F} _.
Arguments total_thermal_capacity {F} _.

(** ** [formulae.py] *)

Module formulae.
Section Formulae.
Context {F : Type} `{Arith F}.
Local Open Scope num_scope.

(** [COP(deltaT, a, b)] *)
Definition COP (deltaT a b : F) : F := a + (b / deltaT).

(** [CalculateQload(inputValues, Tamb)] *)
Definition CalculateQload (inputValues : InputValues F) (Tamb : F) : F :=
  let Aw := wall_area inputValues in
  let Uw := wall_U_value inputValues in
  let Ar := roof_area inputValues in
  let Ur := roof_U_value inputValues in
  let Tsp := indoor_setpoint_temperature_K inputValues in
  let Qload := Aw * Uw * (Tamb - Tsp) + Ar * Ur * (Tamb - Tsp) in
  #(-1) * Qload.

(** [CalculateQtransfer(inputValues, Ttank)] *)
Definition CalculateQtransfer (inputValues : InputValues F) (Ttank : F) : F :=
  let Ucond := overall_heat_transfer_coefficient inputValues in
  let Acond := heat_transfer_area inputValues in
  let Tcond := fixed_condenser_temperature_K inputValues in
  Ucond * Acond * (Tcond - Ttank).

(** [CalculateQloss(inputValues, Atank, Ttank, Tambient)] *)
Definition CalculateQloss (inputValues : InputValues F)
    (Atank Ttank Tambient : F) : F :=
  let Uloss := heat_loss_coefficient inputValues in
  Uloss * Atank * (Ttank - Tambient).

(** [vol_calc(inputValues)] *)
Definition vol_calc (inputValues : InputValues F) : F :=
  let water_mass := mass_of_water inputValues in
  water_mass / #1000.

(** [tank_dimension(tank_vol, RHratio)]: returns [(h, r)].  The division
    is one of Python floats and raises on [math.pi * RHratio == 0]. *)
Definition tank_dimension (tank_vol RHratio : F) : result (F * F) :=
  q ← pydiv tank_vol (pi * RHratio);
  let r := q ** (#1 / #3) in
  let h := RHratio * r in
  Ok (h, r).

(** [tank_SA(inputValues, RHratio)] *)
Definition tank_SA (inputValues : InputValues F) (RHratio : F) : result F :=
  let tank_vol := vol_calc inputValues in
  '(h, r) ← tank_dimension tank_vol RHratio;
  Ok (#2 * pi * r * h + #2 * pi * r ** #2).

(** [calculate_total_energy_consumption(Pin_values, time_values)] *)
Definition calculate_total_energy_consumption
    (Pin_values time_values : PySeq F) : result F :=
  let total_energy := #0 in
  let time_values := mul_int time_values 3600 in
  for_each (range 1 (len Pin_values)) (fun i total_energy =>
    ti ← getitem time_values i;
    tp ← getitem time_values (i - 1);
    let delta_t := ti - tp in
    p ← getitem Pin_values i;
    let energy_step := p * delta_t in
    Ok (total_energy + energy_step)) total_energy.

(** [calculate_total_heat_transfer(qtransfer, time_values)] *)
Definition calculate_total_heat_transfer
    (qtransfer time_values : PySeq F) : result F :=
  let total_heat_transfer_energy := #0 in
  let time_values := mul_int time_values 3600 in
  for_each (range 1 (len qtransfer)) (fun i total_heat_transfer_energy =>
    ti ← getitem time_values i;
    tp ← getitem time_values (i - 1);
    let delta_t := ti - tp in
    q ← getitem qtransfer i;
    let heat_energy_step := q * delta_t in
    Ok (total_heat_transfer_energy + heat_energy_step))
    total_heat_transfer_energy.

(** [calculate_total_heat_loss(heatloss, time_values)] *)
Definition calculate_total_heat_loss
    (heatloss time_values : PySeq F) : result F :=
  let total_heat_loss := #0 in
  let time_values := mul_int time_values 3600 in
  for_each (range 1 (len heatloss)) (fun i total_heat_loss =>
    ti ← getitem time_values i;
    tp ← getitem time_values (i - 1);
    let delta_t := ti - tp in
    q ← getitem heatloss i;
    let heat_energy_loss_step := q * delta_t in
    Ok (total_heat_loss + heat_energy_loss_step)) total_heat_loss.

(** [calculate_total_eff(total_load, total_qtransfer)]: both are Python
    floats, so a zero [total_qtransfer] raises. *)
Definition calculate_total_eff (total_load total_qtransfer : F) : result F :=
  q ← pydiv total_load total_qtransfer;
  Ok (q * #100).

(** Python's [max] over a sequence: [ValueError] when it is empty, else
    the first of the greatest items. *)
Definition py_max (s : PySeq F) : result F :=
  match items s with
  | [] => Raise ValueError
  | x :: xs => Ok (foldl (fun m y => if y >? m then y else m) x xs)
  end.

(** [Qmax(Pin, COP)] *)
Definition Qmax (Pin COP : PySeq F) : result F :=
  mp ← py_max Pin;
  mc ← py_max COP;
  Ok (mp * mc).

End Formulae.
End formulae.

(** ** [DHW.py] *)

(** One draw-off event as sampled in the loop of [dhw_profile]: the start
    time (normal around the chosen peak), the duration (exponential; the
    source rebinds its parameter [duration] to it) and the flow rate
    (uniform).  The sampled values are inputs of the model. *)
Record DHWEvent (F : Type) : Type := {
  start_time : F;
  event_duration : F;
  flow_rate : F
}.
Arguments start_time {F} _.
Arguments event_duration {F} _.
Arguments flow_rate {F} _.

(** [pd.Series(values, index=index)] *)
Record Series (F : Type) : Type := {
  index : list F;
  values : list F
}.
Arguments index {F} _.
Arguments values {F} _.

Module DHW.
Section DHW.
Context {F : Type} `{Arith F}.
Local Open Scope num_scope.

(** A slice bound [i] of [a[i:j]] brought into [0 .. length], as Python
    does ([PySlice_AdjustIndices], step 1): a negative bound counts from
    the end, and what is still outside is clipped. *)
Definition adjust_index (length i : Z) : Z :=
  if (i <? 0)%Z
  then (if (i + length <? 0)%Z then 0 else i + length)%Z
  else (if (length <=? i)%Z then length else i).

(** [a[start:stop] += v] on a numpy array. *)
Definition slice_iadd (a : list F) (start stop : Z) (v : F) : list F :=
  let n := Z.of_nat (length a) in
  let lo := adjust_index n start in
  let hi := adjust_index n stop in
  imap (fun k x =>
          if (lo <=? Z.of_nat k)%Z && (Z.of_nat k <? hi)%Z
          then x + v else x) a.

(** [start_index = int(start_time / time_step)] *)
Definition start_index (time_step : F) (ev : DHWEvent F) : Z :=
  trunc (start_time ev / time_step).

(** [end_index = int((start_time + duration) / time_step)] *)
Definition end_index (time_step : F) (ev : DHWEvent F) : Z :=
  trunc ((start_time ev + event_duration ev) / time_step).

(** The body of the event loop, after the draws: "Add event to the
    profile". *)
Definition add_event (time_step : F) (profile : list F) (ev : DHWEvent F)
    : list F :=
  slice_iadd profile (start_index time_step ev) (end_index time_step ev)
    (flow_rate ev).

(** [math.ceil] from [int]. *)
Definition ceil (x : F) : Z :=
  if #(trunc x) <? x then (trunc x + 1)%Z else trunc x.

(** [np.arange(0, stop, step)] *)
Definition np_arange (stop step : F) : list F :=
  map (fun i : nat => #0 + #(Z.of_nat i) * step)
      (seq 0 (Z.to_nat (ceil ((stop - #0) / step)))).

(** [dhw_profile(duration, time_step)], on the events drawn under the
    fixed seed.  [pd.Series] refuses an index of another length. *)
Definition dhw_profile (duration time_step : F) (events : list (DHWEvent F))
    : result (Series F) :=
  q ← pydiv (duration * #3600) time_step;
  let total_steps := trunc q in
  let times := np_arange (duration * #3600) time_step in
  if (total_steps <? 0)%Z then Raise ValueError
  else
    let profile := np_zeros (Z.to_nat total_steps) in
    let profile := foldl (add_event time_step) profile events in
    if decide (length times = length profile)
    then Ok {| index := times; values := profile |}
    else Raise ValueError.

Section Interpolant.
(** [scipy.interpolate.PchipInterpolator(x, y)]: the callable it builds. *)
Variable PchipInterpolator : list F -> list F -> F -> F.

(** [dhw_profile_interpolator(profile)] *)
Definition dhw_profile_interpolator (profile : Series F) : F -> F :=
  PchipInterpolator (map (fun t => t / #3600) (index profile))
                    (values profile).

(** [get_dhw_profile()]: the defaults are 24 hours and 60 seconds. *)
Definition get_dhw_profile (events : list (DHWEvent F)) : result (F -> F) :=
  profile ← dhw_profile #24 #60 events;
  let interp := dhw_profile_interpolator profile in
  Ok interp.
End Interpolant.

End DHW.
End DHW.

(** ** [simulation.py] *)

Module simulation.

(** The pump status strings ['on'] and ['off']. *)
Inductive PumpStatus : Type := on | off.

(** The last component of what [euler] returns: a list of floats, or a
    string. *)
Inductive QDHWReturn (F : Type) : Type :=
  | QDHW_list (l : PySeq F)
  | QDHW_str (s : string).
Arguments QDHW_list {F} l.
Arguments QDHW_str {F} s.

(** The attributes of a [Simulator] object set by [__init__].
    [fit_a] and [fit_b] are copied from the [ManufacturerCOP] object and
    are [None] when no fit was stored there. *)
Record Simulator (F : Type) : Type := {
  inputValues : InputValues F;
  interpolated_data : F -> F;
  fit_a : option F;
  fit_b : option F;
  RHratio : F;
  DHW : bool
}.
Arguments inputValues {F} _.
Arguments interpolated_data {F} _.
Arguments fit_a {F} _.
Arguments fit_b {F} _.
Arguments RHratio {F} _.
Arguments DHW {F} _.

(** The local variables of [euler] that its loop updates. *)
Record LoopState (F : Type) : Type := {
  pump_status : PumpStatus;
  Ttank_values : list F;
  cop_values : list F;
  heat_load_values : list F;
  heat_loss_values : list F;
  Pin_values : list F;
  Qtransfer_values : list F
}.
Arguments pump_status {F} _.
Arguments Ttank_values {F} _.
Arguments cop_values {F} _.
Arguments heat_load_values {F} _.
Arguments heat_loss_values {F} _.
Arguments Pin_values {F} _.
Arguments Qtransfer_values {F} _.

(** The dictionary written by [store_values]. *)
Record Results (F : Type) : Type := {
  r_time : PySeq F;
  r_temperature : PySeq F;
  r_heat_load : PySeq F;
  r_heat_loss : PySeq F;
  r_COP : PySeq F;
  r_Power_consumption : PySeq F;
  r_Total_Energy_Consumption : F;
  r_Total_system_efficiency : F;
  r_Heat_pump_maximum_output : F;
  r_Domestic_Hot_Water_Loss : QDHWReturn F
}.

Section Simulator.
Context {F : Type} `{Arith F}.
Local Open Scope num_scope.

(** The analogue of [DHW.get_dhw_profile()]: the interpolant of the
    profile drawn for this run, or the exception it raised. *)
Variable get_dhw_profile : result (F -> F).

(** The literal [273.15]. *)
Definition lit_273_15 : F := #27315 / #100.

(** [x / k] for a Python float [x] and a Python int [k]. *)
Definition pydiv_int (x : F) (k : Z) : result F :=
  if (k =? 0)%Z then Raise ZeroDivisionError else Ok (x / #k).

(** Lines 94-97, "Update pump status based on thresholds". *)
Definition update_pump_status (T_on T_off : F) (pump_status : PumpStatus)
    (Ttank : F) : PumpStatus :=
  if Ttank >=? T_off then off
  else if Ttank <=? T_on then on
  else pump_status.

(** The body of [for i in range(1, self.num_points)].  In the source
    [Qtransfer] and [COP] are the Python int [0] when the pump is off, so
    the division in [Pin] is one that raises on a zero divisor. *)
Definition euler_step (self : Simulator F) (dhw_interp_profile : F -> F)
    (T_on T_off step_size T_inlet Atank : F) (time_values : list F)
    (i : nat) (st : LoopState F) : result (LoopState F) :=
  t ← getitem (NdArray time_values) (i - 1);
  Ttank ← getitem (NdArray (Ttank_values st)) (i - 1);
  let Tamb := interpolated_data self (t / #3600) in
  let QDHW :=
    if DHW self
    then let mdot_DHW := dhw_interp_profile (t / #3600) in
         mdot_DHW * #4186 * (Ttank - T_inlet)
    else #0 in
  let pump_status := update_pump_status T_on T_off (pump_status st) Ttank in
  let Qload := formulae.CalculateQload (inputValues self) Tamb in
  let Qtransfer :=
    match pump_status with
    | on => formulae.CalculateQtransfer (inputValues self) Ttank
    | off => #0
    end in
  let Qloss := formulae.CalculateQloss (inputValues self) Atank Ttank Tamb in
  COP ← match pump_status with
        | on => match fit_a self, fit_b self with
                | Some a, Some b =>
                    Ok (formulae.COP (#65 + lit_273_15 - Tamb) a b)
                | _, _ => Raise TypeError
                end
        | off => Ok #0
        end;
  Pin ← (if COP >? #0 then pydiv Qtransfer COP else Ok #0);
  heat_load_values ← setitem (heat_load_values st) i Qload;
  Qtransfer_values ← setitem (Qtransfer_values st) i Qtransfer;
  heat_loss_values ← setitem (heat_loss_values st) i Qloss;
  cop_values ← setitem (cop_values st) i COP;
  Pin_values ← setitem (Pin_values st) i Pin;
  let dTdt := (Qtransfer - Qload - Qloss - QDHW)
              / total_thermal_capacity (inputValues self) in
  Ttank_values ← setitem (Ttank_values st) i (Ttank + step_size * dTdt);
  Ok {| pump_status := pump_status;
        Ttank_values := Ttank_values;
        cop_values := cop_values;
        heat_load_values := heat_load_values;
        heat_loss_values := heat_loss_values;
        Pin_values := Pin_values;
        Qtransfer_values := Qtransfer_values |}.

(** [Simulator.euler(self)].  [st0] holds the local variables as they are
    before [Ttank_values[0]] is set; when DHW is off [dhw_interp_profile]
    is unbound in the source and never called.  The eight components of
    the returned tuple are: time (hours), tank temperature, heat load,
    heat loss, COP, power input, heat transfer and the DHW channel. *)
Definition euler (self : Simulator F)
    : result (PySeq F * PySeq F * PySeq F * PySeq F * PySeq F * PySeq F
              * PySeq F * QDHWReturn F) :=
  let T_off := off_temperature_threshold_K (inputValues self) in
  let T_on := on_temperature_threshold_K (inputValues self) in
  let total_time := total_time_seconds (inputValues self) in
  let num_points := time_points (inputValues self) in
  time_values ← np_linspace #0 total_time num_points;
  step_size ← pydiv_int total_time (num_points - 1);
  let T_inlet := #300 in
  let initial_tank_temp := initial_tank_temperature_K (inputValues self) in
  let initial_pump_status :=
    if initial_tank_temp <? T_on then on else off in
  let st0 :=
    {| pump_status := initial_pump_status;
       Ttank_values := np_zeros (Z.to_nat num_points);
       cop_values := np_zeros (Z.to_nat num_points);
       heat_load_values := np_zeros (Z.to_nat num_points);
       heat_loss_values := np_zeros (Z.to_nat num_points);
       Pin_values := np_zeros (Z.to_nat num_points);
       Qtransfer_values := np_zeros (Z.to_nat num_points) |} in
  dhw_interp_profile ←
    (if DHW self then get_dhw_profile else Ok (fun _ => #0));
  let QDHW_values := np_zeros (Z.to_nat num_points) in
  Atank ← formulae.tank_SA (inputValues self) (RHratio self);
  Ttank0 ← setitem (Ttank_values st0) 0 initial_tank_temp;
  st ← for_each (range 1 (Z.to_nat num_points))
         (euler_step self dhw_interp_profile T_on T_off step_size T_inlet
                     Atank time_values)
         {| pump_status := pump_status st0;
            Ttank_values := Ttank0;
            cop_values := cop_values st0;
            heat_load_values := heat_load_values st0;
            heat_loss_values := heat_loss_values st0;
            Pin_values := Pin_values st0;
            Qtransfer_values := Qtransfer_values st0 |};
  let QDHWReturn :=
    if DHW self then QDHW_list (tolist QDHW_values)
    else QDHW_str "DHW Simulation Off" in
  Ok (tolist (map (fun t => t / #3600) time_values),
      tolist (Ttank_values st),
      tolist (heat_load_values st),
      tolist (heat_loss_values st),
      tolist (cop_values st),
      tolist (Pin_values st),
      tolist (Qtransfer_values st),
      QDHWReturn).

(** [Simulator.calculate_performance(self, ...)] *)
Definition calculate_performance (self : Simulator F)
    (time_values temperature_values heat_load_values heat_loss_values
     cop_values Pin_values Qtransfer_values : PySeq F)
    : result (F * F * F) :=
  total_energy ←
    formulae.calculate_total_energy_consumption Pin_values time_values;
  total_qtransfer ←
    formulae.calculate_total_heat_transfer Qtransfer_values time_values;
  hl_tot ← formulae.calculate_total_heat_loss heat_load_values time_values;
  total_eff ← formulae.calculate_total_eff hl_tot total_qtransfer;
  max_out ← formulae.Qmax Pin_values cop_values;
  Ok (total_energy, total_eff, max_out).

(** [Simulator.store_values(self, ...)]: the dictionary it builds (the
    JSON file it is dumped to is not modelled). *)
Definition store_values (self : Simulator F)
    (time_values temperature_values heat_load_values heat_loss_values
     cop_values Pin_values : PySeq F) (total_energy total_eff max_out : F)
    (QDHW : QDHWReturn F) : Results F :=
  {| r_time := time_values;
     r_temperature :=
       PyList (map (fun temp => temp - lit_273_15) (items temperature_values));
     r_heat_load := heat_load_values;
     r_heat_loss := heat_loss_values;
     r_COP := cop_values;
     r_Power_consumption := Pin_values;
     r_Total_Energy_Consumption := total_energy;
     r_Total_system_efficiency := total_eff;
     r_Heat_pump_maximum_output := max_out;
     r_Domestic_Hot_Water_Loss := QDHW |}.

(** [Simulator.simulate(self)] *)
Definition simulate (self : Simulator F) : result (Results F) :=
  '(time_values, temperature_values, heat_load_values, heat_loss_values,
    cop_values, Pin_values, Qtransfer_values, QDHW) ← euler self;
  '(total_energy, total_eff, max_out) ←
    calculate_performance self time_values temperature_values
      heat_load_values heat_loss_values cop_values Pin_values
      Qtransfer_values;
  Ok (store_values self time_values temperature_values heat_load_values
        heat_loss_values cop_values Pin_values total_energy total_eff
        max_out QDHW).

End Simulator.
End simulation.

(** ** [external_data_handling.py]: the calibration *)

(** [try: body except Exception as e: handler(e)] *)
Definition try_except {A : Type} (body : result A)
    (handler : PyError -> result A) : result A :=
  match body with
  | Ok a => Ok a
  | Raise e => handler e
  end.

(** The text of an exception, taken to be the name of its class. *)
Definition str_of_error (e : PyError) : string :=
  match e with
  | ZeroDivisionError => "ZeroDivisionError"
  | IndexError => "IndexError"
  | ValueError => "ValueError"
  | TypeError => "TypeError"
  | KeyError => "KeyError"
  | AttributeError => "AttributeError"
  | FileNotFoundError => "FileNotFoundError"
  | RuntimeError => "RuntimeError"
  end.

Module external_data_handling.

(** The attributes of a [ManufacturerCOP] object. *)
Record ManufacturerCOP (F : Type) : Type := {
  file_name : string;
  fit_a : option F;
  fit_b : option F;
  std_error : option F
}.
Arguments file_name {F} _.
Arguments fit_a {F} _.
Arguments fit_b {F} _.
Arguments std_error {F} _.

Section Calibration.
Context {F : Type} `{Arith F}.
Local Open Scope num_scope.

(** Opening and parsing the YAML file and framing its
    ['heat_pump_cop_data'] rows: the pairs (outdoor_temp_C, COP_noisy),
    or the exception raised on the way. *)
Variable read_cop_data : string -> result (list (F * F)).

(** [scipy.optimize.curve_fit(f, xdata, ydata)]: the two fitted
    parameters and the 2x2 covariance matrix (by rows), or the exception
    it raises. *)
Variable curve_fit :
  (F -> F -> F -> F) -> list F -> list F ->
  result ((F * F) * ((F * F) * (F * F))).

(** [__init__(self, file_name)] *)
Definition init (file_name : string) : ManufacturerCOP F :=
  {| file_name := file_name;
     fit_a := None; fit_b := None; std_error := None |}.

(** [get_cop_parameters(self, condenserTemp)]: the object after the call
    and the lines printed.  The whole body is inside [try]; the handler
    prints and returns. *)
Definition get_cop_parameters (self : ManufacturerCOP F) (condenserTemp : F)
    : result (ManufacturerCOP F * list string) :=
  try_except
    (cop_df ← read_cop_data (file_name self);
     let deltaT :=
       map (fun row => (condenserTemp - (#27315 / #100)) - fst row) cop_df in
     let copNoisy := map snd cop_df in
     '(parameters, covariance) ← curve_fit formulae.COP deltaT copNoisy;
     let '(a, b) := parameters in
     let '((c00, _), (_, c11)) := covariance in
     let std := (sqrt c00 + sqrt c11) / #2 in
     Ok ({| file_name := file_name self;
            fit_a := Some a; fit_b := Some b; std_error := Some std |},
         []))
    (fun e =>
       Ok (self,
           [("Error calculating COP parameters: " ++ str_of_error e)%string])).

End Calibration.
End external_data_handling.

(** ** [Main.py]: what is done before the window is opened *)

Module Main.
Section Main.
Context {F : Type} `{Arith F}.
Local Open Scope num_scope.

Variable read_cop_data : string -> result (list (F * F)).
Variable curve_fit :
  (F -> F -> F -> F) -> list F -> list F ->
  result ((F * F) * ((F * F) * (F * F))).
(** The loaded [inputs.yaml] and the ambient interpolant. *)
Variable input_values : InputValues F.
Variable interpolated_data : F -> F.

Definition manufacturer_cop_data : string :=
  "heat_pump_cop_synthetic_full.yaml".
Definition condenser_temp_celcius : F := #65 + (#27315 / #100).
Definition RHratio : F := #2.
Definition DHWsimulation : bool := false.

(** The script up to [Simulation = simulation.Simulator(...)]: the
    simulator object handed to the window, and the lines printed. *)
Definition main : result (simulation.Simulator F * list string) :=
  let manufacturer_cop := external_data_handling.init manufacturer_cop_data in
  '(manufacturer_cop, printed) ←
    external_data_handling.get_cop_parameters read_cop_data curve_fit
      manufacturer_cop condenser_temp_celcius;
  Ok ({| simulation.inputValues := input_values;
         simulation.interpolated_data := interpolated_data;
         simulation.fit_a := external_data_handling.fit_a manufacturer_cop;
         simulation.fit_b := external_data_handling.fit_b manufacturer_cop;
         simulation.RHratio := RHratio;
         simulation.DHW := DHWsimulation |},
      printed).

End Main.
End Main.

(** ** Two arithmetics *)

(** *** Canonical rationals: the arithmetic the model is run on

    [+], [-], [*], [/] and the comparisons are exact and every result is
    reduced, so equal results are identical terms.  [math.pi] is its
    sixteen-digit decimal; a power with a fractional exponent and a
    square root are rounded down to nine decimals. *)

Module QInstance.

Definition Qlt_bool (a b : Q) : bool :=
  (Qnum a * QDen b <? Qnum b * QDen a)%Z.

(** [int(q)] *)
Definition Qtrunc (q : Q) : Z := Z.quot (Qnum q) (QDen q).

(** The greatest [r] in [lo .. hi) with [r ^ d <= n], by bisection. *)
Fixpoint iroot_search (fuel : nat) (d n lo hi : Z) : Z :=
  match fuel with
  | O => lo
  | S fuel' =>
      let mid := ((lo + hi) / 2)%Z in
      if (mid =? lo)%Z then lo
      else if (mid ^ d <=? n)%Z then iroot_search fuel' d n mid hi
      else iroot_search fuel' d n lo mid
  end.

Definition iroot (d n : Z) : Z :=
  iroot_search (S (Z.to_nat (Z.log2_up (n + 1)))) d n 0 (n + 1).

(** The [d]-th root of a positive rational, to nine decimals. *)
Definition Qroot (d : Z) (z : Q) : Q :=
  if Qle_bool z 0 then 0
  else Qred (Qmake (iroot d ((Qnum z * 10 ^ (9 * d)) / QDen z))
                   (Z.to_pos (10 ^ 9))).

Definition Qpow (x y : Q) : Q :=
  let y := Qred y in
  let z := Qred (Qpower x (Qnum y)) in
  if (Zpos (Qden y) =? 1)%Z then z else Qroot (Zpos (Qden y)) z.

#[export] Instance Q_arith : Arith Q := {|
  of_Z := inject_Z;
  add := fun a b => Qred (a + b);
  sub := fun a b => Qred (a - b);
  mul := fun a b => Qred (a * b);
  div := fun a b => Qred (a / b);
  pow := Qpow;
  sqrt := Qroot 2;
  pi := Qmake 3141592653589793 1000000000000000;
  eqb := Qeq_bool;
  ltb := Qlt_bool;
  leb := Qle_bool;
  trunc := Qtrunc
|}.

End QInstance.

(** *** Real numbers: the arithmetic of the algebraic identities

    [x ** y] is [exp (y * ln x)] for a positive base, which is where the
    tank geometry uses it. *)

Module RInstance.

Definition Reqb (a b : R) : bool := if Req_dec_T a b then true else false.
Definition Rltb (a b : R) : bool := if Rlt_dec a b then true else false.
Definition Rleb (a b : R) : bool := if Rle_dec a b then true else false.

Definition Rtrunc (x : R) : Z :=
  if Rle_dec 0 x then Int_part x else (- Int_part (- x))%Z.

Definition Rpow (x y : R) : R :=
  if Req_dec_T x 0 then (if Req_dec_T y 0 then 1%R else 0%R)
  else Rpower x y.

#[export] Instance R_arith : Arith R := {|
  of_Z := IZR;
  add := Rplus;
  sub := Rminus;
  mul := Rmult;
  div := Rdiv;
  pow := Rpow;
  sqrt := R_sqrt.sqrt;
  pi := PI;
  eqb := Reqb;
  ltb := Rltb;
  leb := Rleb;
  trunc := Rtrunc
|}.

End RInstance.

(** ** Definitions used to state the properties *)

Section Statements.
Context {F : Type} `{Arith F}.
Local Open Scope num_scope.

(** The sum over [i = 1 .. N-1] of
    [values[i] * (time_seconds[i] - time_seconds[i-1])], accumulated from
    [0] in increasing [i]. *)
Definition left_endpoint_sum (values time_seconds : list F) : F :=
  foldl (fun acc i =>
           acc + nth i values #0
                 * (nth i time_seconds #0 - nth (i - 1) time_seconds #0))
        #0 (seq 1 (length values - 1)).

(** The time series handed to the aggregator for [N] uniformly spaced
    points over [D] seconds, as [euler] builds it:
    [np.linspace(0, D, N) / 3600]. *)
Definition uniform_hours (D : F) (N : nat) : list F :=
  match np_linspace #0 D (Z.of_nat N) with
  | Ok time_values => map (fun t => t / #3600) time_values
  | Raise _ => []
  end.

(** The value the specification gives for the integral of a constant
    series: [v * D * (N-2)/(N-1)]. *)
Definition skipped_interval_value (v D : F) (N : nat) : F :=
  v * D * #(Z.of_nat N - 2) / #(Z.of_nat N - 1).

(** The pump status in force during step [i] of the loop: the initial
    status for [i = 0], then one update per step from the tank
    temperature of the step before. *)
Fixpoint pump_status_at (T_on T_off : F) (initial : simulation.PumpStatus)
    (Ttank_values : list F) (i : nat) : simulation.PumpStatus :=
  match i with
  | O => initial
  | S k =>
      match Ttank_values !! k with
      | Some Ttank =>
          simulation.update_pump_status T_on T_off
            (pump_status_at T_on T_off initial Ttank_values k) Ttank
      | None => pump_status_at T_on T_off initial Ttank_values k
      end
  end.

(** The calibration of the file [file] fails with [e]: reading the data
    raises [e], or [curve_fit] does on the data read. *)
Definition calibration_fails
    (read_cop_data : string -> result (list (F * F)))
    (curve_fit : (F -> F -> F -> F) -> list F -> list F ->
                 result ((F * F) * ((F * F) * (F * F))))
    (file : string) (condenserTemp : F) (e : PyError) : Prop :=
  read_cop_data file = Raise e
  \/ exists cop_df,
       read_cop_data file = Ok cop_df
       /\ curve_fit formulae.COP
            (map (fun row => (condenserTemp - (#27315 / #100)) - fst row)
                 cop_df)
            (map snd cop_df) = Raise e.

(** The quantities of one step of [euler], from the time [t] and the tank
    temperature [Ttank] of the step before and the pump status in force. *)
Section StepQuantities.
Variable self : simulation.Simulator F.
Variable dhw_interp_profile : F -> F.
Variable Atank : F.

Definition step_Tamb (t : F) : F :=
  simulation.interpolated_data self (t / #3600).

Definition step_QDHW (t Ttank : F) : F :=
  if simulation.DHW self
  then dhw_interp_profile (t / #3600) * #4186 * (Ttank - #300)
  else #0.

Definition step_Qload (t : F) : F :=
  formulae.CalculateQload (simulation.inputValues self) (step_Tamb t).

Definition step_Qtransfer (status : simulation.PumpStatus) (Ttank : F) : F :=
  match status with
  | simulation.on =>
      formulae.CalculateQtransfer (simulation.inputValues self) Ttank
  | simulation.off => #0
  end.

Definition step_Qloss (t Ttank : F) : F :=
  formulae.CalculateQloss (simulation.inputValues self) Atank Ttank
    (step_Tamb t).

Definition step_COP (a b : F) (status : simulation.PumpStatus) (t : F) : F :=
  match status with
  | simulation.on =>
      formulae.COP (#65 + simulation.lit_273_15 - step_Tamb t) a b
  | simulation.off => #0
  end.

Definition step_Pin (Qtransfer COP : F) : F :=
  if COP >? #0 then Qtransfer / COP else #0.

(** [self.step_size] and [self.initial_pump_status] *)
Definition run_step_size : F :=
  total_time_seconds (simulation.inputValues self)
  / #(time_points (simulation.inputValues self) - 1).

Definition initial_pump_status : simulation.PumpStatus :=
  if initial_tank_temperature_K (simulation.inputValues self)
     <? on_temperature_threshold_K (simulation.inputValues self)
  then simulation.on else simulation.off.

(** The pump status in force during step [i] of a run whose tank
    temperatures are [Ttank_values]. *)
Definition run_status (Ttank_values : list F) (i : nat)
    : simulation.PumpStatus :=
  pump_status_at (on_temperature_threshold_K (simulation.inputValues self))
                 (off_temperature_threshold_K (simulation.inputValues self))
                 initial_pump_status Ttank_values i.

Definition step_Ttank (status : simulation.PumpStatus) (t Ttank : F) : F :=
  Ttank
  + run_step_size
    * ((step_Qtransfer status Ttank - step_Qload t - step_Qloss t Ttank
        - step_QDHW t Ttank)
       / total_thermal_capacity (simulation.inputValues self)).

(** What step [j] has left in the arrays: the invariant of the loop. *)
Definition step_recorded (a b : F) (time_values : list F)
    (st : simulation.LoopState F) (j : nat) : Prop :=
  exists t Ttank : F,
    time_values !! (j - 1)%nat = Some t
    /\ simulation.Ttank_values st !! (j - 1)%nat = Some Ttank
    /\ let status := run_status (simulation.Ttank_values st) j in
       simulation.heat_load_values st !! j = Some (step_Qload t)
       /\ simulation.Qtransfer_values st !! j
          = Some (step_Qtransfer status Ttank)
       /\ simulation.heat_loss_values st !! j = Some (step_Qloss t Ttank)
       /\ simulation.cop_values st !! j = Some (step_COP a b status t)
       /\ simulation.Pin_values st !! j
          = Some (step_Pin (step_Qtransfer status Ttank)
                           (step_COP a b status t))
       /\ simulation.Ttank_values st !! j
          = Some (step_Ttank status t Ttank).

Record euler_inv (a b : F) (time_values : list F) (N k : nat)
    (st : simulation.LoopState F) : Prop := {
  inv_len_Ttank : length (simulation.Ttank_values st) = N;
  inv_len_cop : length (simulation.cop_values st) = N;
  inv_len_heat_load : length (simulation.heat_load_values st) = N;
  inv_len_heat_loss : length (simulation.heat_loss_values st) = N;
  inv_len_Pin : length (simulation.Pin_values st) = N;
  inv_len_Qtransfer : length (simulation.Qtransfer_values st) = N;
  inv_status :
    simulation.pump_status st
    = run_status (simulation.Ttank_values st) (k - 1);
  inv_Ttank_0 :
    simulation.Ttank_values st !! 0%nat
    = Some (initial_tank_temperature_K (simulation.inputValues self));
  inv_cop_0 : simulation.cop_values st !! 0%nat = Some #0;
  inv_heat_load_0 : simulation.heat_load_values st !! 0%nat = Some #0;
  inv_heat_loss_0 : simulation.heat_loss_values st !! 0%nat = Some #0;
  inv_Pin_0 : simulation.Pin_values st !! 0%nat = Some #0;
  inv_Qtransfer_0 : simulation.Qtransfer_values st !! 0%nat = Some #0;
  inv_steps :
    forall j : nat, (1 <= j < k)%nat -> step_recorded a b time_values st j
}.

End StepQuantities.

End Statements.

(** ** A concrete run, on rationals

    A 200 kg tank ([RHratio = 2]) starting at 45 C between the thresholds
    40 C and 60 C, ambient temperature constant at 280 K, COP model
    [3 + 50/deltaT], [total_time] seconds cut into [num_points] time
    points. *)

Module Demo.
Import QInstance.
Local Open Scope num_scope.

Definition inputs (total_time num_points : Z) : InputValues Q := {|
  off_temperature_threshold_K := #33315 / #100;
  on_temperature_threshold_K := #31315 / #100;
  overall_heat_transfer_coefficient := #500;
  heat_transfer_area := #5;
  fixed_condenser_temperature_K := #33815 / #100;
  total_time_seconds := #total_time;
  time_points := num_points;
  initial_tank_temperature_K := #31815 / #100;
  wall_area := #132;
  wall_U_value := #1 / #2;
  roof_area := #120;
  roof_U_value := #1 / #4;
  indoor_setpoint_temperature_K := #29315 / #100;
  mass_of_water := #200;
  heat_loss_coefficient := #5;
  total_thermal_capacity := #837200
|}.

Definition simulator (total_time num_points : Z) (DHWsimulationBool : bool)
    : simulation.Simulator Q := {|
  simulation.inputValues := inputs total_time num_points;
  simulation.interpolated_data := fun _ => #280;
  simulation.fit_a := Some #3;
  simulation.fit_b := Some #50;
  simulation.RHratio := #2;
  simulation.DHW := DHWsimulationBool
|}.

(** A draw-off profile of constant flow 0.4 kg/s. *)
Definition flow : Q -> Q := fun _ => #2 / #5.

(** The simulator [Main] builds when the calibration has stored no fit. *)
Definition uncalibrated (total_time num_points : Z)
    : simulation.Simulator Q := {|
  simulation.inputValues := inputs total_time num_points;
  simulation.interpolated_data := fun _ => #280;
  simulation.fit_a := None;
  simulation.fit_b := None;
  simulation.RHratio := #2;
  simulation.DHW := false
|}.


End Demo.

(** ** [external_data_handling.py]: the parameter store

    [getYAML] and the class [InputValues] as they are written, on
    whatever document the file holds.  The file the program ships is a
    dictionary of categories, each a dictionary of parameter names, each
    a dictionary of fields, of which ["value"] is the one read; nothing
    in the code checks that shape, and the methods raise as Python does
    on any other.  (The record [InputValues] above is what such a store
    gives once every parameter of the simulator has been read.) *)

Module parameter_store.
Section Store.
(** Numbers. *)
Context {V : Type}.

(** What [yaml.safe_load] builds: [None], numbers (and booleans),
    strings, lists and dictionaries.  A list or a dictionary is an object
    of its own, held by reference: an alias node of the document gives the
    very object of its anchor.  The methods look up strings only, so the
    fields of a dictionary are its string keys (other keys equal no
    string). *)
Definition address : Type := nat.

Inductive pyvalue : Type :=
  | PyNone
  | PyNumber (v : V)
  | PyStr (s : string)
  | PyRef (a : address).

Inductive pyobject : Type :=
  | PyListObj (elements : list pyvalue)
  | PyDictObj (fields : gmap.gmap string pyvalue).

(** The objects, by address. *)
Definition heap : Type := address -> pyobject.

(** The objects after the object at [a] has become [object]. *)
Definition heap_update (h : heap) (a : address) (object : pyobject) : heap :=
  fun a' => if Nat.eqb a' a then object else h a'.

(** [key in s] on two strings. *)
Fixpoint is_substring (key s : string) : bool :=
  String.prefix key s
  || match s with
     | EmptyString => false
     | String _ s' => is_substring key s'
     end.

(** [key in x] for a string [key]: not defined on [None] and numbers; a
    substring test on a string; on a list, whether an element equals the
    string. *)
Definition py_contains (h : heap) (x : pyvalue) (key : string)
    : result bool :=
  match x with
  | PyNone | PyNumber _ => Raise TypeError
  | PyStr s => Ok (is_substring key s)
  | PyRef a =>
      match h a with
      | PyListObj elements =>
          Ok (existsb (fun element =>
                         match element with
                         | PyStr s => String.eqb s key
                         | _ => false
                         end) elements)
      | PyDictObj fields =>
          Ok (match fields !! key with Some _ => true | None => false end)
      end
  end.

(** [x[key]] for a string [key]: only a dictionary is subscripted by a
    string. *)
Definition py_getitem (h : heap) (x : pyvalue) (key : string)
    : result pyvalue :=
  match x with
  | PyNone | PyNumber _ | PyStr _ => Raise TypeError
  | PyRef a =>
      match h a with
      | PyListObj _ => Raise TypeError
      | PyDictObj fields =>
          match fields !! key with
          | Some v => Ok v
          | None => Raise KeyError
          end
      end
  end.

(** [x.get(key, None)]: only a dictionary has the method. *)
Definition py_get (h : heap) (x : pyvalue) (key : string)
    : result pyvalue :=
  match x with
  | PyNone | PyNumber _ | PyStr _ => Raise AttributeError
  | PyRef a =>
      match h a with
      | PyListObj _ => Raise AttributeError
      | PyDictObj fields =>
          Ok (match fields !! key with Some v => v | None => PyNone end)
      end
  end.

(** [x[key] = v] for a string [key]: the dictionary is changed in place,
    for every holder of a reference to it. *)
Definition py_setitem (h : heap) (x : pyvalue) (key : string) (v : pyvalue)
    : result heap :=
  match x with
  | PyNone | PyNumber _ | PyStr _ => Raise TypeError
  | PyRef a =>
      match h a with
      | PyListObj _ => Raise TypeError
      | PyDictObj fields =>
          Ok (heap_update h a (PyDictObj (<[key := v]> fields)))
      end
  end.

(** Opening the file and [yaml.safe_load]: the value loaded ([None] for
    an empty document) with the objects built, or the exception raised. *)
Variable safe_load_file : string -> result (pyvalue * heap).

(** [getYAML(file_name)]: what it returns and the lines it prints. *)
Definition getYAML (file_name : string)
    : result ((pyvalue * heap) * list string) :=
  try_except
    (input_dict ← safe_load_file file_name;
     Ok (input_dict, []))
    (fun e =>
       Ok ((PyNone, fun _ => PyDictObj ∅),
           [("Error occurred when collecting data from YAML file: "
             ++ str_of_error e)%string])).

(** The attributes of an [InputValues] object, and the objects its data
    refers to. *)
Record InputValues : Type := {
  input_name : string;
  data : pyvalue;
  objects : heap
}.

(** [__init__(self, input_name)] *)
Definition init (input_name : string) : InputValues :=
  {| input_name := input_name; data := PyNone;
     objects := fun _ => PyDictObj ∅ |}.

(** [load_data(self)] *)
Definition load_data (self : InputValues)
    : result (InputValues * list string) :=
  '(loaded, printed) ← getYAML (input_name self);
  Ok ({| input_name := input_name self; data := fst loaded;
         objects := snd loaded |}, printed).

(** [value(self, ValueType, ValueName)] *)
Definition value (self : InputValues) (ValueType ValueName : string)
    : result pyvalue :=
  let h := objects self in
  match data self with
  | PyNone => Raise ValueError
  | data =>
      found ← py_contains h data ValueType;
      if negb found then Raise KeyError
      else
        category ← py_getitem h data ValueType;
        found ← py_contains h category ValueName;
        if negb found then Raise KeyError
        else
          category ← py_getitem h data ValueType;
          entry ← py_getitem h category ValueName;
          py_get h entry "value"
  end.

(** [change_input_value(self, ValueType, ValueName, newValue)]:
    [self.data[ValueType][ValueName]["value"] = newValue]. *)
Definition change_input_value (self : InputValues)
    (ValueType ValueName : string) (newValue : pyvalue)
    : result InputValues :=
  let h := objects self in
  category ← py_getitem h (data self) ValueType;
  entry ← py_getitem h category ValueName;
  h ← py_setitem h entry "value" newValue;
  Ok {| input_name := input_name self; data := data self; objects := h |}.

End Store.
Arguments pyvalue V : clear implicits.
Arguments pyobject V : clear implicits.
Arguments heap V : clear implicits.
Arguments InputValues V : clear implicits.
End parameter_store.

(** ** [external_data_handling.py]: the ambient temperature data *)

Module ambient.
Section Ambient.
(** Meteostat points, [datetime]s, pandas frames and interpolants. *)
Context {Point DateTime DataFrame Interpolator : Type}.

(** The body of the [try] of [import_meteostat_data]: the fetch, the
    ['hours'] column, the conversion to Kelvin and the dropped columns. *)
Variable fetch_hourly : Point -> DateTime -> DateTime -> result DataFrame.
(** [pd.DataFrame()] *)
Variable empty_frame : DataFrame.
(** The body of the [try] of [interpolate_data]: the two columns and
    [PchipInterpolator(times, temps)]. *)
Variable build_interpolator : DataFrame -> result Interpolator.

(** The attributes of an [AmbientTempData] object. *)
Record AmbientTempData : Type := {
  location : option Point;
  start_time : option DateTime;
  end_time : option DateTime;
  meteostat_data : option DataFrame;
  interpolated_data : option Interpolator
}.

(** [__init__(self)] *)
Definition init : AmbientTempData :=
  {| location := None; start_time := None; end_time := None;
     meteostat_data := None; interpolated_data := None |}.

(** [import_meteostat_data(self)] *)
Definition import_meteostat_data (self : AmbientTempData)
    : result (AmbientTempData * list string) :=
  match location self with
  | None => Raise ValueError
  | Some loc =>
      match start_time self with
      | None => Raise ValueError
      | Some t0 =>
          match end_time self with
          | None => Raise ValueError
          | Some t1 =>
              try_except
                (df ← fetch_hourly loc t0 t1;
                 Ok ({| location := location self;
                        start_time := start_time self;
                        end_time := end_time self;
                        meteostat_data := Some df;
                        interpolated_data := interpolated_data self |},
                     []))
                (fun e =>
                   Ok ({| location := location self;
                          start_time := start_time self;
                          end_time := end_time self;
                          meteostat_data := Some empty_frame;
                          interpolated_data := interpolated_data self |},
                       [("Error fetching Meteostat data: "
                         ++ str_of_error e)%string]))
          end
      end
  end.

(** [interpolate_data(self)] *)
Definition interpolate_data (self : AmbientTempData)
    : result (AmbientTempData * list string) :=
  match meteostat_data self with
  | None => Raise ValueError
  | Some df =>
      try_except
        (f ← build_interpolator df;
         Ok ({| location := location self;
                start_time := start_time self;
                end_time := end_time self;
                meteostat_data := meteostat_data self;
                interpolated_data := Some f |},
             []))
        (fun e =>
           Ok (self,
               [("Error creating temperature interpolator: "
                 ++ str_of_error e)%string]))
  end.

(** [get_ambient_temps(self)]: the object after the call, what is
    returned, and the lines printed. *)
Definition get_ambient_temps (self : AmbientTempData)
    : result (AmbientTempData * option Interpolator * list string) :=
  '(self, printed1) ← import_meteostat_data self;
  '(self, printed2) ← interpolate_data self;
  Ok (self, interpolated_data self, printed1 ++ printed2).

End Ambient.
Arguments AmbientTempData Point DateTime DataFrame Interpolator
  : clear implicits.
End ambient.

(** ** [GUI.py]: the computations behind the two buttons *)

Module GUI.
Section GUI.
Context {F : Type} `{Arith F}.
Local Open Scope num_scope.

(** [float(text)] on the text of an entry: [None] stands for the
    [ValueError] of a text that is no number. *)
Variable float_of_text : string -> option F.

(** The parameters "collected in celcius but stored in Kelvin". *)
Definition kelvin_names : list string :=
  ["initial_tank_temperature_K"; "off_temperature_threshold_K";
   "on_temperature_threshold_K"; "indoor_setpoint_temperature_K"]%string.

(** The body of the loop of [run_simulation] over [self.entries.items()],
    on the entry of key [(ValueType, ValueName)] holding [text]: only the
    [ValueError] of [float] is caught. *)
Definition run_simulation_entry
    (st : parameter_store.InputValues F * list string)
    (entry : (string * string) * string)
    : result (parameter_store.InputValues F * list string) :=
  let '(inputValues, printed) := st in
  let '((ValueType, ValueName), text) := entry in
  match float_of_text text with
  | Some value =>
      let value :=
        if bool_decide (ValueName ∈ kelvin_names)
        then value + (#27315 / #100) else value in
      inputValues ←
        parameter_store.change_input_value inputValues ValueType ValueName
          (parameter_store.PyNumber value);
      Ok (inputValues, printed)
  | None =>
      Ok (inputValues,
          printed
          ++ [("Invalid value for " ++ ValueName ++ ": " ++ text)%string])
  end.

(** The loop of [run_simulation], before [simulate] is called. *)
Fixpoint run_simulation_entries
    (entries : list ((string * string) * string))
    (st : parameter_store.InputValues F * list string)
    : result (parameter_store.InputValues F * list string) :=
  match entries with
  | [] => Ok st
  | entry :: entries' =>
      st' ← run_simulation_entry st entry;
      run_simulation_entries entries' st'
  end.

(** [display_bar_chart(self, frame, results, param_name)] on a frame
    whose children are [frame]: the outcome and the children the frame is
    left with.  Empty results are refused.  All that follows
    [widget.destroy()] is inside the loop over [frame.winfo_children()],
    and [plt] is the package [matplotlib] ([import matplotlib as plt]),
    which has no [subplots]: the first turn destroys the first child and
    raises [AttributeError]; a frame without children draws nothing. *)
Definition display_bar_chart {Widget : Type} (frame : list Widget)
    (results : list (F * F)) : result unit * list Widget :=
  match results with
  | [] => (Raise ValueError, frame)
  | _ :: _ =>
      match frame with
      | [] => (Ok tt, frame)
      | widget :: rest => (Raise AttributeError, rest)
      end
  end.

(** The loop [for i in range(increments)] of [run_sensitivity_analysis]
    over the turns [idx]: the list [results] and the children of the
    frame as it goes. *)
Fixpoint sensitivity_loop {Widget : Type} (idx : list nat) (lower step : F)
    (frame : list Widget) (results : list (F * F))
    : result (list (F * F)) * list Widget :=
  match idx with
  | [] => (Ok results, frame)
  | i :: idx' =>
      let value := lower + #(Z.of_nat i) * step in
      let results := results ++ [(value, value * (#12 / #10))] in
      match display_bar_chart frame results with
      | (Ok _, frame) => sensitivity_loop idx' lower step frame results
      | (Raise e, frame) => (Raise e, frame)
      end
  end.

(** [run_sensitivity_analysis], from the children of
    [self.analysis_frame], the selected parameter, the two bounds and the
    number of increments as parsed from the entries: the list [results]
    at the end of the loop, or the exception raised, and the children the
    frame is left with. *)
Definition run_sensitivity_analysis {Widget : Type} (frame : list Widget)
    (param : string) (lower upper : F) (increments : Z)
    : result (list (F * F)) * list Widget :=
  if bool_decide (param = ""%string) then (Raise ValueError, frame)
  else
    match simulation.pydiv_int (upper - lower) (increments - 1) with
    | Raise e => (Raise e, frame)
    | Ok step =>
        sensitivity_loop (seq 0 (Z.to_nat increments)) lower step frame []
    end.

End GUI.
End GUI.

(** ** [Pressure_test.py]: the polling loop *)

Module Pressure_test.

Definition MAX_POINTS : nat := 60.

(** The registers of [modbus_map], in the order of its items. *)
Definition modbus_map : list (string * Z) :=
  [("P1", 100); ("P2", 102); ("P3", 104); ("P4", 106); ("P5", 108)]%string%Z.

(** [d.append(x)] on a [deque(maxlen=maxlen)]: a full deque drops its
    oldest item. *)
Definition deque_append {A : Type} (maxlen : nat) (d : list A) (x : A)
    : list A :=
  if decide (maxlen <= length d)%nat then drop 1 (d ++ [x]) else d ++ [x].

Section Polling.
Context {F : Type} `{Arith F}.
Local Open Scope num_scope.
(** Time stamps. *)
Context {Time : Type}.

(** [struct.unpack('>f', struct.pack('>HH', r0, r1))[0]] *)
Variable unpack_float : Z -> Z -> F.

(** [read_float(register)] on a client whose
    [read_holding_registers(register, 2)] gives two registers or
    nothing. *)
Definition read_float (client : Z -> option (Z * Z)) (register : Z)
    : option F :=
  match client register with
  | Some (r0, r1) => Some (unpack_float r0 r1)
  | None => None
  end.

(** The global variables the loop updates: [data_log] by label in the
    order of [modbus_map], and the rows of [csv_log] as the time stamp
    and the five values read. *)
Record Log : Type := {
  timestamps : list Time;
  data_log : list (string * list F);
  csv_log : list (Time * list (option F))
}.

(** The state before the loop. *)
Definition start : Log :=
  {| timestamps := [];
     data_log := map (fun item => (fst item, [])) modbus_map;
     csv_log := [] |}.

(** One turn of [while True], at time [timestamp] on the client as it
    then answers (plotting apart). *)
Definition poll (log : Log) (turn : Time * (Z -> option (Z * Z))) : Log :=
  let '(timestamp, client) := turn in
  let vals := map (fun item => read_float client (snd item)) modbus_map in
  {| timestamps := deque_append MAX_POINTS (timestamps log) timestamp;
     data_log :=
       zip_with (fun entry val =>
                   (fst entry,
                    deque_append MAX_POINTS (snd entry)
                      (match val with Some v => v | None => #0 end)))
                (data_log log) vals;
     csv_log := csv_log log ++ [(timestamp, vals)] |}.

(** The loop after the turns [turns]. *)
Definition run (turns : list (Time * (Z -> option (Z * Z)))) : Log :=
  foldl poll start turns.

End Polling.
End Pressure_test.

(** ** Laws of zero

    [0 + 0 = 0], [0 * x = 0], [0 == 0] and not [0 < 0]: true of [Q] and
    of [R]. *)
Class ArithZero (F : Type) `{Arith F} : Prop := {
  add_zero_zero : add (of_Z 0) (of_Z 0) = of_Z 0;
  mul_zero_l : forall x : F, mul (of_Z 0) x = of_Z 0;
  eqb_zero_zero : eqb (of_Z 0) (of_Z 0) = true;
  ltb_zero_zero : ltb (of_Z 0) (of_Z 0) = false
}.

(** ** Definitions used to state the further properties *)

Section FurtherStatements.
Context {F : Type} `{Arith F}.
Local Open Scope num_scope.

(** Bin [k] of a profile of [n] bins lies in the slice
    [start_index:end_index] of the event. *)
Definition event_covers (time_step : F) (n : nat) (ev : DHWEvent F)
    (k : nat) : bool :=
  (DHW.adjust_index (Z.of_nat n) (DHW.start_index time_step ev)
   <=? Z.of_nat k)%Z
  && (Z.of_nat k
      <? DHW.adjust_index (Z.of_nat n) (DHW.end_index time_step ev))%Z.

End FurtherStatements.

(** [self.data[ValueType][ValueName]]: the entry of a parameter, which
    both methods of the store go to. *)
Definition entry_of {V : Type} (self : parameter_store.InputValues V)
    (ValueType ValueName : string) : result (parameter_store.pyvalue V) :=
  category ←
    parameter_store.py_getitem (parameter_store.objects self)
      (parameter_store.data self) ValueType;
  parameter_store.py_getitem (parameter_store.objects self) category
    ValueName.

(** ** Further concrete data *)

Module Examples.
Import QInstance.
Local Open Scope num_scope.

(** The tank of [Demo], started cold at 35 C, without a fitted model. *)
Definition cold_uncalibrated : simulation.Simulator Q := {|
  simulation.inputValues := {|
    off_temperature_threshold_K := #33315 / #100;
    on_temperature_threshold_K := #31315 / #100;
    overall_heat_transfer_coefficient := #500;
    heat_transfer_area := #5;
    fixed_condenser_temperature_K := #33815 / #100;
    total_time_seconds := #240;
    time_points := 5;
    initial_tank_temperature_K := #30815 / #100;
    wall_area := #132;
    wall_U_value := #1 / #2;
    roof_area := #120;
    roof_U_value := #1 / #4;
    indoor_setpoint_temperature_K := #29315 / #100;
    mass_of_water := #200;
    heat_loss_coefficient := #5;
    total_thermal_capacity := #837200 |};
  simulation.interpolated_data := fun _ => #280;
  simulation.fit_a := None;
  simulation.fit_b := None;
  simulation.RHratio := #2;
  simulation.DHW := false
|}.

(** Events of 65 s from 130 s after the start, and of 200 s from 70 s
    before it. *)
Definition morning_event : DHWEvent Q :=
  {| start_time := #130; event_duration := #65; flow_rate := #2 / #5 |}.
Definition straddling_event : DHWEvent Q :=
  {| start_time := #(-70); event_duration := #200; flow_rate := #2 / #5 |}.

(** The objects of a document with three parameters, each a mapping of
    its own: the root at address 0, the two categories at 1 and 2, the
    entries at 3, 4 and 5. *)
Definition objects : parameter_store.heap Q := fun a =>
  match a with
  | 0%nat =>
      parameter_store.PyDictObj
        (<["heat_pump"%string := parameter_store.PyRef 1]>
         (<["building_properties"%string := parameter_store.PyRef 2]> ∅))
  | 1%nat =>
      parameter_store.PyDictObj
        (<["on_temperature_threshold_K"%string :=
             parameter_store.PyRef 3]> ∅)
  | 2%nat =>
      parameter_store.PyDictObj
        (<["roof_area"%string := parameter_store.PyRef 4]>
         (<["indoor_setpoint_temperature_K"%string :=
              parameter_store.PyRef 5]> ∅))
  | 3%nat =>
      parameter_store.PyDictObj
        (<["value"%string := parameter_store.PyNumber (#31315 / #100)]> ∅)
  | 4%nat =>
      parameter_store.PyDictObj
        (<["value"%string := parameter_store.PyNumber #120]> ∅)
  | 5%nat =>
      parameter_store.PyDictObj
        (<["value"%string := parameter_store.PyNumber (#29315 / #100)]> ∅)
  | _ => parameter_store.PyDictObj ∅
  end.

(** The loaded store of that document. *)
Definition store : parameter_store.InputValues Q := {|
  parameter_store.input_name := "inputs.yaml";
  parameter_store.data := parameter_store.PyRef 0;
  parameter_store.objects := objects
|}.

(** The store of a document in which [wall_area] is an alias of the
    anchored entry of [roof_area] (both are the object at 4), [units] is
    a plain string and [notes] is empty. *)
Definition aliased_store : parameter_store.InputValues Q := {|
  parameter_store.input_name := "inputs.yaml";
  parameter_store.data := parameter_store.PyRef 0;
  parameter_store.objects := fun a =>
    match a with
    | 2%nat =>
        parameter_store.PyDictObj
          (<["roof_area"%string := parameter_store.PyRef 4]>
           (<["wall_area"%string := parameter_store.PyRef 4]>
            (<["units"%string := parameter_store.PyStr "SI"]>
             (<["notes"%string := parameter_store.PyNone]> ∅))))
    | _ => objects a
    end
|}.

(** A loader that finds no file. *)
Definition no_file
    : string -> result (parameter_store.pyvalue Q * parameter_store.heap Q) :=
  fun _ => Raise FileNotFoundError.

(** [float] on the three texts of [entries]. *)
Definition float_of_text (text : string) : option Q :=
  if String.eqb text "21" then Some #21
  else if String.eqb text "150" then Some #150
  else None.

Definition entries : list ((string * string) * string) :=
  [(("building_properties", "indoor_setpoint_temperature_K"), "21");
   (("building_properties", "roof_area"), "150");
   (("heat_pump", "on_temperature_threshold_K"), "forty")]%string.

(** The five events [dhw_profile] draws.  [np.random.seed(42)] fixes the
    draws of NumPy's generator, so every call draws these (the doubles
    are given exactly): from 19:16:44 for 369 s at 0.304 kg/s, from
    08:00:37 for 536 s at 0.342 kg/s, from 18:25:43 for 223 s at 0.386
    kg/s, from 18:04:33 for 284 s at 0.328 kg/s and from 18:17:47 for 461
    s at 0.340 kg/s. *)
Definition seed_42_events : list (DHWEvent Q) :=
  [ {| start_time := Qmake 4769444266458231 68719476736;
       event_duration := Qmake 3249057022905875 8796093022208;
       flow_rate := Qmake 684810376189593 2251799813685248 |};
    {| start_time := Qmake 7926889230109937 274877906944;
       event_duration := Qmake 1178520033072621 2199023255552;
       flow_rate := Qmake 6169351824626089 18014398509481984 |};
    {| start_time := Qmake 4559058403113767 68719476736;
       event_duration := Qmake 3926195041236897 17592186044416;
       flow_rate := Qmake 6960565492845535 18014398509481984 |};
    {| start_time := Qmake 8943606496175767 137438953472;
       event_duration := Qmake 312163734012409 1099511627776;
       flow_rate := Qmake 5906899151927001 18014398509481984 |};
    {| start_time := Qmake 4526411903874569 68719476736;
       event_duration := Qmake 4058348464569423 8796093022208;
       flow_rate := Qmake 765465021197979 2251799813685248 |} ].

(** An interpolant that reads the bin of its time: through that bin at
    every node of a profile in steps of 60 s. *)
Definition bin_lookup (xs ys : list Q) (x : Q) : Q :=
  nth (Z.to_nat (trunc (x * #60))) ys #0.

(** The children of [self.analysis_frame] as [__init__] creates them. *)
Definition analysis_frame : list string :=
  ["analysis_label"; "sensitivity_dropdown"; "range_entry";
   "increment_entry"; "sensitivity_button"]%string.

End Examples.

(** * Properties *)

(** ** The order laws of the two arithmetics *)

Lemma Q_order : @ArithOrder Q QInstance.Q_arith.
Proof.
  split; cbn; unfold QInstance.Qlt_bool.
  - intros a b Hlt. apply Z.ltb_lt in Hlt.
    destruct (Qle_bool b a) eqn:Hle; [|reflexivity].
    apply Qle_bool_iff in Hle. unfold Qle in Hle. lia.
  - intros a Hlt. apply Z.ltb_lt in Hlt. cbn in Hlt.
    destruct (Qeq_bool a (inject_Z 0)) eqn:He; [|reflexivity].
    apply Qeq_bool_iff in He. unfold Qeq in He. cbn in He. lia.
  - intros a b c Hab Hbc. apply Qle_bool_iff in Hab.
    apply Z.ltb_lt in Hbc. apply Z.ltb_lt.
    change (a < c)%Q. eapply Qle_lt_trans; [exact Hab | exact Hbc].
Qed.
#[export] Existing Instance Q_order.

Lemma R_order : @ArithOrder R RInstance.R_arith.
Proof.
  split; cbn; unfold RInstance.Rltb, RInstance.Rleb, RInstance.Reqb.
  - intros a b. destruct (Rlt_dec a b), (Rle_dec b a);
      intros; try reflexivity; try discriminate; lra.
  - intros a. destruct (Rlt_dec 0 a), (Req_dec_T a 0);
      intros; try reflexivity; try discriminate; lra.
  - intros a b c. destruct (Rle_dec a b), (Rlt_dec b c), (Rlt_dec a c);
      intros; try reflexivity; try discriminate; lra.
Qed.
#[export] Existing Instance R_order.

(** ** Loops *)

(** From [H : (x ← m; k x) = Ok r]: every [m] on the way returned. *)
Ltac bind_inv H :=
  repeat match type of H with
         | context [mbind _ ?m] =>
             let E := fresh "E" in
             revert H; destruct m eqn:E; intros H;
             cbn [mbind result_bind] in H; [|discriminate H]
         end.

Section Loops.
Context {S : Type}.

(** A loop whose body never raises is a left fold. *)
Lemma for_each_foldl (body : nat -> S -> result S) (f : S -> nat -> S) :
  forall (idx : list nat) (s : S),
    (forall i s', i ∈ idx -> body i s' = Ok (f s' i)) ->
    for_each idx body s = Ok (foldl f s idx).
Proof.
  induction idx as [|i idx IH]; intros s Hbody; [reflexivity|].
  cbn. rewrite Hbody by constructor. cbn.
  apply IH. intros j s' Hj. apply Hbody. now constructor.
Qed.

(** Invariant rule for [for i in range(a, a + n)]. *)
Lemma for_each_seq_inv (P : nat -> S -> Prop) (body : nat -> S -> result S) :
  forall (n a : nat) (s : S),
    P a s ->
    (forall i s0, (a <= i < a + n)%nat -> P i s0 ->
                  exists s1, body i s0 = Ok s1 /\ P (Datatypes.S i) s1) ->
    exists s', for_each (seq a n) body s = Ok s' /\ P (a + n)%nat s'.
Proof.
  induction n as [|n IH]; intros a s Ha Hstep.
  - exists s. split; [reflexivity|]. now rewrite Nat.add_0_r.
  - destruct (Hstep a s) as (s1 & Hb & H1); [lia|exact Ha|].
    destruct (IH (Datatypes.S a) s1 H1) as (s' & Hf & Hs').
    { intros i s0 Hi. apply Hstep. lia. }
    exists s'. split.
    + cbn. rewrite Hb. exact Hf.
    + now replace (a + Datatypes.S n)%nat with (Datatypes.S a + n)%nat by lia.
Qed.

End Loops.

(** ** The aggregate energy integrals *)

Section Integrals.
Context {F : Type} `{Arith F}.
Local Open Scope num_scope.

Lemma getitem_nth (s : PySeq F) (i : nat) :
  (i < len s)%nat -> getitem s i = Ok (nth i (items s) #0).
Proof.
  intros Hi. unfold getitem, len in *.
  destruct (items s !! i) as [x|] eqn:Hx.
  - f_equal. symmetry. now apply nth_lookup_Some.
  - apply lookup_ge_None in Hx. lia.
Qed.

(** Within its first copy a repeated list reads as the list itself. *)
Lemma list_repeat_nth (k : nat) (l : list F) (i : nat) :
  (0 < k)%nat -> (i < length l)%nat ->
  nth i (list_repeat k l) #0 = nth i l #0.
Proof.
  intros Hk Hi. destruct k as [|k]; [lia|]. cbn.
  now rewrite app_nth1.
Qed.

Lemma list_repeat_length (k : nat) (l : list F) :
  length (list_repeat k l) = (k * length l)%nat.
Proof.
  induction k as [|k IH]; cbn; [reflexivity|].
  rewrite length_app, IH. reflexivity.
Qed.

(** The loop of the three integrals, on any time sequence long enough:
    it returns the left-endpoint sum over the time sequence as indexed. *)
Lemma integral_loop (vs : PySeq F) (ts : PySeq F) :
  (len vs <= len ts)%nat ->
  for_each (range 1 (len vs)) (fun i total =>
    ti ← getitem ts i;
    tp ← getitem ts (i - 1);
    let delta_t := ti - tp in
    p ← getitem vs i;
    let step := p * delta_t in
    Ok (total + step)) #0
  = Ok (left_endpoint_sum (items vs) (items ts)).
Proof.
  intros Hlen. unfold left_endpoint_sum, range.
  apply for_each_foldl. intros i total Hi.
  apply list_elem_of_In, in_seq in Hi. fold (len vs) in Hi.
  rewrite !getitem_nth by lia. reflexivity.
Qed.

(** On a numpy array of hours the integral is taken over seconds. *)
Lemma total_energy_ndarray (vs : PySeq F) (hours : list F) :
  (len vs <= length hours)%nat ->
  formulae.calculate_total_energy_consumption vs (NdArray hours)
  = Ok (left_endpoint_sum (items vs) (map (fun t => t * #3600) hours)).
Proof.
  intros Hlen. unfold formulae.calculate_total_energy_consumption.
  apply (integral_loop vs (mul_int (NdArray hours) 3600)).
  unfold len at 2. cbn. now rewrite length_map.
Qed.

(** On a Python list of hours [time_values * 3600] is the list repeated,
    and the integral is taken over the hours as they are. *)
Lemma total_energy_list (vs : PySeq F) (hours : list F) :
  (len vs <= length hours)%nat ->
  formulae.calculate_total_energy_consumption vs (PyList hours)
  = Ok (left_endpoint_sum (items vs) hours).
Proof.
  intros Hlen.
  unfold formulae.calculate_total_energy_consumption, left_endpoint_sum, range.
  apply for_each_foldl. intros i total Hi.
  apply list_elem_of_In, in_seq in Hi. fold (len vs) in Hi.
  assert (Hrep : (len vs <= len (mul_int (PyList hours) 3600))%nat).
  { unfold len at 2. cbn [items mul_int]. rewrite list_repeat_length. lia. }
  rewrite !getitem_nth by lia. cbn [items mul_int].
  rewrite !list_repeat_nth by lia. reflexivity.
Qed.

(** The three integrals are one program under three names. *)
Lemma total_heat_transfer_eq (vs ts : PySeq F) :
  formulae.calculate_total_heat_transfer vs ts
  = formulae.calculate_total_energy_consumption vs ts.
Proof. reflexivity. Qed.

Lemma total_heat_loss_eq (vs ts : PySeq F) :
  formulae.calculate_total_heat_loss vs ts
  = formulae.calculate_total_energy_consumption vs ts.
Proof. reflexivity. Qed.

End Integrals.

Section IntegralsOnLists.
Import QInstance.
Local Open Scope num_scope.

(** C1.  On the failing input, two samples one hour apart with power 0 W
    then 1 W, passed as the Python lists [euler] returns, each of the three
    integrals returns 1: [time_values * 3600] repeats the list, no time is
    converted, and the result is the sum over hours.  The sum over
    seconds that the docstrings and the claim describe is 3600. *)
Theorem aggregate_integrals_on_lists_use_hours :
  let Pin_values : PySeq Q := PyList [#0; #1] in
  let time_values : PySeq Q := PyList [#0; #1] in
  Z.of_nat (len (mul_int time_values 3600)) = 7200%Z
  /\ formulae.calculate_total_energy_consumption Pin_values time_values
     = Ok #1
  /\ formulae.calculate_total_heat_transfer Pin_values time_values = Ok #1
  /\ formulae.calculate_total_heat_loss Pin_values time_values = Ok #1
  /\ left_endpoint_sum (items Pin_values)
       (map (fun t => t * #3600) (items time_values)) = #3600.
Proof. vm_compute. repeat split; reflexivity. Qed.

(** C2, the claim refuted.  Two samples of the constant 1 W spanning
    3600 s: the integral is 3600, where [v * D * (N-2)/(N-1)] is 0.  With
    three samples it is again 3600, not 1800. *)
Lemma constant_series_integral_counterexample :
  uniform_hours (#3600 : Q) 2 = [#0; #1]
  /\ formulae.calculate_total_energy_consumption
       (NdArray (replicate 2 (#1 : Q))) (NdArray (uniform_hours #3600 2))
     = Ok #3600
  /\ skipped_interval_value (#1 : Q) #3600 2 = #0
  /\ formulae.calculate_total_energy_consumption
       (NdArray (replicate 3 (#1 : Q))) (NdArray (uniform_hours #3600 3))
     = Ok #3600
  /\ skipped_interval_value (#1 : Q) #3600 3 = #1800
  /\ formulae.calculate_total_energy_consumption
       (NdArray (replicate 2 (#1 : Q))) (NdArray (uniform_hours #3600 2))
     <> Ok (skipped_interval_value #1 #3600 2).
Proof. vm_compute. repeat split; try reflexivity. discriminate. Qed.

End IntegralsOnLists.

(** ** The integral of a constant series, over the reals *)

Section ConstantSeries.
Import RInstance.
Local Open Scope R_scope.

(** The partial sums of a constant series telescope. *)
Lemma constant_partial_sum (v : R) (N : nat) (secs : list R) :
  forall n : nat, (n < N)%nat ->
    foldl (fun acc i =>
             add acc (mul (nth i (replicate N v) (of_Z 0))
                          (sub (nth i secs (of_Z 0))
                               (nth (i - 1) secs (of_Z 0)))))
          (of_Z 0) (seq 1 n)
    = v * (nth n secs 0 - nth 0 secs 0).
Proof.
  induction n as [|n IH]; intros Hn.
  - cbn. ring.
  - rewrite seq_S, foldl_app, IH by lia. cbn [foldl Nat.add].
    rewrite (nth_lookup_Some (replicate N v) (Datatypes.S n) _ v)
      by (apply lookup_replicate_2; lia).
    replace (Datatypes.S n - 1)%nat with n by lia.
    cbn. ring.
Qed.

Lemma left_endpoint_sum_constant (v : R) (N : nat) (secs : list R) :
  (1 <= N)%nat ->
  left_endpoint_sum (replicate N v) secs
  = v * (nth (N - 1) secs 0 - nth 0 secs 0).
Proof.
  intros HN. unfold left_endpoint_sum. rewrite length_replicate.
  apply constant_partial_sum. lia.
Qed.

(** The seconds recovered from the uniform grid of hours: it starts at 0
    and ends at [D]. *)
Lemma uniform_seconds_ends (D : R) (N : nat) :
  (2 <= N)%nat ->
  let secs := map (fun t => mul t (of_Z 3600)) (uniform_hours D N) in
  length secs = N /\ nth 0 secs 0 = 0 /\ nth (N - 1) secs 0 = D.
Proof.
  intros HN secs. subst secs. unfold uniform_hours, np_linspace.
  destruct (Z.ltb_spec (Z.of_nat N) 0) as [Hneg|_]; [lia|].
  destruct (Z.ltb_spec 1 (Z.of_nat N)) as [_|Hle]; [|lia].
  destruct (Z.ltb_spec 0 (Z.of_nat N - 1)) as [_|Hle]; [|lia].
  rewrite Nat2Z.id.
  repeat split.
  - now rewrite !length_map, length_insert, length_map, length_seq.
  - erewrite nth_lookup_Some; [reflexivity|].
    rewrite !list_lookup_fmap, list_lookup_insert_ne by lia.
    rewrite list_lookup_fmap, lookup_seq_lt by lia. cbn.
    f_equal. destruct (Reqb _ _); change (Z.of_nat 0) with 0%Z;
      field; apply not_0_IZR; lia.
  - erewrite nth_lookup_Some; [reflexivity|].
    rewrite !list_lookup_fmap, list_lookup_insert_eq
      by (rewrite length_map, length_seq; lia).
    cbn. f_equal. field.
Qed.

(** C2, amended.  For a constant series [v] over [N >= 2] uniformly
    spaced time points spanning [D] seconds, handed over as a numpy array
    of hours, [calculate_total_energy_consumption] returns [v * D]: all of
    the [N - 1] intervals are counted. *)
Theorem constant_series_integral (v D : R) (N : nat) :
  (2 <= N)%nat ->
  formulae.calculate_total_energy_consumption
    (NdArray (replicate N v)) (NdArray (uniform_hours D N))
  = Ok (v * D).
Proof.
  intros HN.
  destruct (uniform_seconds_ends D N HN) as (Hlen & H0 & Hlast).
  rewrite length_map in Hlen.
  rewrite total_energy_ndarray
    by (unfold len; cbn [items]; rewrite length_replicate; lia).
  cbn [items]. rewrite left_endpoint_sum_constant by lia.
  rewrite H0, Hlast. f_equal. ring.
Qed.

Lemma constant_series_integral_witness :
  (2 <= 3)%nat
  /\ formulae.calculate_total_energy_consumption
       (NdArray (replicate 3 2%R)) (NdArray (uniform_hours 3600%R 3))
     = Ok (2 * 3600)%R.
Proof. split; [lia | apply (constant_series_integral 2 3600 3); lia]. Defined.

End ConstantSeries.

(** ** The Euler integrator *)

Section EulerRun.
Context {F : Type} `{ArithOrder F}.
Local Open Scope num_scope.

Lemma setitem_ok (arr : list F) (i : nat) (x : F) :
  (i < length arr)%nat -> setitem arr i x = Ok (<[i:=x]> arr).
Proof. intros Hi. unfold setitem. now rewrite decide_True. Qed.

Lemma np_linspace_ok (start stop : F) (num : Z) :
  (0 <= num)%Z ->
  exists time_values,
    np_linspace start stop num = Ok time_values
    /\ length time_values = Z.to_nat num.
Proof.
  intros Hnum. unfold np_linspace.
  destruct (Z.ltb_spec num 0) as [Hneg|_]; [lia|].
  eexists. split; [reflexivity|].
  destruct (1 <? num)%Z;
    now rewrite ?length_insert, length_map, length_seq.
Qed.

(** The status in force during step [j] depends on the temperatures
    below [j] only. *)
Lemma pump_status_at_insert (T_on T_off : F) (initial : simulation.PumpStatus)
    (Ttank_values : list F) (k : nat) (x : F) :
  forall j : nat, (j <= k)%nat ->
    pump_status_at T_on T_off initial (<[k:=x]> Ttank_values) j
    = pump_status_at T_on T_off initial Ttank_values j.
Proof.
  induction j as [|j IH]; intros Hj; [reflexivity|].
  cbn. rewrite list_lookup_insert_ne by lia. rewrite IH by lia. reflexivity.
Qed.

Section Step.
Variable self : simulation.Simulator F.
Variable dhw_interp_profile : F -> F.
Variables a b Atank : F.
Variable time_values : list F.
Hypothesis Hfit_a : simulation.fit_a self = Some a.
Hypothesis Hfit_b : simulation.fit_b self = Some b.

(** One iteration in closed form: it never raises, and writes index [i]
    of the six arrays. *)
Lemma euler_step_ok (i : nat) (st : simulation.LoopState F) (t Ttank : F) :
  time_values !! (i - 1)%nat = Some t ->
  simulation.Ttank_values st !! (i - 1)%nat = Some Ttank ->
  (i < length (simulation.Ttank_values st))%nat ->
  (i < length (simulation.cop_values st))%nat ->
  (i < length (simulation.heat_load_values st))%nat ->
  (i < length (simulation.heat_loss_values st))%nat ->
  (i < length (simulation.Pin_values st))%nat ->
  (i < length (simulation.Qtransfer_values st))%nat ->
  let status :=
    simulation.update_pump_status
      (on_temperature_threshold_K (simulation.inputValues self))
      (off_temperature_threshold_K (simulation.inputValues self))
      (simulation.pump_status st) Ttank in
  simulation.euler_step self dhw_interp_profile
    (on_temperature_threshold_K (simulation.inputValues self))
    (off_temperature_threshold_K (simulation.inputValues self))
    (run_step_size self) #300 Atank time_values i st
  = Ok {| simulation.pump_status := status;
          simulation.Ttank_values :=
            <[i := step_Ttank self dhw_interp_profile Atank status t Ttank]>
              (simulation.Ttank_values st);
          simulation.cop_values :=
            <[i := step_COP self a b status t]> (simulation.cop_values st);
          simulation.heat_load_values :=
            <[i := step_Qload self t]> (simulation.heat_load_values st);
          simulation.heat_loss_values :=
            <[i := step_Qloss self Atank t Ttank]>
              (simulation.heat_loss_values st);
          simulation.Pin_values :=
            <[i := step_Pin (step_Qtransfer self status Ttank)
                            (step_COP self a b status t)]>
              (simulation.Pin_values st);
          simulation.Qtransfer_values :=
            <[i := step_Qtransfer self status Ttank]>
              (simulation.Qtransfer_values st) |}.
Proof.
  intros Ht HT L1 L2 L3 L4 L5 L6 status.
  unfold simulation.euler_step, getitem. cbn [items].
  rewrite Ht, HT. cbn [mbind result_bind].
  fold status.
  assert (HCOP :
    match status with
    | simulation.on =>
        match simulation.fit_a self, simulation.fit_b self with
        | Some a0, Some b0 =>
            Ok (formulae.COP
                  (#65 + simulation.lit_273_15
                   - simulation.interpolated_data self (t / #3600)) a0 b0)
        | _, _ => Raise TypeError
        end
    | simulation.off => Ok #0
    end = Ok (step_COP self a b status t)).
  { rewrite Hfit_a, Hfit_b. now destruct status. }
  rewrite HCOP. cbn [mbind result_bind].
  assert (HPin :
    (if step_COP self a b status t >? #0
     then pydiv (step_Qtransfer self status Ttank) (step_COP self a b status t)
     else Ok #0)
    = Ok (step_Pin (step_Qtransfer self status Ttank)
                   (step_COP self a b status t))).
  { unfold step_Pin, pydiv.
    destruct (step_COP self a b status t >? #0) eqn:Hpos; [|reflexivity].
    now rewrite (ltb_zero_neq _ Hpos). }
  change (match status with
          | simulation.on =>
              formulae.CalculateQtransfer (simulation.inputValues self) Ttank
          | simulation.off => #0
          end) with (step_Qtransfer self status Ttank).
  rewrite HPin. cbn [mbind result_bind].
  rewrite !setitem_ok by assumption. cbn [mbind result_bind].
  reflexivity.
Qed.

Variable N : nat.
Hypothesis Htime : length time_values = N.

Lemma run_status_insert (Ttank_values : list F) (k j : nat) (x : F) :
  (j <= k)%nat ->
  run_status self (<[k:=x]> Ttank_values) j = run_status self Ttank_values j.
Proof. apply pump_status_at_insert. Qed.

(** The invariant before the loop. *)
Lemma euler_inv_init :
  (1 <= N)%nat ->
  euler_inv self dhw_interp_profile Atank a b time_values N 1%nat
    {| simulation.pump_status := initial_pump_status self;
       simulation.Ttank_values :=
         <[0%nat := initial_tank_temperature_K (simulation.inputValues self)]>
           (np_zeros N);
       simulation.cop_values := np_zeros N;
       simulation.heat_load_values := np_zeros N;
       simulation.heat_loss_values := np_zeros N;
       simulation.Pin_values := np_zeros N;
       simulation.Qtransfer_values := np_zeros N |}.
Proof.
  intros HN. unfold np_zeros.
  split; cbn;
    rewrite ?length_insert, ?length_replicate; try reflexivity;
    try (apply lookup_replicate_2; lia).
  - apply list_lookup_insert_eq. rewrite length_replicate. lia.
  - intros j Hj. lia.
Qed.

(** One iteration keeps the invariant. *)
Lemma euler_inv_step (k : nat) (st : simulation.LoopState F) :
  (1 <= k < N)%nat ->
  euler_inv self dhw_interp_profile Atank a b time_values N k st ->
  exists st',
    simulation.euler_step self dhw_interp_profile
      (on_temperature_threshold_K (simulation.inputValues self))
      (off_temperature_threshold_K (simulation.inputValues self))
      (run_step_size self) #300 Atank time_values k st = Ok st'
    /\ euler_inv self dhw_interp_profile Atank a b time_values N
         (Datatypes.S k) st'.
Proof.
  intros Hk Hinv.
  destruct Hinv as [L1 L2 L3 L4 L5 L6 Hst Z1 Z2 Z3 Z4 Z5 Z6 Hsteps].
  destruct (lookup_lt_is_Some_2 time_values (k - 1)) as [t Ht]; [lia|].
  destruct (lookup_lt_is_Some_2 (simulation.Ttank_values st) (k - 1))
    as [Ttank HT]; [lia|].
  eexists. split.
  { apply (euler_step_ok k st t Ttank Ht HT); lia. }
  set (status := simulation.update_pump_status
                   (on_temperature_threshold_K (simulation.inputValues self))
                   (off_temperature_threshold_K (simulation.inputValues self))
                   (simulation.pump_status st) Ttank).
  assert (Hstatus :
    forall x, run_status self (<[k:=x]> (simulation.Ttank_values st)) k
              = status).
  { intros x. destruct k as [|k']; [lia|].
    unfold run_status. cbn [pump_status_at].
    rewrite list_lookup_insert_ne by lia.
    replace (Datatypes.S k' - 1)%nat with k' in * by lia.
    rewrite HT. rewrite pump_status_at_insert by lia.
    subst status. rewrite Hst. reflexivity. }
  split; cbn [simulation.pump_status simulation.Ttank_values
              simulation.cop_values simulation.heat_load_values
              simulation.heat_loss_values simulation.Pin_values
              simulation.Qtransfer_values];
    rewrite ?length_insert; try assumption;
    try (rewrite list_lookup_insert_ne by lia; assumption).
  - replace (Datatypes.S k - 1)%nat with k by lia. now rewrite Hstatus.
  - intros j Hj. destruct (decide (j = k)) as [->|Hne].
    + exists t, Ttank. cbn [simulation.pump_status simulation.Ttank_values
              simulation.cop_values simulation.heat_load_values
              simulation.heat_loss_values simulation.Pin_values
              simulation.Qtransfer_values].
      rewrite Hstatus.
      rewrite (list_lookup_insert_ne (simulation.Ttank_values st)) by lia.
      rewrite !list_lookup_insert_eq by lia.
      repeat split; assumption.
    + destruct (Hsteps j) as (t' & T' & Ht' & HT' & Hrec); [lia|].
      exists t', T'. cbn [simulation.pump_status simulation.Ttank_values
              simulation.cop_values simulation.heat_load_values
              simulation.heat_loss_values simulation.Pin_values
              simulation.Qtransfer_values].
      rewrite run_status_insert by lia.
      rewrite !list_lookup_insert_ne by lia.
      split; [assumption|]. split; [assumption|]. exact Hrec.
Qed.

(** The whole loop: it returns, and every step has been recorded. *)
Lemma euler_loop_ok :
  (1 <= N)%nat ->
  exists st,
    for_each (range 1 N)
      (simulation.euler_step self dhw_interp_profile
         (on_temperature_threshold_K (simulation.inputValues self))
         (off_temperature_threshold_K (simulation.inputValues self))
         (run_step_size self) #300 Atank time_values)
      {| simulation.pump_status := initial_pump_status self;
         simulation.Ttank_values :=
           <[0%nat := initial_tank_temperature_K (simulation.inputValues self)]>
             (np_zeros N);
         simulation.cop_values := np_zeros N;
         simulation.heat_load_values := np_zeros N;
         simulation.heat_loss_values := np_zeros N;
         simulation.Pin_values := np_zeros N;
         simulation.Qtransfer_values := np_zeros N |}
    = Ok st
    /\ euler_inv self dhw_interp_profile Atank a b time_values N N st.
Proof.
  intros HN. unfold range.
  destruct (for_each_seq_inv
              (euler_inv self dhw_interp_profile Atank a b time_values N)
              (simulation.euler_step self dhw_interp_profile
                 (on_temperature_threshold_K (simulation.inputValues self))
                 (off_temperature_threshold_K (simulation.inputValues self))
                 (run_step_size self) #300 Atank time_values)
              (N - 1) 1 _ (euler_inv_init HN)) as (st & Hrun & Hinv).
  - intros i s0 Hi Hs0. apply euler_inv_step; [lia|exact Hs0].
  - exists st. split; [exact Hrun|].
    now replace (1 + (N - 1))%nat with N in Hinv by lia.
Qed.

End Step.

(** [tank_SA] returns when [math.pi * RHratio] is not zero. *)
Lemma tank_SA_ok (inputValues : InputValues F) (RHratio : F) :
  eqb (pi * RHratio) #0 = false ->
  exists Atank, formulae.tank_SA inputValues RHratio = Ok Atank.
Proof.
  intros Hnz. unfold formulae.tank_SA, formulae.tank_dimension, pydiv.
  rewrite Hnz. cbn. eexists. reflexivity.
Qed.

(** A run of [euler] on at least two time points, with a fitted COP model
    and a tank of non-zero [math.pi * RHratio]: it returns the lists of
    the final loop state, and the loop invariant holds of them. *)
Lemma euler_run (self : simulation.Simulator F) (dhw : F -> F) (a b : F) :
  (2 <= time_points (simulation.inputValues self))%Z ->
  simulation.fit_a self = Some a ->
  simulation.fit_b self = Some b ->
  eqb (pi * simulation.RHratio self) #0 = false ->
  let N := Z.to_nat (time_points (simulation.inputValues self)) in
  let dhw_interp_profile :=
    if simulation.DHW self then dhw else (fun _ => #0) in
  exists (time_values : list F) (Atank : F) (st : simulation.LoopState F),
    np_linspace #0 (total_time_seconds (simulation.inputValues self))
      (time_points (simulation.inputValues self)) = Ok time_values
    /\ length time_values = N
    /\ formulae.tank_SA (simulation.inputValues self)
         (simulation.RHratio self) = Ok Atank
    /\ euler_inv self dhw_interp_profile Atank a b time_values N N st
    /\ simulation.euler (Ok dhw) self
       = Ok (PyList (map (fun t => t / #3600) time_values),
             PyList (simulation.Ttank_values st),
             PyList (simulation.heat_load_values st),
             PyList (simulation.heat_loss_values st),
             PyList (simulation.cop_values st),
             PyList (simulation.Pin_values st),
             PyList (simulation.Qtransfer_values st),
             if simulation.DHW self
             then simulation.QDHW_list (PyList (np_zeros N))
             else simulation.QDHW_str "DHW Simulation Off").
Proof.
  intros HN Ha Hb Htank N dhw_interp_profile.
  destruct (np_linspace_ok #0
              (total_time_seconds (simulation.inputValues self))
              (time_points (simulation.inputValues self)))
    as (time_values & Hlin & Hlen); [lia|].
  destruct (tank_SA_ok (simulation.inputValues self)
              (simulation.RHratio self) Htank) as (Atank & HSA).
  destruct (euler_loop_ok self dhw_interp_profile a b Atank time_values
              Ha Hb N Hlen) as (st & Hrun & Hinv); [subst N; lia|].
  exists time_values, Atank, st.
  repeat (split; [assumption|]).
  unfold simulation.euler, simulation.pydiv_int.
  rewrite Hlin. cbn [mbind result_bind].
  destruct (Z.eqb_spec (time_points (simulation.inputValues self) - 1) 0)
    as [Hz|_]; [lia|].
  cbn [mbind result_bind].
  assert (Hdhw :
    (if simulation.DHW self then Ok dhw else Ok (fun _ : F => #0))
    = Ok dhw_interp_profile).
  { subst dhw_interp_profile. now destruct (simulation.DHW self). }
  rewrite Hdhw. cbn [mbind result_bind].
  rewrite HSA. cbn [mbind result_bind].
  cbn [simulation.Ttank_values simulation.pump_status simulation.cop_values
       simulation.heat_load_values simulation.heat_loss_values
       simulation.Pin_values simulation.Qtransfer_values].
  rewrite setitem_ok by (unfold np_zeros; rewrite length_replicate; lia).
  cbn [mbind result_bind].
  fold N. unfold run_step_size, initial_pump_status in Hrun.
  rewrite Hrun. cbn [mbind result_bind].
  unfold tolist. reflexivity.
Qed.

(** C3.  For every step [i] in [1 .. numPoints-1] the integrator sets
    [T_tank[i] = T_tank[i-1] + stepSize * (Qtransfer - Qload - Qloss - QDHW)
    / thermalCapacity], with the one [stepSize = totalDuration /
    (numPoints - 1)] for the whole run and every quantity on the right
    taken at the tank temperature and the time of step [i-1]. *)
Theorem euler_update_equation
    (self : simulation.Simulator F) (dhw : F -> F) (a b : F) :
  (2 <= time_points (simulation.inputValues self))%Z ->
  simulation.fit_a self = Some a ->
  simulation.fit_b self = Some b ->
  eqb (pi * simulation.RHratio self) #0 = false ->
  let iv := simulation.inputValues self in
  let N := Z.to_nat (time_points iv) in
  let stepSize := total_time_seconds iv / #(time_points iv - 1) in
  let initial :=
    if initial_tank_temperature_K iv <? on_temperature_threshold_K iv
    then simulation.on else simulation.off in
  exists (time_values : list F) (Atank : F) (T : list F)
         time hl hloss cop Pin Qtr QDHW,
    np_linspace #0 (total_time_seconds iv) (time_points iv) = Ok time_values
    /\ formulae.tank_SA iv (simulation.RHratio self) = Ok Atank
    /\ simulation.euler (Ok dhw) self
       = Ok (time, PyList T, hl, hloss, cop, Pin, Qtr, QDHW)
    /\ length T = N
    /\ forall i : nat, (1 <= i < N)%nat ->
       exists t Tprev : F,
         time_values !! (i - 1)%nat = Some t
         /\ T !! (i - 1)%nat = Some Tprev
         /\ let Tamb := simulation.interpolated_data self (t / #3600) in
            let status :=
              pump_status_at (on_temperature_threshold_K iv)
                (off_temperature_threshold_K iv) initial T i in
            let Qtransfer :=
              match status with
              | simulation.on => formulae.CalculateQtransfer iv Tprev
              | simulation.off => #0
              end in
            let Qload := formulae.CalculateQload iv Tamb in
            let Qloss := formulae.CalculateQloss iv Atank Tprev Tamb in
            let QDHW :=
              if simulation.DHW self
              then dhw (t / #3600) * #4186 * (Tprev - #300)
              else #0 in
            T !! i
            = Some (Tprev
                    + stepSize
                      * ((Qtransfer - Qload - Qloss - QDHW)
                         / total_thermal_capacity iv)).
Proof.
  intros HN Ha Hb Htank iv N stepSize initial.
  destruct (euler_run self dhw a b HN Ha Hb Htank)
    as (time_values & Atank & st & Hlin & Hlen & HSA & Hinv & Hrun).
  exists time_values, Atank, (simulation.Ttank_values st).
  do 7 eexists. split; [exact Hlin|]. split; [exact HSA|].
  split; [exact Hrun|]. split; [apply (inv_len_Ttank _ _ _ _ _ _ _ _ _ Hinv)|].
  intros i Hi.
  destruct (inv_steps _ _ _ _ _ _ _ _ _ Hinv i Hi)
    as (t & Tprev & Ht & HT & _ & _ & _ & _ & _ & HTi).
  exists t, Tprev. split; [exact Ht|]. split; [exact HT|].
  cbn zeta. rewrite HTi. f_equal.
  unfold step_Ttank, step_QDHW, step_Qtransfer, step_Qload, step_Qloss,
    step_Tamb, run_step_size, run_status, initial_pump_status.
  now destruct (simulation.DHW self).
Qed.

Lemma setitem_inv (arr arr' : list F) (i : nat) (x : F) :
  setitem arr i x = Ok arr' -> arr' = <[i:=x]> arr.
Proof. unfold setitem. case_decide; congruence. Qed.

(** An iteration that returns has written index [i] only. *)
Lemma euler_step_frame (self : simulation.Simulator F)
    (dhw_interp_profile : F -> F)
    (T_on T_off step_size T_inlet Atank : F) (time_values : list F)
    (i : nat) (st st' : simulation.LoopState F) :
  simulation.euler_step self dhw_interp_profile T_on T_off step_size T_inlet
    Atank time_values i st = Ok st' ->
  forall j : nat, j <> i ->
    simulation.Ttank_values st' !! j = simulation.Ttank_values st !! j
    /\ simulation.heat_load_values st' !! j
       = simulation.heat_load_values st !! j
    /\ simulation.heat_loss_values st' !! j
       = simulation.heat_loss_values st !! j
    /\ simulation.cop_values st' !! j = simulation.cop_values st !! j
    /\ simulation.Pin_values st' !! j = simulation.Pin_values st !! j
    /\ simulation.Qtransfer_values st' !! j
       = simulation.Qtransfer_values st !! j.
Proof.
  intros Hstep j Hj. unfold simulation.euler_step in Hstep.
  bind_inv Hstep.
  injection Hstep as <-.
  repeat match goal with
         | E : setitem _ _ _ = Ok _ |- _ => apply setitem_inv in E; subst
         end.
  cbn. rewrite !list_lookup_insert_ne by congruence. repeat split.
Qed.

(** Whatever [euler] returns, its seven series are Python lists, and
    with DHW on the DHW channel is the list of zeros [QDHW_values] was
    allocated with: the loop state has no DHW array to write. *)
Lemma euler_returns_lists (self : simulation.Simulator F)
    (get_dhw_profile : result (F -> F)) time T hl hloss cop Pin Qtr QDHW :
  simulation.euler get_dhw_profile self
  = Ok (time, T, hl, hloss, cop, Pin, Qtr, QDHW) ->
  (exists l1 l2 l3 l4 l5 l6 l7,
     time = PyList l1 /\ T = PyList l2 /\ hl = PyList l3
     /\ hloss = PyList l4 /\ cop = PyList l5 /\ Pin = PyList l6
     /\ Qtr = PyList l7)
  /\ QDHW
     = if simulation.DHW self
       then simulation.QDHW_list
              (PyList (np_zeros
                 (Z.to_nat (time_points (simulation.inputValues self)))))
       else simulation.QDHW_str "DHW Simulation Off".
Proof.
  intros Hrun. unfold simulation.euler in Hrun.
  bind_inv Hrun. injection Hrun as <- <- <- <- <- <- <- <-.
  split; [|reflexivity].
  unfold tolist. do 7 eexists. repeat split.
Qed.

(** C7.  At every step whose pump mode is ['off'] the recorded COP and
    heat transfer are 0, and at every step the recorded power input is
    [Qtransfer / COP] when [COP > 0] and 0 otherwise; the run returns, so
    the division, which raises on a zero divisor, is never reached with
    one. *)
Theorem pump_off_and_power_input
    (self : simulation.Simulator F) (dhw : F -> F) (a b : F) :
  (2 <= time_points (simulation.inputValues self))%Z ->
  simulation.fit_a self = Some a ->
  simulation.fit_b self = Some b ->
  eqb (pi * simulation.RHratio self) #0 = false ->
  let iv := simulation.inputValues self in
  let N := Z.to_nat (time_points iv) in
  let initial :=
    if initial_tank_temperature_K iv <? on_temperature_threshold_K iv
    then simulation.on else simulation.off in
  exists (T cop Pin Qtr : list F) time hl hloss QDHW,
    simulation.euler (Ok dhw) self
    = Ok (time, PyList T, hl, hloss, PyList cop, PyList Pin, PyList Qtr, QDHW)
    /\ forall i : nat, (1 <= i < N)%nat ->
       exists COP Qtransfer : F,
         cop !! i = Some COP
         /\ Qtr !! i = Some Qtransfer
         /\ (pump_status_at (on_temperature_threshold_K iv)
               (off_temperature_threshold_K iv) initial T i = simulation.off ->
             COP = #0 /\ Qtransfer = #0)
         /\ Pin !! i = Some (if COP >? #0 then Qtransfer / COP else #0).
Proof.
  intros HN Ha Hb Htank iv N initial.
  destruct (euler_run self dhw a b HN Ha Hb Htank)
    as (time_values & Atank & st & Hlin & Hlen & HSA & Hinv & Hrun).
  exists (simulation.Ttank_values st), (simulation.cop_values st),
    (simulation.Pin_values st), (simulation.Qtransfer_values st).
  do 4 eexists. split; [exact Hrun|].
  intros i Hi.
  destruct (inv_steps _ _ _ _ _ _ _ _ _ Hinv i Hi)
    as (t & Tprev & Ht & HT & _ & HQ & _ & HC & HP & _).
  do 2 eexists. split; [exact HC|]. split; [exact HQ|]. split.
  - unfold run_status, initial_pump_status. fold iv. fold initial.
    intros ->. split; reflexivity.
  - exact HP.
Qed.

End EulerRun.

(** ** The hysteresis controller *)

Section Hysteresis.
Context {F : Type} `{ArithOrder F}.
Local Open Scope num_scope.

Lemma update_in_band (T_on T_off : F) (status : simulation.PumpStatus)
    (Ttank : F) :
  (T_on <? Ttank) = true -> (Ttank <? T_off) = true ->
  simulation.update_pump_status T_on T_off status Ttank = status.
Proof.
  intros Hlo Hhi. unfold simulation.update_pump_status.
  now rewrite (ltb_not_leb _ _ Hhi), (ltb_not_leb _ _ Hlo).
Qed.

Lemma stays_in_band (T_on T_off : F) (status : simulation.PumpStatus) :
  forall Ts : list F,
    Forall (fun Ttank => (T_on <? Ttank) = true /\ (Ttank <? T_off) = true) Ts ->
    foldl (simulation.update_pump_status T_on T_off) status Ts = status.
Proof.
  induction Ts as [|Ttank Ts IH]; intros Hband; [reflexivity|].
  inversion Hband as [|? ? [Hlo Hhi] Hrest]; subst. cbn.
  rewrite update_in_band by assumption. now apply IH.
Qed.

(** C4.  The pump-mode update maps the tank temperature [T] of the step
    before to ['off'] when [T >= T_off], to ['on'] when [T <= T_on], and
    leaves the mode as it is otherwise; so from either mode, any sequence
    of temperatures strictly between [T_on] and [T_off] leaves the mode
    unchanged.  The thresholds are those of a hysteresis band,
    [T_on < T_off]; the first two cases are also given in the order the
    code tests them, which needs no such assumption. *)
Theorem hysteresis_update (T_on T_off : F) :
  (T_on <? T_off) = true ->
  (forall status T, (T >=? T_off) = true ->
     simulation.update_pump_status T_on T_off status T = simulation.off)
  /\ (forall status T, (T <=? T_on) = true ->
        simulation.update_pump_status T_on T_off status T = simulation.on)
  /\ (forall status T, (T >=? T_off) = false -> (T <=? T_on) = true ->
        simulation.update_pump_status T_on T_off status T = simulation.on)
  /\ (forall status T, (T >=? T_off) = false -> (T <=? T_on) = false ->
        simulation.update_pump_status T_on T_off status T = status)
  /\ (forall Ts : list F,
        Forall (fun T => (T_on <? T) = true /\ (T <? T_off) = true) Ts ->
        foldl (simulation.update_pump_status T_on T_off) simulation.off Ts
        = simulation.off)
  /\ (forall Ts : list F,
        Forall (fun T => (T_on <? T) = true /\ (T <? T_off) = true) Ts ->
        foldl (simulation.update_pump_status T_on T_off) simulation.on Ts
        = simulation.on).
Proof.
  intros Hband. unfold simulation.update_pump_status.
  repeat split.
  - intros status T ->. reflexivity.
  - intros status T Hle.
    rewrite (ltb_not_leb _ _ (leb_ltb_trans _ _ _ Hle Hband)).
    now rewrite Hle.
  - intros status T -> ->. reflexivity.
  - intros status T -> ->. reflexivity.
  - apply stays_in_band.
  - apply stays_in_band.
Qed.

End Hysteresis.

(** ** The run of the integrator on the concrete tank *)

Section DemoRun.
Import QInstance.
Local Open Scope num_scope.

Lemma euler_update_equation_witness :
  let self := Demo.simulator 240 5 true in
  (2 <= time_points (simulation.inputValues self))%Z
  /\ simulation.fit_a self = Some #3
  /\ simulation.fit_b self = Some #50
  /\ eqb (pi * simulation.RHratio self) #0 = false
  /\ exists (T : list Q) time hl hloss cop Pin Qtr QDHW,
       simulation.euler (Ok Demo.flow) self
       = Ok (time, PyList T, hl, hloss, cop, Pin, Qtr, QDHW)
       /\ length T = 5%nat.
Proof.
  intros self.
  assert (H1 : (2 <= time_points (simulation.inputValues self))%Z)
    by (cbn; lia).
  assert (H2 : simulation.fit_a self = Some #3) by reflexivity.
  assert (H3 : simulation.fit_b self = Some #50) by reflexivity.
  assert (H4 : eqb (pi * simulation.RHratio self) #0 = false)
    by (vm_compute; reflexivity).
  repeat (split; [assumption|]).
  destruct (euler_update_equation self Demo.flow #3 #50 H1 H2 H3 H4)
    as (time_values & Atank & T & time & hl & hloss & cop & Pin & Qtr & QDHW
        & _ & _ & Hrun & Hlen & _).
  exists T, time, hl, hloss, cop, Pin, Qtr, QDHW. split; assumption.
Defined.

Lemma pump_off_and_power_input_witness :
  let self := Demo.simulator 240 5 true in
  (2 <= time_points (simulation.inputValues self))%Z
  /\ simulation.fit_a self = Some #3
  /\ simulation.fit_b self = Some #50
  /\ eqb (pi * simulation.RHratio self) #0 = false
  /\ exists (T cop Pin Qtr : list Q) time hl hloss QDHW,
       simulation.euler (Ok Demo.flow) self
       = Ok (time, PyList T, hl, hloss, PyList cop, PyList Pin, PyList Qtr,
             QDHW).
Proof.
  intros self.
  assert (H1 : (2 <= time_points (simulation.inputValues self))%Z)
    by (cbn; lia).
  assert (H2 : simulation.fit_a self = Some #3) by reflexivity.
  assert (H3 : simulation.fit_b self = Some #50) by reflexivity.
  assert (H4 : eqb (pi * simulation.RHratio self) #0 = false)
    by (vm_compute; reflexivity).
  repeat (split; [assumption|]).
  destruct (pump_off_and_power_input self Demo.flow #3 #50 H1 H2 H3 H4)
    as (T & cop & Pin & Qtr & time & hl & hloss & QDHW & Hrun & _).
  exists T, cop, Pin, Qtr, time, hl, hloss, QDHW. exact Hrun.
Defined.

Lemma hysteresis_update_witness :
  let T_on : Q := #31315 / #100 in
  let T_off : Q := #33315 / #100 in
  (T_on <? T_off) = true
  /\ simulation.update_pump_status T_on T_off simulation.on #334
     = simulation.off
  /\ foldl (simulation.update_pump_status T_on T_off) simulation.off
       [#320; #314; #333; #325] = simulation.off.
Proof.
  intros T_on T_off.
  assert (Hband : (T_on <? T_off) = true) by (vm_compute; reflexivity).
  split; [exact Hband|].
  destruct (hysteresis_update T_on T_off Hband)
    as (Hoff & _ & _ & _ & Hstay & _).
  split.
  - apply Hoff. vm_compute. reflexivity.
  - apply Hstay. repeat constructor.
Defined.

End DemoRun.

(** ** Tank geometry, over the reals *)

Section TankGeometry.
Import RInstance.
Local Open Scope R_scope.

Lemma Rpow_positive (x y : R) : 0 < x -> pow x y = Rpower x y.
Proof.
  intros Hx. cbn. unfold Rpow. destruct (Req_dec_T x 0); [lra|reflexivity].
Qed.

Lemma cube_of_cube_root (q : R) : 0 < q -> Rpower q (1 / 3) ^ 3 = q.
Proof.
  intros Hq.
  rewrite <- (Rpower_pow 3) by apply exp_pos.
  rewrite Rpower_mult.
  replace (1 / 3 * INR 3) with 1 by (simpl; field).
  now apply Rpower_1.
Qed.

(** C9.  For [V > 0] and [ratio > 0], [tank_dimension] returns the radius
    [r = (V/(pi*ratio))^(1/3)] and the height [h = ratio*r]; they satisfy
    [V = pi*r^2*h] (exactly, rounding apart), and [tank_SA], on a store
    whose tank volume is [V], returns [2*pi*r*h + 2*pi*r^2]. *)
Theorem tank_geometry_round_trip (V ratio : R) :
  0 < V -> 0 < ratio ->
  let r := Rpower (V / (PI * ratio)) (1 / 3) in
  let h := ratio * r in
  formulae.tank_dimension V ratio = Ok (h, r)
  /\ PI * r ^ 2 * h = V
  /\ forall inputValues : InputValues R,
       formulae.vol_calc inputValues = V ->
       formulae.tank_SA inputValues ratio
       = Ok (2 * PI * r * h + 2 * PI * r ^ 2).
Proof.
  intros HV Hratio r h.
  assert (Hpi := PI_RGT_0).
  assert (Hden : 0 < PI * ratio) by (apply Rmult_lt_0_compat; assumption).
  assert (Hq : 0 < V / (PI * ratio)) by (apply Rdiv_lt_0_compat; assumption).
  assert (Hr : 0 < r) by apply exp_pos.
  assert (Hdim : formulae.tank_dimension V ratio = Ok (h, r)).
  { unfold formulae.tank_dimension, pydiv.
    replace (eqb (mul pi ratio) (of_Z 0)) with false.
    - cbn [mbind result_bind]. rewrite Rpow_positive by exact Hq.
      reflexivity.
    - cbn. unfold Reqb. destruct (Req_dec_T (PI * ratio) 0); [lra|reflexivity]. }
  split; [exact Hdim|]. split.
  - subst h. replace (PI * r ^ 2 * (ratio * r)) with (PI * ratio * r ^ 3)
      by ring.
    subst r. rewrite cube_of_cube_root by exact Hq. field.
    split; apply Rgt_not_eq; assumption.
  - intros inputValues Hvol. unfold formulae.tank_SA.
    rewrite Hvol, Hdim. cbn [mbind result_bind].
    rewrite Rpow_positive by exact Hr.
    replace (of_Z 2) with (INR 2) by (simpl; lra).
    rewrite Rpower_pow by exact Hr. cbn. apply f_equal. ring.
Qed.

Lemma tank_geometry_round_trip_witness :
  0 < 1 / 5 /\ 0 < 2
  /\ PI * Rpower (1 / 5 / (PI * 2)) (1 / 3) ^ 2
        * (2 * Rpower (1 / 5 / (PI * 2)) (1 / 3))
     = 1 / 5.
Proof.
  assert (H1 : 0 < 1 / 5) by lra.
  assert (H2 : 0 < 2) by lra.
  split; [exact H1|]. split; [exact H2|].
  apply (tank_geometry_round_trip (1 / 5) 2 H1 H2).
Defined.

End TankGeometry.

(** ** Draw-off events and Python slices *)

Section DrawOff.
Context {F : Type} `{Arith F}.
Local Open Scope num_scope.

Lemma adjust_index_negative (n i : Z) :
  (i < 0)%Z -> (- n <= i)%Z -> DHW.adjust_index n i = (n + i)%Z.
Proof.
  intros Hneg Hmag. unfold DHW.adjust_index.
  destruct (Z.ltb_spec i 0); [|lia].
  destruct (Z.ltb_spec (i + n) 0); lia.
Qed.

(** What [a[start:stop] += v] leaves at position [k]. *)
Lemma slice_iadd_lookup (arr : list F) (start stop : Z) (v : F) (k : nat) :
  DHW.slice_iadd arr start stop v !! k
  = (fun x =>
       if (DHW.adjust_index (Z.of_nat (length arr)) start <=? Z.of_nat k)%Z
          && (Z.of_nat k <? DHW.adjust_index (Z.of_nat (length arr)) stop)%Z
       then x + v else x) <$> arr !! k.
Proof. unfold DHW.slice_iadd. now rewrite list_lookup_imap. Qed.

(** An empty slice changes nothing. *)
Lemma slice_iadd_empty (arr : list F) (start stop : Z) (v : F) :
  (DHW.adjust_index (Z.of_nat (length arr)) stop
   <= DHW.adjust_index (Z.of_nat (length arr)) start)%Z ->
  DHW.slice_iadd arr start stop v = arr.
Proof.
  intros Hempty. apply list_eq. intros k.
  rewrite slice_iadd_lookup. destruct (arr !! k) as [x|]; [|reflexivity].
  cbn. f_equal.
  destruct (Z.leb_spec (DHW.adjust_index (Z.of_nat (length arr)) start)
              (Z.of_nat k));
    destruct (Z.ltb_spec (Z.of_nat k)
                (DHW.adjust_index (Z.of_nat (length arr)) stop));
    cbn; try reflexivity; lia.
Qed.

(** The profile [dhw_profile] returns is the array of zeros with the
    events added one after the other. *)
Lemma dhw_profile_values (duration time_step : F)
    (events : list (DHWEvent F)) (profile : Series F) :
  DHW.dhw_profile duration time_step events = Ok profile ->
  exists total_steps : nat,
    values profile
    = foldl (DHW.add_event time_step) (np_zeros total_steps) events.
Proof.
  intros Hrun. unfold DHW.dhw_profile in Hrun. bind_inv Hrun.
  destruct (_ <? 0)%Z; [discriminate Hrun|].
  case_decide; [|discriminate Hrun].
  injection Hrun as <-. eexists. reflexivity.
Qed.


End DrawOff.

Section DrawOffOnRationals.
Import QInstance.
Local Open Scope num_scope.



End DrawOffOnRationals.

(** ** Calibration *)

Section CalibrationFailure.
Context {F : Type} `{Arith F}.
Local Open Scope num_scope.

(** What the handler of [get_cop_parameters] does, on any failure: the
    method never raises.  When reading the data or [curve_fit] raises,
    whatever the observations, one line is printed and the method
    returns: the object is left as it was, and [Main] goes on to build
    the simulator with the parameters it holds, [None] on a fresh
    object. *)
Lemma calibration_failure_is_printed_not_raised
    (read_cop_data : string -> result (list (F * F)))
    (curve_fit : (F -> F -> F -> F) -> list F -> list F ->
                 result ((F * F) * ((F * F) * (F * F))))
    (self : external_data_handling.ManufacturerCOP F) (condenserTemp : F)
    (input_values : InputValues F) (interpolated_data : F -> F) :
  (exists self' printed,
     external_data_handling.get_cop_parameters read_cop_data curve_fit self
       condenserTemp = Ok (self', printed))
  /\ (forall e,
        calibration_fails read_cop_data curve_fit
          (external_data_handling.file_name self) condenserTemp e ->
        external_data_handling.get_cop_parameters read_cop_data curve_fit
          self condenserTemp
        = Ok (self,
              [("Error calculating COP parameters: "
                ++ str_of_error e)%string]))
  /\ (forall e,
        calibration_fails read_cop_data curve_fit Main.manufacturer_cop_data
          Main.condenser_temp_celcius e ->
        exists Simulation printed,
          Main.main read_cop_data curve_fit input_values interpolated_data
          = Ok (Simulation, printed)
          /\ simulation.fit_a Simulation = None
          /\ simulation.fit_b Simulation = None).
Proof.
  unfold calibration_fails. split; [|split].
  - unfold external_data_handling.get_cop_parameters, try_except.
    destruct (read_cop_data _) as [cop_df|e]; cbn [mbind result_bind].
    + destruct (curve_fit _ _ _) as [[[a b] [[c00 c01] [c10 c11]]]|e];
        cbn [mbind result_bind]; eexists _, _; reflexivity.
    + eexists _, _; reflexivity.
  - intros e [Hread|(cop_df & Hread & Hfit)];
      unfold external_data_handling.get_cop_parameters, try_except;
      rewrite Hread; cbn [mbind result_bind]; [reflexivity|].
    rewrite Hfit. reflexivity.
  - intros e Hfail. unfold Main.main.
    assert (Hget :
      external_data_handling.get_cop_parameters read_cop_data curve_fit
        (external_data_handling.init Main.manufacturer_cop_data)
        Main.condenser_temp_celcius
      = Ok (external_data_handling.init Main.manufacturer_cop_data,
            [("Error calculating COP parameters: "
              ++ str_of_error e)%string])).
    { destruct Hfail as [Hread|(cop_df & Hread & Hfit)];
        unfold external_data_handling.get_cop_parameters, try_except;
        cbn [external_data_handling.init external_data_handling.file_name];
        rewrite Hread; cbn [mbind result_bind]; [reflexivity|].
      rewrite Hfit. reflexivity. }
    rewrite Hget. cbn [mbind result_bind].
    eexists _, _. split; [reflexivity|]. split; reflexivity.
Qed.

End CalibrationFailure.

Section CalibrationOnRationals.
Import QInstance.
Local Open Scope num_scope.

(** C6.  On the failing input, a data file with one observation only,
    [curve_fit] raises ([TypeError]: two parameters, one data point),
    and [get_cop_parameters], whose docstring announces the exception,
    returns, having printed the error; [Main] builds the simulator
    without a fit; and the run is attempted, to fail with [TypeError] at
    the first step with the pump on. *)
Lemma single_observation_calibration_returns :
  let read_cop_data : string -> result (list (Q * Q)) :=
    fun _ => Ok [(#7, #7 / #2)] in
  let curve_fit : (Q -> Q -> Q -> Q) -> list Q -> list Q ->
                  result ((Q * Q) * ((Q * Q) * (Q * Q))) :=
    fun _ _ _ => Raise TypeError in
  external_data_handling.get_cop_parameters read_cop_data curve_fit
    (external_data_handling.init Main.manufacturer_cop_data)
    Main.condenser_temp_celcius
  = Ok (external_data_handling.init Main.manufacturer_cop_data,
        ["Error calculating COP parameters: TypeError"%string])
  /\ Main.main read_cop_data curve_fit (Demo.inputs 86400 3) (fun _ => #280)
     = Ok (Demo.uncalibrated 86400 3,
           ["Error calculating COP parameters: TypeError"%string])
  /\ simulation.euler (Ok Demo.flow) (Demo.uncalibrated 86400 3)
     = Raise TypeError.
Proof. cbv zeta. repeat split; vm_compute; reflexivity. Qed.

End CalibrationOnRationals.

(** * Further properties of the code *)

(** ** [euler]: degenerate point counts, series lengths *)

Section EulerEdges.
Context {F : Type} `{Arith F}.
Local Open Scope num_scope.

Lemma for_each_preserves {S : Type} (P : S -> Prop)
    (body : nat -> S -> result S) :
  (forall i s s', body i s = Ok s' -> P s -> P s') ->
  forall (idx : list nat) (s s' : S),
    for_each idx body s = Ok s' -> P s -> P s'.
Proof.
  intros Hbody. induction idx as [|i idx IH]; intros s s' Hrun Hs.
  - cbn in Hrun. now injection Hrun as <-.
  - cbn in Hrun. destruct (body i s) as [s1|e] eqn:Hb; [|discriminate Hrun].
    cbn in Hrun. eapply IH; [exact Hrun|]. eapply Hbody; eassumption.
Qed.

Lemma np_linspace_length (start stop : F) (num : Z) (time_values : list F) :
  np_linspace start stop num = Ok time_values ->
  (0 <= num)%Z /\ length time_values = Z.to_nat num.
Proof.
  intros Hlin. unfold np_linspace in Hlin.
  destruct (Z.ltb_spec num 0) as [Hneg|Hpos]; [discriminate Hlin|].
  split; [exact Hpos|]. injection Hlin as <-.
  destruct (1 <? num)%Z;
    now rewrite ?length_insert, length_map, length_seq.
Qed.

(** The last sample of [np.linspace] over two or more points is the stop
    value itself. *)
Lemma np_linspace_last (start stop : F) (num : Z) (time_values : list F) :
  np_linspace start stop num = Ok time_values -> (2 <= num)%Z ->
  time_values !! (Z.to_nat num - 1)%nat = Some stop.
Proof.
  intros Hlin Hnum. unfold np_linspace in Hlin.
  destruct (Z.ltb_spec num 0) as [Hneg|Hpos]; [lia|].
  destruct (Z.ltb_spec 1 num) as [_|Hle]; [|lia].
  injection Hlin as <-. apply list_lookup_insert_eq.
  rewrite length_map, length_seq. lia.
Qed.

(** An iteration that returns keeps the length of the six arrays. *)
Lemma euler_step_lengths (self : simulation.Simulator F)
    (dhw_interp_profile : F -> F)
    (T_on T_off step_size T_inlet Atank : F) (time_values : list F)
    (N i : nat) (st st' : simulation.LoopState F) :
  simulation.euler_step self dhw_interp_profile T_on T_off step_size T_inlet
    Atank time_values i st = Ok st' ->
  (length (simulation.Ttank_values st) = N
   /\ length (simulation.heat_load_values st) = N
   /\ length (simulation.heat_loss_values st) = N
   /\ length (simulation.cop_values st) = N
   /\ length (simulation.Pin_values st) = N
   /\ length (simulation.Qtransfer_values st) = N) ->
  length (simulation.Ttank_values st') = N
  /\ length (simulation.heat_load_values st') = N
  /\ length (simulation.heat_loss_values st') = N
  /\ length (simulation.cop_values st') = N
  /\ length (simulation.Pin_values st') = N
  /\ length (simulation.Qtransfer_values st') = N.
Proof.
  intros Hstep Hlen. unfold simulation.euler_step in Hstep.
  bind_inv Hstep. injection Hstep as <-.
  repeat match goal with
         | E : setitem _ _ _ = Ok _ |- _ =>
             unfold setitem in E; case_decide; [|discriminate E];
             injection E as <-
         end.
  cbn. now rewrite !length_insert.
Qed.

(** The seven series [euler] returns have [num_points] entries. *)
Lemma euler_lengths (self : simulation.Simulator F)
    (get_dhw_profile : result (F -> F)) time T hl hloss cop Pin Qtr QDHW :
  simulation.euler get_dhw_profile self
  = Ok (time, T, hl, hloss, cop, Pin, Qtr, QDHW) ->
  let N := Z.to_nat (time_points (simulation.inputValues self)) in
  len time = N /\ len T = N /\ len hl = N /\ len hloss = N /\ len cop = N
  /\ len Pin = N /\ len Qtr = N.
Proof.
  intros Hrun N. unfold simulation.euler in Hrun.
  destruct (np_linspace #0 _ _) as [time_values|e] eqn:Hlin;
    [|discriminate Hrun].
  cbn [mbind result_bind] in Hrun.
  destruct (np_linspace_length _ _ _ _ Hlin) as [Hpos Hlen].
  bind_inv Hrun. injection Hrun as <- <- <- <- <- <- <- <-.
  match goal with
  | E : setitem _ _ _ = Ok _ |- _ =>
      unfold setitem in E; case_decide; [|discriminate E]; injection E as <-
  end.
  match goal with
  | E : for_each _ _ _ = Ok _ |- _ => rename E into Hloop
  end.
  apply (for_each_preserves
           (fun st =>
              length (simulation.Ttank_values st) = N
              /\ length (simulation.heat_load_values st) = N
              /\ length (simulation.heat_loss_values st) = N
              /\ length (simulation.cop_values st) = N
              /\ length (simulation.Pin_values st) = N
              /\ length (simulation.Qtransfer_values st) = N)) in Hloop.
  - destruct Hloop as (L1 & L2 & L3 & L4 & L5 & L6).
    unfold len, tolist. cbn [items].
    rewrite length_map. repeat split; assumption.
  - intros i s s' Hstep Hs. eapply euler_step_lengths; eassumption.
  - cbn. unfold np_zeros.
    rewrite length_insert, !length_replicate. repeat split.
Qed.

(** X1.  Whatever [euler] returns, its seven series have [num_points]
    entries each, and so has the DHW series when DHW is on; the times
    returned are those of [np.linspace] divided by 3600, and from two
    points on the last of them is [total_time / 3600] itself. *)
Theorem euler_series_lengths (self : simulation.Simulator F)
    (get_dhw_profile : result (F -> F)) time T hl hloss cop Pin Qtr QDHW :
  simulation.euler get_dhw_profile self
  = Ok (time, T, hl, hloss, cop, Pin, Qtr, QDHW) ->
  let iv := simulation.inputValues self in
  let N := Z.to_nat (time_points iv) in
  (len time = N /\ len T = N /\ len hl = N /\ len hloss = N /\ len cop = N
   /\ len Pin = N /\ len Qtr = N)
  /\ (simulation.DHW self = true ->
      exists q, QDHW = simulation.QDHW_list q /\ len q = N)
  /\ (exists time_values,
        np_linspace #0 (total_time_seconds iv) (time_points iv)
        = Ok time_values
        /\ time = PyList (map (fun t => t / #3600) time_values))
  /\ ((2 <= time_points iv)%Z ->
      items time !! (N - 1)%nat = Some (total_time_seconds iv / #3600)).
Proof.
  intros Hrun iv N. split; [exact (euler_lengths _ _ _ _ _ _ _ _ _ _ Hrun)|].
  unfold simulation.euler in Hrun. fold iv in Hrun.
  destruct (np_linspace #0 (total_time_seconds iv) (time_points iv))
    as [time_values|e] eqn:Hlin; [|discriminate Hrun].
  cbn [mbind result_bind] in Hrun.
  bind_inv Hrun. injection Hrun as <- <- <- <- <- <- <- <-.
  split.
  { intros ->. eexists. split; [reflexivity|].
    unfold len, tolist, np_zeros. cbn [items]. apply length_replicate. }
  split; [exists time_values; split; reflexivity|].
  intros HN. unfold tolist. cbn [items]. rewrite list_lookup_fmap. unfold N.
  now rewrite (np_linspace_last _ _ _ _ Hlin HN).
Qed.

End EulerEdges.

Section EulerFailures.
Context {F : Type} `{Arith F}.
Local Open Scope num_scope.

(** X2.  [euler] on a degenerate number of time points: a negative
    number is refused by [np.linspace] ([ValueError]); one point makes
    [total_time / (num_points - 1)] a division by zero; with no point,
    once the DHW profile and the tank area are there, [Ttank_values[0]]
    is out of range ([IndexError]). *)
Theorem euler_degenerate_point_counts (self : simulation.Simulator F)
    (get_dhw_profile : result (F -> F)) :
  let num_points := time_points (simulation.inputValues self) in
  ((num_points < 0)%Z ->
   simulation.euler get_dhw_profile self = Raise ValueError)
  /\ (num_points = 1%Z ->
      simulation.euler get_dhw_profile self = Raise ZeroDivisionError)
  /\ (num_points = 0%Z ->
      (simulation.DHW self = true -> exists f, get_dhw_profile = Ok f) ->
      eqb (pi * simulation.RHratio self) #0 = false ->
      simulation.euler get_dhw_profile self = Raise IndexError).
Proof.
  intros num_points. subst num_points. unfold simulation.euler, np_linspace.
  split; [|split].
  - intros Hneg. destruct (Z.ltb_spec (time_points (simulation.inputValues self)) 0);
      [reflexivity|lia].
  - intros ->. reflexivity.
  - intros -> Hdhw Htank. cbn [Z.ltb Z.compare mbind result_bind].
    unfold simulation.pydiv_int. cbn [Z.sub Z.add Z.opp Z.eqb Z.pos_sub].
    cbn [mbind result_bind].
    destruct (tank_SA_ok (simulation.inputValues self)
                (simulation.RHratio self) Htank) as (Atank & HSA).
    rewrite HSA.
    destruct (simulation.DHW self).
    + destruct Hdhw as [f ->]; [reflexivity|]. reflexivity.
    + reflexivity.
Qed.

(** An iteration with the pump on and no fitted COP model raises. *)
Lemma euler_step_without_fit (self : simulation.Simulator F)
    (dhw_interp_profile : F -> F)
    (T_on T_off step_size T_inlet Atank : F) (time_values : list F)
    (i : nat) (st : simulation.LoopState F) (t Ttank : F) :
  simulation.fit_a self = None \/ simulation.fit_b self = None ->
  time_values !! (i - 1)%nat = Some t ->
  simulation.Ttank_values st !! (i - 1)%nat = Some Ttank ->
  simulation.update_pump_status T_on T_off (simulation.pump_status st) Ttank
  = simulation.on ->
  simulation.euler_step self dhw_interp_profile T_on T_off step_size T_inlet
    Atank time_values i st = Raise TypeError.
Proof.
  intros Hfit Ht HT Hon. unfold simulation.euler_step, getitem.
  cbn [items]. rewrite Ht, HT. cbn [mbind result_bind]. rewrite Hon.
  destruct Hfit as [-> | ->]; [reflexivity|].
  destruct (simulation.fit_a self); reflexivity.
Qed.

(** X3.  A simulator without a fitted COP model ([fit_a] or [fit_b] is
    [None]) whose tank starts at or below the on-threshold and below the
    off-threshold: the pump is on at the first step and [euler] raises
    [TypeError] there. *)
Theorem uncalibrated_run_raises (self : simulation.Simulator F)
    (get_dhw_profile : result (F -> F)) :
  let iv := simulation.inputValues self in
  (2 <= time_points iv)%Z ->
  simulation.fit_a self = None \/ simulation.fit_b self = None ->
  (simulation.DHW self = true -> exists f, get_dhw_profile = Ok f) ->
  eqb (pi * simulation.RHratio self) #0 = false ->
  (initial_tank_temperature_K iv >=? off_temperature_threshold_K iv) = false ->
  (initial_tank_temperature_K iv <=? on_temperature_threshold_K iv) = true ->
  simulation.euler get_dhw_profile self = Raise TypeError.
Proof.
  intros iv HN Hfit Hdhw Htank Hoff Hon.
  destruct (np_linspace_ok #0 (total_time_seconds iv) (time_points iv))
    as (time_values & Hlin & Hlen); [lia|].
  destruct (tank_SA_ok iv (simulation.RHratio self) Htank) as (Atank & HSA).
  unfold simulation.euler, simulation.pydiv_int. fold iv.
  rewrite Hlin. cbn [mbind result_bind].
  destruct (Z.eqb_spec (time_points iv - 1) 0) as [Hz|_]; [lia|].
  cbn [mbind result_bind].
  assert (Hprofile :
    exists f, (if simulation.DHW self then get_dhw_profile
               else Ok (fun _ : F => #0)) = Ok f).
  { destruct (simulation.DHW self); [now apply Hdhw|eauto]. }
  destruct Hprofile as [f ->]. cbn [mbind result_bind].
  rewrite HSA. cbn [mbind result_bind].
  cbn [simulation.Ttank_values simulation.pump_status simulation.cop_values
       simulation.heat_load_values simulation.heat_loss_values
       simulation.Pin_values simulation.Qtransfer_values].
  rewrite setitem_ok by (unfold np_zeros; rewrite length_replicate; lia).
  cbn [mbind result_bind]. unfold range.
  replace (Z.to_nat (time_points iv) - 1)%nat
    with (Datatypes.S (Z.to_nat (time_points iv) - 2)) by lia.
  cbn [seq for_each].
  destruct (lookup_lt_is_Some_2 time_values 0) as [t Ht]; [lia|].
  erewrite euler_step_without_fit; [reflexivity|exact Hfit|exact Ht| |].
  - cbn [simulation.Ttank_values]. apply list_lookup_insert_eq.
    unfold np_zeros. rewrite length_replicate. lia.
  - unfold simulation.update_pump_status. now rewrite Hoff, Hon.
Qed.

End EulerFailures.

(** ** Index 0 of the returned series *)

Section IndexZero.
Context {F : Type} `{ArithOrder F}.
Local Open Scope num_scope.

(** Invariant rule for a loop whose body is only looked at on the indices
    it runs over. *)
Lemma for_each_preserves_in {S : Type} (P : S -> Prop)
    (body : nat -> S -> result S) :
  forall (idx : list nat) (s s' : S),
    (forall i s1 s2, i ∈ idx -> body i s1 = Ok s2 -> P s1 -> P s2) ->
    for_each idx body s = Ok s' -> P s -> P s'.
Proof.
  induction idx as [|i idx IH]; intros s s' Hbody Hrun Hs.
  - cbn in Hrun. now injection Hrun as <-.
  - cbn in Hrun. destruct (body i s) as [s1|e] eqn:Hb; [|discriminate Hrun].
    cbn in Hrun. eapply IH; [|exact Hrun|].
    + intros j s2 s3 Hj. apply Hbody. now constructor.
    + eapply Hbody; [constructor|exact Hb|exact Hs].
Qed.

(** A run that returns had two time points or more: fewer make
    [np.linspace], the step size or [Ttank_values[0]] raise. *)
Lemma euler_returns_two_points (self : simulation.Simulator F)
    (get_dhw_profile : result (F -> F)) time T hl hloss cop Pin Qtr QDHW :
  simulation.euler get_dhw_profile self
  = Ok (time, T, hl, hloss, cop, Pin, Qtr, QDHW) ->
  (2 <= time_points (simulation.inputValues self))%Z.
Proof.
  intros Hrun. unfold simulation.euler in Hrun.
  destruct (np_linspace #0 _ _) as [time_values|e] eqn:Hlin;
    [|discriminate Hrun].
  cbn [mbind result_bind] in Hrun.
  destruct (np_linspace_length _ _ _ _ Hlin) as [Hpos _].
  unfold simulation.pydiv_int in Hrun.
  destruct (Z.eqb_spec (time_points (simulation.inputValues self) - 1) 0)
    as [Hone|Hone]; [discriminate Hrun|].
  cbn [mbind result_bind] in Hrun.
  bind_inv Hrun.
  match goal with
  | E : setitem _ _ _ = Ok _ |- _ =>
      unfold setitem in E; case_decide as Hlt; [|discriminate E]
  end.
  cbn [simulation.Ttank_values] in Hlt. unfold np_zeros in Hlt.
  rewrite length_replicate in Hlt. lia.
Qed.

(** C8, amended.  Every run that returns had two points or more, and
    index 0 of its tank temperatures is the initial tank temperature while
    index 0 of the heat load, heat loss, COP, power input and heat
    transfer is the 0 they were allocated with; with DHW on, index 0 of
    the DHW series is 0 too, and with DHW off the DHW channel is the
    sentinel string.  A run of two points or more with a fitted COP model
    does return, and an iteration [i >= 1] of the loop leaves index 0 of
    every array as it was. *)
Theorem index_zero_channels
    (self : simulation.Simulator F) (get_dhw_profile : result (F -> F)) :
  let iv := simulation.inputValues self in
  (forall time T hl hloss cop Pin Qtr QDHW,
     simulation.euler get_dhw_profile self
     = Ok (time, T, hl, hloss, cop, Pin, Qtr, QDHW) ->
     (2 <= time_points iv)%Z
     /\ items T !! 0%nat = Some (initial_tank_temperature_K iv)
     /\ items hl !! 0%nat = Some #0
     /\ items hloss !! 0%nat = Some #0
     /\ items cop !! 0%nat = Some #0
     /\ items Pin !! 0%nat = Some #0
     /\ items Qtr !! 0%nat = Some #0
     /\ (if simulation.DHW self
         then exists q : list F,
                QDHW = simulation.QDHW_list (PyList q)
                /\ q !! 0%nat = Some #0
         else QDHW = simulation.QDHW_str "DHW Simulation Off"))
  /\ (forall (dhw : F -> F) (a b : F),
        get_dhw_profile = Ok dhw ->
        (2 <= time_points iv)%Z ->
        simulation.fit_a self = Some a ->
        simulation.fit_b self = Some b ->
        eqb (pi * simulation.RHratio self) #0 = false ->
        exists results, simulation.euler get_dhw_profile self = Ok results)
  /\ (forall dhw_interp_profile T_on T_off step_size T_inlet Atank
             time_values (i : nat) (st st' : simulation.LoopState F),
        (1 <= i)%nat ->
        simulation.euler_step self dhw_interp_profile T_on T_off step_size
          T_inlet Atank time_values i st = Ok st' ->
        simulation.Ttank_values st' !! 0%nat
        = simulation.Ttank_values st !! 0%nat
        /\ simulation.heat_load_values st' !! 0%nat
           = simulation.heat_load_values st !! 0%nat
        /\ simulation.heat_loss_values st' !! 0%nat
           = simulation.heat_loss_values st !! 0%nat
        /\ simulation.cop_values st' !! 0%nat
           = simulation.cop_values st !! 0%nat
        /\ simulation.Pin_values st' !! 0%nat
           = simulation.Pin_values st !! 0%nat
        /\ simulation.Qtransfer_values st' !! 0%nat
           = simulation.Qtransfer_values st !! 0%nat).
Proof.
  intros iv. split; [|split].
  - intros time T hl hloss cop Pin Qtr QDHW Hrun.
    assert (HN := euler_returns_two_points _ _ _ _ _ _ _ _ _ _ Hrun).
    fold iv in HN. split; [exact HN|].
    unfold simulation.euler in Hrun. fold iv in Hrun.
    destruct (np_linspace #0 (total_time_seconds iv) (time_points iv))
      as [time_values|e] eqn:Hlin; [|discriminate Hrun].
    cbn [mbind result_bind] in Hrun.
    bind_inv Hrun. injection Hrun as <- <- <- <- <- <- <- <-.
    match goal with
    | E : setitem _ _ _ = Ok _ |- _ =>
        unfold setitem in E; case_decide as Hlt; [|discriminate E];
        injection E as <-
    end.
    match goal with
    | E : for_each _ _ _ = Ok _ |- _ => rename E into Hloop
    end.
    assert (Hzero : forall N : nat, (2 <= N)%nat ->
                      (np_zeros N : list F) !! 0%nat = Some #0).
    { intros N HN2. unfold np_zeros. apply lookup_replicate_2. lia. }
    apply (for_each_preserves_in
             (fun st =>
                simulation.Ttank_values st !! 0%nat
                = Some (initial_tank_temperature_K iv)
                /\ simulation.heat_load_values st !! 0%nat = Some #0
                /\ simulation.heat_loss_values st !! 0%nat = Some #0
                /\ simulation.cop_values st !! 0%nat = Some #0
                /\ simulation.Pin_values st !! 0%nat = Some #0
                /\ simulation.Qtransfer_values st !! 0%nat = Some #0))
      in Hloop.
    + destruct Hloop as (Z0 & Z1 & Z2 & Z3 & Z4 & Z5).
      unfold tolist. cbn [items]. repeat (split; [assumption|]).
      destruct (simulation.DHW self); [|reflexivity].
      eexists. split; [reflexivity|]. apply Hzero. lia.
    + intros i s1 s2 Hi Hstep (Z0 & Z1 & Z2 & Z3 & Z4 & Z5).
      assert (Hne : 0%nat <> i).
      { unfold range in Hi. apply elem_of_seq in Hi. lia. }
      destruct (euler_step_frame _ _ _ _ _ _ _ _ _ _ _ Hstep 0%nat Hne)
        as (Fr0 & Fr1 & Fr2 & Fr3 & Fr4 & Fr5).
      rewrite Fr0, Fr1, Fr2, Fr3, Fr4, Fr5. repeat split; assumption.
    + cbn. split; [now apply list_lookup_insert_eq|].
      repeat split; apply Hzero; lia.
  - intros dhw a b -> HN Ha Hb Htank.
    destruct (euler_run self dhw a b HN Ha Hb Htank)
      as (time_values & Atank & st & _ & _ & _ & _ & Hrun).
    eexists. exact Hrun.
  - intros dhw_interp_profile T_on T_off step_size T_inlet Atank time_values
      i st st' Hi Hstep.
    apply (euler_step_frame _ _ _ _ _ _ _ _ _ _ _ Hstep). lia.
Qed.

End IndexZero.

Section IndexZeroOnRationals.
Import QInstance.
Local Open Scope num_scope.

(** C8, the claim refuted.  At [numPoints = 1], [total_time /
    (num_points - 1)] divides by zero and the run raises before any series
    exists, with DHW on or off; and a run of two points with DHW off
    returns the string as its DHW channel, which has no zero at index 0.
    (The draw-off profile is not consulted at these inputs.) *)
Lemma index_zero_fails_on_one_point_and_without_dhw :
  simulation.euler (Ok Demo.flow) (Demo.simulator 240 1 true)
  = Raise ZeroDivisionError
  /\ simulation.euler (Ok Demo.flow) (Demo.simulator 240 1 false)
     = Raise ZeroDivisionError
  /\ exists time T hl hloss cop Pin Qtr,
       simulation.euler (Ok Demo.flow) (Demo.simulator 60 2 false)
       = Ok (time, T, hl, hloss, cop, Pin, Qtr,
             simulation.QDHW_str "DHW Simulation Off").
Proof.
  split; [vm_compute; reflexivity|]. split; [vm_compute; reflexivity|].
  do 7 eexists. vm_compute. reflexivity.
Qed.

Lemma index_zero_channels_witness :
  (exists time T hl hloss cop Pin Qtr QDHW,
     simulation.euler (Ok Demo.flow) (Demo.uncalibrated 240 5)
     = Ok (time, T, hl, hloss, cop, Pin, Qtr, QDHW)
     /\ items T !! 0%nat = Some (#31815 / #100)
     /\ items cop !! 0%nat = Some #0
     /\ QDHW = simulation.QDHW_str "DHW Simulation Off")
  /\ exists results,
       simulation.euler (Ok Demo.flow) (Demo.simulator 240 5 true)
       = Ok results.
Proof.
  split.
  - destruct (simulation.euler (Ok Demo.flow) (Demo.uncalibrated 240 5))
      as [[[[[[[[time T] hl] hloss] cop] Pin] Qtr] QDHW]|e] eqn:Hrun.
    + exists time, T, hl, hloss, cop, Pin, Qtr, QDHW.
      split; [reflexivity|].
      destruct (index_zero_channels (Demo.uncalibrated 240 5)
                  (Ok Demo.flow)) as [Hzero _].
      destruct (Hzero _ _ _ _ _ _ _ _ Hrun)
        as (_ & HT & _ & _ & Hcop & _ & _ & HQ).
      split; [exact HT|]. split; [exact Hcop | exact HQ].
    + vm_compute in Hrun. discriminate Hrun.
  - destruct (index_zero_channels (Demo.simulator 240 5 true)
                (Ok Demo.flow)) as (_ & Hreturns & _).
    apply (Hreturns Demo.flow #3 #50); try reflexivity.
    cbn. lia.
Defined.

End IndexZeroOnRationals.

(** The laws of zero hold of the two arithmetics. *)
Lemma Q_zero : @ArithZero Q QInstance.Q_arith.
Proof.
  split; cbn; reflexivity.
Qed.
#[export] Existing Instance Q_zero.

Lemma R_zero : @ArithZero R RInstance.R_arith.
Proof.
  split; cbn; unfold RInstance.Reqb, RInstance.Rltb.
  - ring.
  - intros x. ring.
  - destruct (Req_dec_T 0 0); [reflexivity|lra].
  - destruct (Rlt_dec 0 0); [lra|reflexivity].
Qed.
#[export] Existing Instance R_zero.

Section PumpInTheRun.
Context {F : Type} `{ArithOrder F} `{!ArithZero F}.
Local Open Scope num_scope.

(** X4.  In a run the controller acts on the recorded temperatures
    (thresholds [T_on < T_off]): a step that follows a tank temperature at
    or above [T_off] records no heat transfer, COP 0 and power input 0;
    a step that follows one at or below [T_on] records the heat transfer
    [Ucond * Acond * (Tcond - Ttank)] of that temperature. *)
Theorem thresholds_switch_the_pump
    (self : simulation.Simulator F) (dhw : F -> F) (a b : F) :
  let iv := simulation.inputValues self in
  let N := Z.to_nat (time_points iv) in
  (2 <= time_points iv)%Z ->
  simulation.fit_a self = Some a ->
  simulation.fit_b self = Some b ->
  eqb (pi * simulation.RHratio self) #0 = false ->
  (on_temperature_threshold_K iv <? off_temperature_threshold_K iv) = true ->
  exists (T cop Pin Qtr : list F) time hl hloss QDHW,
    simulation.euler (Ok dhw) self
    = Ok (time, PyList T, hl, hloss, PyList cop, PyList Pin, PyList Qtr, QDHW)
    /\ forall (i : nat) (Ttank : F),
         (1 <= i < N)%nat -> T !! (i - 1)%nat = Some Ttank ->
         ((Ttank >=? off_temperature_threshold_K iv) = true ->
          Qtr !! i = Some #0 /\ cop !! i = Some #0 /\ Pin !! i = Some #0)
         /\ ((Ttank <=? on_temperature_threshold_K iv) = true ->
             Qtr !! i = Some (formulae.CalculateQtransfer iv Ttank)).
Proof.
  intros iv N HN Ha Hb Htank Hband.
  destruct (euler_run self dhw a b HN Ha Hb Htank)
    as (time_values & Atank & st & Hlin & Hlen & HSA & Hinv & Hrun).
  exists (simulation.Ttank_values st), (simulation.cop_values st),
    (simulation.Pin_values st), (simulation.Qtransfer_values st).
  do 4 eexists. split; [exact Hrun|].
  intros i Ttank Hi HT.
  destruct (inv_steps _ _ _ _ _ _ _ _ _ Hinv i Hi)
    as (t & Tprev & Ht & HT' & _ & HQ & _ & HC & HP & _).
  rewrite HT in HT'. injection HT' as <-.
  assert (Hstatus :
    run_status self (simulation.Ttank_values st) i
    = simulation.update_pump_status (on_temperature_threshold_K iv)
        (off_temperature_threshold_K iv)
        (run_status self (simulation.Ttank_values st) (i - 1)) Ttank).
  { destruct i as [|k]; [lia|]. unfold run_status. cbn [pump_status_at].
    replace (Datatypes.S k - 1)%nat with k in * by lia. now rewrite HT. }
  rewrite Hstatus in HQ, HC, HP. unfold simulation.update_pump_status in *.
  split.
  - intros Hoff. rewrite Hoff in HQ, HC, HP. cbn in HQ, HC, HP.
    unfold step_Pin in HP. rewrite ltb_zero_zero in HP. auto.
  - intros Hon.
    rewrite (ltb_not_leb _ _ (leb_ltb_trans _ _ _ Hon Hband)), Hon in HQ.
    exact HQ.
Qed.

Lemma left_endpoint_sum_of_zeros (values time_values : list F) :
  Forall (fun x => x = #0) values ->
  left_endpoint_sum values time_values = #0.
Proof.
  intros Hzero. unfold left_endpoint_sum.
  assert (Hnth : forall i, nth i values #0 = #0).
  { intros i. destruct (nth_lookup_or_length values i #0) as [Hi|Hi].
    - rewrite Forall_lookup in Hzero. exact (Hzero _ _ Hi).
    - now apply nth_overflow. }
  generalize (seq 1 (length values - 1)). intros idx.
  induction idx as [|i idx IH] using rev_ind; [reflexivity|].
  rewrite foldl_app. cbn. rewrite IH, Hnth, mul_zero_l.
  apply add_zero_zero.
Qed.

Lemma total_heat_transfer_list (vs : PySeq F) (hours : list F) :
  (len vs <= length hours)%nat ->
  formulae.calculate_total_heat_transfer vs (PyList hours)
  = Ok (left_endpoint_sum (items vs) hours).
Proof. exact (total_energy_list vs hours). Qed.

Lemma total_heat_loss_list (vs : PySeq F) (hours : list F) :
  (len vs <= length hours)%nat ->
  formulae.calculate_total_heat_loss vs (PyList hours)
  = Ok (left_endpoint_sum (items vs) hours).
Proof. exact (total_energy_list vs hours). Qed.

(** X5.  When the heat-transfer series [euler] returns is zero throughout
    (the pump never ran), [simulate] does not store any result: the total
    heat transfer is 0 and [calculate_total_eff] divides by it, so
    [simulate] raises [ZeroDivisionError]. *)
Theorem run_without_heat_transfer_raises (self : simulation.Simulator F)
    (get_dhw_profile : result (F -> F)) time T hl hloss cop Pin Qtr QDHW :
  simulation.euler get_dhw_profile self
  = Ok (time, T, hl, hloss, cop, Pin, Qtr, QDHW) ->
  Forall (fun x => x = #0) (items Qtr) ->
  simulation.simulate get_dhw_profile self = Raise ZeroDivisionError.
Proof.
  intros Hrun Hzero.
  destruct (euler_lengths _ _ _ _ _ _ _ _ _ _ Hrun)
    as (Lt & LT & Lhl & Lhloss & Lcop & LPin & LQtr).
  destruct (euler_returns_lists _ _ _ _ _ _ _ _ _ _ Hrun)
    as ((l1 & l2 & l3 & l4 & l5 & l6 & l7 & -> & _) & _).
  unfold simulation.simulate. rewrite Hrun. cbn [mbind result_bind].
  unfold simulation.calculate_performance.
  unfold len in Lt. cbn [items] in Lt.
  rewrite total_energy_list by (rewrite Lt; lia).
  cbn [mbind result_bind].
  rewrite total_heat_transfer_list by (rewrite Lt; lia).
  cbn [mbind result_bind].
  rewrite total_heat_loss_list by (rewrite Lt; lia).
  cbn [mbind result_bind].
  rewrite (left_endpoint_sum_of_zeros _ _ Hzero).
  unfold formulae.calculate_total_eff, pydiv. now rewrite eqb_zero_zero.
Qed.

End PumpInTheRun.

(** ** The integrals on short or mismatched inputs *)

Section IntegralEdges.
Context {F : Type} `{Arith F}.
Local Open Scope num_scope.

Lemma for_each_app {S : Type} (body : nat -> S -> result S)
    (idx1 idx2 : list nat) (s : S) :
  for_each (idx1 ++ idx2) body s
  = (s' ← for_each idx1 body s; for_each idx2 body s').
Proof.
  revert s. induction idx1 as [|i idx1 IH]; intros s; [reflexivity|].
  cbn. destruct (body i s); cbn; [apply IH|reflexivity].
Qed.

Lemma getitem_out_of_range (s : PySeq F) (i : nat) :
  (len s <= i)%nat -> getitem s i = Raise IndexError.
Proof.
  intros Hi. unfold getitem. now rewrite (proj2 (lookup_ge_None _ _) Hi).
Qed.

(** X6.  Edge cases of [calculate_total_energy_consumption]: with no or
    one value the loop is not entered and the result is 0, whatever the
    time sequence; with a numpy array of times shorter than two or more
    values, [time_values[i]] runs out of range and [IndexError] is
    raised. *)
Theorem integral_on_short_inputs (vs : PySeq F) :
  (forall ts : PySeq F, (len vs <= 1)%nat ->
     formulae.calculate_total_energy_consumption vs ts = Ok #0)
  /\ (forall hours : list F, (2 <= len vs)%nat ->
        (length hours < len vs)%nat ->
        formulae.calculate_total_energy_consumption vs (NdArray hours)
        = Raise IndexError).
Proof.
  split.
  - intros ts Hlen. unfold formulae.calculate_total_energy_consumption, range.
    replace (len vs - 1)%nat with 0%nat by lia. reflexivity.
  - intros hours Hn HL.
    unfold formulae.calculate_total_energy_consumption, range.
    set (ts := mul_int (NdArray hours) 3600).
    assert (Hts : len ts = length hours).
    { unfold ts, len. cbn. apply length_map. }
    set (f := Nat.max (length hours) 1).
    replace (len vs - 1)%nat with ((f - 1) + (len vs - f))%nat by lia.
    rewrite seq_app, for_each_app.
    erewrite for_each_foldl.
    + cbn [mbind result_bind].
      replace (len vs - f)%nat with (Datatypes.S (len vs - f - 1)) by lia.
      replace (1 + (f - 1))%nat with f by lia. cbn [seq for_each].
      rewrite (getitem_out_of_range ts f) by lia. reflexivity.
    + intros i total Hi. apply list_elem_of_In, in_seq in Hi.
      rewrite (getitem_nth ts i), (getitem_nth ts (i - 1)),
        (getitem_nth vs i) by lia.
      reflexivity.
Qed.

(** A repeated list read at any position inside it. *)
Lemma list_repeat_lookup (k : nat) (l : list F) (i : nat) :
  (i < k * length l)%nat ->
  list_repeat k l !! i = l !! (i mod length l)%nat.
Proof.
  revert i. induction k as [|k IH]; intros i Hi; [lia|].
  cbn [list_repeat]. destruct (Nat.lt_ge_cases i (length l)) as [Hlt|Hge].
  - rewrite lookup_app_l by exact Hlt. now rewrite Nat.mod_small.
  - rewrite lookup_app_r by exact Hge. rewrite IH by lia.
    f_equal.
    replace i with ((i - length l) + 1 * length l)%nat at 2 by lia.
    now rewrite Nat.Div0.mod_add.
Qed.

(** X7.  With a Python list of times that is shorter than the values, no
    error is raised: up to 3600 times the length of the list,
    [time_values[i]] is read from the repeated list, which is item
    [i mod len(time_values)] of the times given. *)
Theorem short_time_list_wraps_around (vs : PySeq F) (hours : list F) :
  (len vs <= 3600 * length hours)%nat ->
  formulae.calculate_total_energy_consumption vs (PyList hours)
  = Ok (foldl (fun acc i =>
                 acc + nth i (items vs) #0
                       * (nth (i mod length hours) hours #0
                          - nth ((i - 1) mod length hours) hours #0))
              #0 (seq 1 (len vs - 1))).
Proof.
  intros Hlen. unfold formulae.calculate_total_energy_consumption, range.
  apply for_each_foldl. intros i total Hi.
  apply list_elem_of_In, in_seq in Hi.
  assert (Hrep : len (mul_int (PyList hours) 3600)
                 = (3600 * length hours)%nat).
  { unfold len. cbn [items mul_int]. apply list_repeat_length. }
  rewrite !getitem_nth by lia. cbn [items mul_int].
  rewrite !(nth_lookup (list_repeat _ _)), !list_repeat_lookup by lia.
  now rewrite <- !nth_lookup.
Qed.

End IntegralEdges.

(** ** [Qmax] on rationals *)

Section Maxima.
Import QInstance.
Local Open Scope num_scope.

Lemma Qlt_bool_false (a b : Q) : Qlt_bool a b = false -> (b <= a)%Q.
Proof.
  unfold Qlt_bool. intros Hlt. apply Z.ltb_ge in Hlt. exact Hlt.
Qed.

Lemma Qlt_bool_true (a b : Q) : Qlt_bool a b = true -> (a <= b)%Q.
Proof.
  unfold Qlt_bool. intros Hlt. apply Z.ltb_lt in Hlt.
  apply Qlt_le_weak. exact Hlt.
Qed.

Lemma max_loop_spec (xs : list Q) :
  forall x : Q,
    let m := foldl (fun m y => if y >? m then y else m) x xs in
    m ∈ x :: xs /\ forall y, y ∈ x :: xs -> (y <= m)%Q.
Proof.
  induction xs as [|z xs IH]; intros x m; subst m; cbn [foldl].
  - split; [constructor|]. intros y Hy. apply list_elem_of_singleton in Hy.
    subst y. apply Qle_refl.
  - destruct (IH (if z >? x then z else x)) as [Hin Hmax].
    split.
    + apply elem_of_cons in Hin. destruct Hin as [Hin|Hin].
      * rewrite Hin. destruct (z >? x); repeat constructor.
      * now do 2 constructor.
    + intros y Hy.
      assert (Hcur : (x <= (if z >? x then z else x))%Q
                     /\ (z <= (if z >? x then z else x))%Q).
      { change (x <? z) with (Qlt_bool x z).
        destruct (Qlt_bool x z) eqn:Hlt.
        - split; [now apply Qlt_bool_true|apply Qle_refl].
        - split; [apply Qle_refl|now apply Qlt_bool_false]. }
      destruct Hcur as [Hx Hz].
      apply elem_of_cons in Hy. destruct Hy as [->|Hy].
      * eapply Qle_trans; [exact Hx|]. apply Hmax. constructor.
      * apply elem_of_cons in Hy. destruct Hy as [->|Hy].
        -- eapply Qle_trans; [exact Hz|]. apply Hmax. constructor.
        -- apply Hmax. now constructor.
Qed.

(** X8.  [Qmax(Pin, COP)] raises [ValueError] exactly when one of the two
    series is empty; otherwise it is the product of an item of [Pin] that
    no item of [Pin] exceeds with an item of [COP] that no item of [COP]
    exceeds: the two maxima are taken apart, at whatever steps they are
    reached. *)
Theorem Qmax_is_the_product_of_the_maxima (Pin COP : PySeq Q) :
  (items Pin = [] \/ items COP = [] ->
   formulae.Qmax Pin COP = Raise ValueError)
  /\ (items Pin <> [] -> items COP <> [] ->
      exists p c : Q,
        formulae.Qmax Pin COP = Ok (p * c)
        /\ p ∈ items Pin /\ (forall y, y ∈ items Pin -> (y <= p)%Q)
        /\ c ∈ items COP /\ (forall y, y ∈ items COP -> (y <= c)%Q)).
Proof.
  unfold formulae.Qmax, formulae.py_max. split.
  - intros [-> | ->]; [reflexivity|]. now destruct (items Pin).
  - intros HP HC.
    destruct (items Pin) as [|x xs]; [congruence|].
    destruct (items COP) as [|z zs]; [congruence|].
    destruct (max_loop_spec xs x) as [Hp1 Hp2].
    destruct (max_loop_spec zs z) as [Hc1 Hc2].
    eexists _, _. split; [reflexivity|]. repeat split; assumption.
Qed.

End Maxima.

(** ** The draw-off profile *)

Section DrawOffProfile.
Context {F : Type} `{Arith F}.
Local Open Scope num_scope.

Lemma add_event_length (time_step : F) (profile : list F) (ev : DHWEvent F) :
  length (DHW.add_event time_step profile ev) = length profile.
Proof. apply length_imap. Qed.

Lemma add_events_length (time_step : F) (events : list (DHWEvent F)) :
  forall profile : list F,
    length (foldl (DHW.add_event time_step) profile events) = length profile.
Proof.
  induction events as [|ev events IH]; intros profile; [reflexivity|].
  cbn. now rewrite IH, add_event_length.
Qed.

(** X9.  An event whose start and end index are not negative adds its
    flow rate to the bins [start_index .. end_index - 1] that exist (the
    part beyond the end of the array is cut off) and to no other. *)
Theorem in_range_event_bins
    (time_step : F) (profile : list F) (ev : DHWEvent F) :
  let s := DHW.start_index time_step ev in
  let e := DHW.end_index time_step ev in
  (0 <= s)%Z -> (0 <= e)%Z ->
  length (DHW.add_event time_step profile ev) = length profile
  /\ forall (k : nat) (x : F), profile !! k = Some x ->
       ((s <= Z.of_nat k < e)%Z ->
        DHW.add_event time_step profile ev !! k = Some (x + flow_rate ev))
       /\ (~ (s <= Z.of_nat k < e)%Z ->
           DHW.add_event time_step profile ev !! k = Some x).
Proof.
  intros s e Hs He. split; [apply add_event_length|].
  intros k x Hx. assert (Hk := lookup_lt_Some _ _ _ Hx).
  unfold DHW.add_event. fold s e. rewrite slice_iadd_lookup, Hx. cbn.
  unfold DHW.adjust_index.
  destruct (Z.ltb_spec s 0); [lia|]. destruct (Z.ltb_spec e 0); [lia|].
  destruct (Z.leb_spec (Z.of_nat (length profile)) s);
    destruct (Z.leb_spec (Z.of_nat (length profile)) e);
    split; intros Hrange; f_equal;
    repeat match goal with
           | |- context [(?x <? ?y)%Z] => destruct (Z.ltb_spec x y)
           | |- context [(?x <=? ?y)%Z] => destruct (Z.leb_spec x y)
           end; cbn; try reflexivity; lia.
Qed.

(** X10.  An event that starts before time 0 and ends at or after it
    (start index negative, of magnitude at most the array length, end
    index between 0 and [len + start_index]) is dropped whole: the slice
    runs from [len + start_index] back to [end_index] and is empty. *)
Theorem straddling_event_is_dropped
    (time_step : F) (profile : list F) (ev : DHWEvent F) :
  let n := Z.of_nat (length profile) in
  let s := DHW.start_index time_step ev in
  let e := DHW.end_index time_step ev in
  (s < 0)%Z -> (- n <= s)%Z -> (0 <= e <= n + s)%Z ->
  DHW.add_event time_step profile ev = profile.
Proof.
  intros n s e Hs Hms He. apply slice_iadd_empty. fold n s e.
  rewrite (adjust_index_negative n s) by assumption.
  unfold DHW.adjust_index.
  destruct (Z.ltb_spec e 0); [lia|]. destruct (Z.leb_spec n e); lia.
Qed.

(** X11.  Overlapping events add, bin by bin: after any list of events,
    a bin holds what it held before plus, in the order of the events, the
    flow rate of each event whose slice covers it. *)
Theorem bin_is_the_sum_of_covering_events
    (time_step : F) (events : list (DHWEvent F)) :
  forall (profile : list F) (k : nat),
    foldl (DHW.add_event time_step) profile events !! k
    = (fun x0 =>
         foldl (fun x ev =>
                  if event_covers time_step (length profile) ev k
                  then x + flow_rate ev else x) x0 events)
      <$> profile !! k.
Proof.
  induction events as [|ev events IH]; intros profile k.
  - cbn [foldl]. now destruct (profile !! k).
  - cbn [foldl]. rewrite IH, add_event_length.
    unfold DHW.add_event. rewrite slice_iadd_lookup.
    destruct (profile !! k) as [x|]; reflexivity.
Qed.

End DrawOffProfile.

Section DefaultDay.
Import QInstance.
Local Open Scope num_scope.


End DefaultDay.

(** ** The draw-off in a run *)

Section DrawOffInTheRun.
Context {F : Type} `{Arith F}.
Local Open Scope num_scope.

(** Two loop bodies that agree on the indices run over give the same
    loop. *)
Lemma for_each_ext_in {S : Type} (body body' : nat -> S -> result S) :
  forall (idx : list nat) (s : S),
    (forall i s', i ∈ idx -> body i s' = body' i s') ->
    for_each idx body s = for_each idx body' s.
Proof.
  induction idx as [|i idx IH]; intros s Hagree; [reflexivity|].
  cbn. rewrite Hagree by constructor.
  destruct (body' i s) as [s1|e]; [|reflexivity].
  cbn. apply IH. intros j s' Hj. apply Hagree. now constructor.
Qed.

(** An iteration consults the draw-off profile at [time_values[i-1] /
    3600] only. *)
Lemma euler_step_profile_ext (self : simulation.Simulator F)
    (dhw dhw' : F -> F)
    (T_on T_off step_size T_inlet Atank : F) (time_values : list F)
    (i : nat) (st : simulation.LoopState F) :
  (forall t, time_values !! (i - 1)%nat = Some t ->
     dhw (t / #3600) = dhw' (t / #3600)) ->
  simulation.euler_step self dhw T_on T_off step_size T_inlet Atank
    time_values i st
  = simulation.euler_step self dhw' T_on T_off step_size T_inlet Atank
      time_values i st.
Proof.
  intros Hagree. unfold simulation.euler_step, getitem. cbn [items].
  destruct (time_values !! (i - 1)%nat) as [t|]; [|reflexivity].
  cbn [mbind result_bind]. now rewrite (Hagree t eq_refl).
Qed.

(** A run consults the draw-off profile at its sample times but the
    last. *)
Lemma euler_profile_ext (self : simulation.Simulator F) (dhw dhw' : F -> F) :
  let iv := simulation.inputValues self in
  (forall time_values (k : nat) t,
     np_linspace #0 (total_time_seconds iv) (time_points iv)
     = Ok time_values ->
     (k < Z.to_nat (time_points iv) - 1)%nat ->
     time_values !! k = Some t ->
     dhw (t / #3600) = dhw' (t / #3600)) ->
  simulation.euler (Ok dhw) self = simulation.euler (Ok dhw') self.
Proof.
  intros iv Hagree. unfold simulation.euler. fold iv.
  destruct (np_linspace #0 (total_time_seconds iv) (time_points iv))
    as [time_values|e] eqn:Hlin; [|reflexivity].
  cbn [mbind result_bind].
  destruct (simulation.pydiv_int _ _) as [step_size|e]; [|reflexivity].
  cbn [mbind result_bind].
  destruct (simulation.DHW self); [|reflexivity].
  cbn [mbind result_bind].
  destruct (formulae.tank_SA _ _) as [Atank|e]; [|reflexivity].
  cbn [mbind result_bind].
  destruct (setitem _ _ _) as [Ttank0|e]; [|reflexivity].
  cbn [mbind result_bind].
  match goal with
  | |- mbind _ (for_each ?idx ?body ?s) = mbind _ (for_each _ ?body' _) =>
      rewrite (for_each_ext_in body body' idx s); [reflexivity|]
  end.
  intros i s' Hi. apply euler_step_profile_ext. intros t Ht.
  unfold range in Hi. apply elem_of_seq in Hi.
  apply (Hagree time_values (i - 1)%nat t eq_refl); [lia|exact Ht].
Qed.

End DrawOffInTheRun.

Section DrawOffInTheRunOnRationals.
Import QInstance.
Local Open Scope num_scope.

(** The profile of a default day. *)
Lemma default_profile (events : list (DHWEvent Q)) :
  DHW.dhw_profile #24 #60 events
  = Ok {| index := DHW.np_arange (#24 * #3600) #60;
          values := foldl (DHW.add_event #60) (np_zeros 1440) events |}.
Proof.
  unfold DHW.dhw_profile.
  assert (Hq : pydiv (#24 * #3600) #60 = Ok (#1440 : Q))
    by (vm_compute; reflexivity).
  rewrite Hq. cbn [mbind result_bind].
  change (trunc (#1440 : Q)) with 1440%Z.
  change (1440 <? 0)%Z with false. cbn iota.
  assert (Hidx : length (DHW.np_arange (#24 * #3600) (#60 : Q)) = 1440%nat)
    by (vm_compute; reflexivity).
  assert (Hlen :
    length (foldl (DHW.add_event #60) (np_zeros (Z.to_nat 1440)) events)
    = 1440%nat).
  { rewrite add_events_length. unfold np_zeros. rewrite length_replicate.
    reflexivity. }
  rewrite decide_True by (rewrite Hidx, Hlen; reflexivity).
  reflexivity.
Qed.

(** C5.  On the failing input, a day in four points with DHW on and the
    profile [get_dhw_profile] builds from the events of seed 42 (taken
    through any interpolant that passes through its data): at step 2 the
    profile is sampled at 08:00, inside the second event, the heat draw
    [flow * 4186 * (T[1] - 300)] of the step is not zero, and the DHW
    series returned is all zeros.  Indeed whatever [euler] returns with
    DHW on, its DHW series is the zeros [QDHW_values] was allocated
    with: [QDHW] is never stored.  With DHW off the channel is the
    sentinel string. *)
Theorem dhw_series_is_never_written
    (PchipInterpolator : list Q -> list Q -> Q -> Q) :
  (forall (profile : Series Q) (k : nat) (x y : Q),
     DHW.dhw_profile #24 #60 Examples.seed_42_events = Ok profile ->
     index profile !! k = Some x -> values profile !! k = Some y ->
     DHW.dhw_profile_interpolator PchipInterpolator profile (x / #3600)
     = y) ->
  let get_dhw_profile :=
    DHW.get_dhw_profile PchipInterpolator Examples.seed_42_events in
  let self := Demo.simulator 86400 4 true in
  let flow : Q := Qmake 6169351824626089 18014398509481984 in
  (exists (dhw : Q -> Q) (T : list Q) (T1 : Q) time hl hloss cop Pin Qtr,
     get_dhw_profile = Ok dhw
     /\ dhw (#28800 / #3600) = flow
     /\ simulation.euler get_dhw_profile self
        = Ok (time, PyList T, hl, hloss, cop, Pin, Qtr,
              simulation.QDHW_list (PyList [#0; #0; #0; #0]))
     /\ items time !! 1%nat = Some (#28800 / #3600)
     /\ T !! 1%nat = Some T1
     /\ step_QDHW self dhw #28800 T1 = flow * #4186 * (T1 - #300)
     /\ step_QDHW self dhw #28800 T1 <> #0)
  /\ (forall (self' : simulation.Simulator Q) get_dhw_profile'
             time T hl hloss cop Pin Qtr QDHW,
        simulation.euler get_dhw_profile' self'
        = Ok (time, T, hl, hloss, cop, Pin, Qtr, QDHW) ->
        QDHW
        = if simulation.DHW self'
          then simulation.QDHW_list
                 (PyList (np_zeros
                    (Z.to_nat (time_points (simulation.inputValues self')))))
          else simulation.QDHW_str "DHW Simulation Off").
Proof.
  intros Hpass get_dhw_profile self flow. split.
  2:{ intros self' get' time T hl hloss cop Pin Qtr QDHW Hrun.
      apply (euler_returns_lists _ _ _ _ _ _ _ _ _ _ Hrun). }
  pose proof (default_profile Examples.seed_42_events) as Hprofile.
  remember {| index := DHW.np_arange (#24 * #3600) (#60 : Q);
              values := foldl (DHW.add_event #60) (np_zeros 1440)
                          Examples.seed_42_events |} as profile eqn:Hdef.
  assert (Hnode : forall (k : nat) (x y : Q),
            DHW.np_arange (#24 * #3600) (#60 : Q) !! k = Some x ->
            foldl (DHW.add_event #60) (np_zeros 1440)
              Examples.seed_42_events !! k = Some y ->
            DHW.dhw_profile_interpolator PchipInterpolator profile
              (x / #3600) = y).
  { intros k x y Hx Hy. apply (Hpass profile k x y Hprofile); subst profile;
      assumption. }
  assert (H0 : DHW.dhw_profile_interpolator PchipInterpolator profile
                 ((#0 : Q) / #3600) = #0).
  { apply (Hnode 0%nat); vm_compute; reflexivity. }
  assert (H8 : DHW.dhw_profile_interpolator PchipInterpolator profile
                 ((#28800 : Q) / #3600) = flow).
  { apply (Hnode 480%nat); vm_compute; reflexivity. }
  assert (H16 : DHW.dhw_profile_interpolator PchipInterpolator profile
                  ((#57600 : Q) / #3600) = #0).
  { apply (Hnode 960%nat); vm_compute; reflexivity. }
  assert (Hget : get_dhw_profile
                 = Ok (DHW.dhw_profile_interpolator PchipInterpolator
                         profile)).
  { unfold get_dhw_profile, DHW.get_dhw_profile. now rewrite Hprofile. }
  clear Hdef Hprofile Hnode Hpass.
  set (dhw := DHW.dhw_profile_interpolator PchipInterpolator profile) in *.
  set (table := fun x : Q => if eqb x #8 then flow else #0).
  assert (Hrun : simulation.euler get_dhw_profile self
                 = simulation.euler (Ok table) self).
  { rewrite Hget. apply euler_profile_ext.
    intros time_values k t Hlin Hk Ht.
    vm_compute in Hlin. injection Hlin as <-.
    change (Z.to_nat (time_points (simulation.inputValues self)) - 1)%nat
      with 3%nat in Hk.
    destruct k as [|[|[|k]]]; [| | |lia]; cbn in Ht; injection Ht as <-.
    - change (dhw ((#0 : Q) / #3600) = table ((#0 : Q) / #3600)).
      rewrite H0. reflexivity.
    - change (dhw ((#28800 : Q) / #3600) = table ((#28800 : Q) / #3600)).
      rewrite H8. reflexivity.
    - change (dhw ((#57600 : Q) / #3600) = table ((#57600 : Q) / #3600)).
      rewrite H16. reflexivity. }
  exists dhw. rewrite Hrun. do 8 eexists.
  split; [exact Hget|]. split; [exact H8|].
  split; [vm_compute; reflexivity|].
  split; [vm_compute; reflexivity|].
  split; [reflexivity|].
  unfold step_QDHW. cbn [simulation.DHW self Demo.simulator].
  rewrite H8. split; [reflexivity|].
  vm_compute. intros Hc. discriminate Hc.
Qed.

(** The interpolant that reads the bin passes through the data of the
    profile. *)
Lemma bin_lookup_passes_through (ys : list Q) (k : nat) (y : Q) :
  (k < 1440)%nat -> ys !! k = Some y ->
  Examples.bin_lookup
    (map (fun t => t / #3600) (DHW.np_arange (#24 * #3600) #60)) ys
    ((#0 + #(Z.of_nat k) * #60) / #3600)%num
  = y.
Proof.
  intros Hk Hy. unfold Examples.bin_lookup.
  assert (Hall :
    forallb (fun k : nat =>
               Nat.eqb
                 (Z.to_nat (trunc (((#0 + #(Z.of_nat k) * #60) / #3600)
                                   * (#60 : Q))))
                 k) (seq 0 1440) = true) by (vm_compute; reflexivity).
  rewrite forallb_forall in Hall.
  assert (Hbin := Hall k). rewrite Nat.eqb_eq in Hbin.
  rewrite Hbin by (apply in_seq; lia).
  apply nth_lookup_Some with (d := #0) in Hy. exact Hy.
Qed.

(** What the profile of a default day is made of. *)
Lemma default_profile_inv (events : list (DHWEvent Q)) (profile : Series Q) :
  DHW.dhw_profile #24 #60 events = Ok profile ->
  index profile = DHW.np_arange (#24 * #3600) #60
  /\ values profile = foldl (DHW.add_event #60) (np_zeros 1440) events.
Proof.
  intros Hprofile. rewrite default_profile in Hprofile.
  injection Hprofile as <-. split; reflexivity.
Qed.

Lemma bin_lookup_interpolates (profile : Series Q) (k : nat) (x y : Q) :
  DHW.dhw_profile #24 #60 Examples.seed_42_events = Ok profile ->
  index profile !! k = Some x -> values profile !! k = Some y ->
  DHW.dhw_profile_interpolator Examples.bin_lookup profile (x / #3600) = y.
Proof.
  intros Hprofile Hx Hy.
  destruct (default_profile_inv _ _ Hprofile) as [Hidx _].
  unfold DHW.dhw_profile_interpolator.
  rewrite Hidx in Hx |- *. clear Hidx Hprofile.
  assert (Hk : (k < 1440)%nat).
  { apply lookup_lt_Some in Hx.
    replace (length (DHW.np_arange (#24 * #3600) (#60 : Q)))
      with 1440%nat in Hx by (vm_compute; reflexivity).
    exact Hx. }
  assert (Hxk : x = #0 + #(Z.of_nat k) * #60).
  { unfold DHW.np_arange in Hx. rewrite list_lookup_fmap in Hx.
    destruct (seq 0 _ !! k) as [i|] eqn:Hi; [|discriminate Hx].
    apply lookup_seq in Hi as [-> _]. change (0 + k)%nat with k in Hx.
    cbn [fmap option_fmap option_map] in Hx. injection Hx as <-.
    reflexivity. }
  subst x. apply (bin_lookup_passes_through _ k y Hk Hy).
Qed.

Lemma dhw_series_is_never_written_witness :
  exists (dhw : Q -> Q) (T1 : Q),
    DHW.get_dhw_profile Examples.bin_lookup Examples.seed_42_events = Ok dhw
    /\ dhw (#28800 / #3600) = Qmake 6169351824626089 18014398509481984
    /\ step_QDHW (Demo.simulator 86400 4 true) dhw #28800 T1 <> #0
    /\ exists time T hl hloss cop Pin Qtr,
         simulation.euler
           (DHW.get_dhw_profile Examples.bin_lookup Examples.seed_42_events)
           (Demo.simulator 86400 4 true)
         = Ok (time, PyList T, hl, hloss, cop, Pin, Qtr,
               simulation.QDHW_list (PyList [#0; #0; #0; #0]))
         /\ T !! 1%nat = Some T1.
Proof.
  destruct (dhw_series_is_never_written Examples.bin_lookup
              bin_lookup_interpolates)
    as [(dhw & T & T1 & time & hl & hloss & cop & Pin & Qtr & Hget & Hflow
         & Hrun & _ & HT1 & _ & Hdraw) _].
  exists dhw, T1. split; [exact Hget|]. split; [exact Hflow|].
  split; [exact Hdraw|]. exists time, T, hl, hloss, cop, Pin, Qtr.
  split; [exact Hrun | exact HT1].
Defined.

End DrawOffInTheRunOnRationals.

(** ** The parameter store *)

Section ParameterStore.
Context {V : Type}.
Implicit Types self : parameter_store.InputValues V.
Implicit Types h : parameter_store.heap V.
Implicit Types x v : parameter_store.pyvalue V.

Lemma heap_update_eq h (a : parameter_store.address) object :
  parameter_store.heap_update h a object a = object.
Proof. unfold parameter_store.heap_update. now rewrite Nat.eqb_refl. Qed.

Lemma heap_update_ne h (a a' : parameter_store.address) object :
  a' <> a -> parameter_store.heap_update h a object a' = h a'.
Proof.
  intros Hne. unfold parameter_store.heap_update.
  now destruct (Nat.eqb_spec a' a).
Qed.

(** Setting the field ["value"] of a dictionary leaves every membership
    test and every subscript by another key as it was. *)
Lemma py_contains_after h (a : parameter_store.address) fields v x
    (key : string) :
  h a = parameter_store.PyDictObj fields -> key <> "value"%string ->
  parameter_store.py_contains
    (parameter_store.heap_update h a
       (parameter_store.PyDictObj (<["value"%string := v]> fields))) x key
  = parameter_store.py_contains h x key.
Proof.
  intros Hobj Hkey. destruct x as [| |s|a']; try reflexivity.
  cbn [parameter_store.py_contains].
  destruct (decide (a' = a)) as [->|Hne].
  - rewrite heap_update_eq, Hobj.
    now rewrite fin_maps.lookup_insert_ne by congruence.
  - now rewrite heap_update_ne.
Qed.

Lemma py_getitem_after h (a : parameter_store.address) fields v x
    (key : string) :
  h a = parameter_store.PyDictObj fields -> key <> "value"%string ->
  parameter_store.py_getitem
    (parameter_store.heap_update h a
       (parameter_store.PyDictObj (<["value"%string := v]> fields))) x key
  = parameter_store.py_getitem h x key.
Proof.
  intros Hobj Hkey. destruct x as [| |s|a']; try reflexivity.
  cbn [parameter_store.py_getitem].
  destruct (decide (a' = a)) as [->|Hne].
  - rewrite heap_update_eq, Hobj.
    now rewrite fin_maps.lookup_insert_ne by congruence.
  - now rewrite heap_update_ne.
Qed.

(** The field read back from the dictionary that was changed, and from
    anything else. *)
Lemma py_get_after_same h (a : parameter_store.address) fields v :
  parameter_store.py_get
    (parameter_store.heap_update h a
       (parameter_store.PyDictObj (<["value"%string := v]> fields)))
    (parameter_store.PyRef a) "value"
  = Ok v.
Proof.
  cbn [parameter_store.py_get]. rewrite heap_update_eq.
  now rewrite fin_maps.lookup_insert_eq.
Qed.

Lemma py_get_after_other h (a : parameter_store.address) object x
    (key : string) :
  x <> parameter_store.PyRef a ->
  parameter_store.py_get (parameter_store.heap_update h a object) x key
  = parameter_store.py_get h x key.
Proof.
  intros Hne. destruct x as [| |s|a']; try reflexivity.
  cbn [parameter_store.py_get]. rewrite heap_update_ne by congruence.
  reflexivity.
Qed.

(** A subscript that returns was announced by the membership test. *)
Lemma py_getitem_contains h x (key : string) y :
  parameter_store.py_getitem h x key = Ok y ->
  parameter_store.py_contains h x key = Ok true.
Proof.
  destruct x as [| |s|a]; try discriminate.
  cbn [parameter_store.py_getitem parameter_store.py_contains].
  destruct (h a) as [elements|fields]; [discriminate|].
  now destruct (fields !! key).
Qed.

(** [value] reads the field of the entry, when there is an entry. *)
Lemma value_of_entry self (T N : string) entry :
  entry_of self T N = Ok entry ->
  parameter_store.value self T N
  = parameter_store.py_get (parameter_store.objects self) entry "value".
Proof.
  unfold entry_of, parameter_store.value.
  destruct (parameter_store.data self) as [|n|s|a]; [discriminate| | |];
    intros Hentry;
    (destruct (parameter_store.py_getitem _ _ T) as [category|e] eqn:HT;
       [|discriminate Hentry]);
    cbn [mbind result_bind] in Hentry;
    rewrite (py_getitem_contains _ _ _ _ HT); cbn [mbind result_bind negb];
    rewrite (py_getitem_contains _ _ _ _ Hentry);
    cbn [mbind result_bind negb]; now rewrite Hentry.
Qed.

(** [value] depends on the objects through the membership tests and the
    subscripts by its two keys and through the field of the entry. *)
Lemma value_ext self self' (T N : string) :
  parameter_store.data self' = parameter_store.data self ->
  (forall x (key : string), key = T \/ key = N ->
     parameter_store.py_contains (parameter_store.objects self') x key
     = parameter_store.py_contains (parameter_store.objects self) x key) ->
  (forall x (key : string), key = T \/ key = N ->
     parameter_store.py_getitem (parameter_store.objects self') x key
     = parameter_store.py_getitem (parameter_store.objects self) x key) ->
  (forall entry, entry_of self T N = Ok entry ->
     parameter_store.py_get (parameter_store.objects self') entry "value"
     = parameter_store.py_get (parameter_store.objects self) entry "value") ->
  parameter_store.value self' T N = parameter_store.value self T N.
Proof.
  intros Hdata Hin Hsub Hget.
  unfold parameter_store.value. unfold entry_of in Hget. rewrite Hdata.
  destruct (parameter_store.data self) as [|n|s|a]; [reflexivity| | |].
  all: rewrite !Hin, !Hsub by auto.
  all: destruct (parameter_store.py_contains _ _ T) as [[|]|e];
    cbn [mbind result_bind negb]; try reflexivity.
  all: destruct (parameter_store.py_getitem _ _ T) as [category|e];
    cbn [mbind result_bind] in *; try reflexivity.
  all: rewrite !Hin, !Hsub by auto.
  all: destruct (parameter_store.py_contains _ category N) as [[|]|e];
    cbn [mbind result_bind negb]; try reflexivity.
  all: destruct (parameter_store.py_getitem _ category N) as [entry|e];
    cbn [mbind result_bind]; try reflexivity.
  all: now apply Hget.
Qed.

(** What [change_input_value] has done when it returns. *)
Lemma change_input_value_inv self self' (T N : string) v :
  parameter_store.change_input_value self T N v = Ok self' ->
  exists (a : parameter_store.address) fields,
    entry_of self T N = Ok (parameter_store.PyRef a)
    /\ parameter_store.objects self a = parameter_store.PyDictObj fields
    /\ self'
       = {| parameter_store.input_name := parameter_store.input_name self;
            parameter_store.data := parameter_store.data self;
            parameter_store.objects :=
              parameter_store.heap_update (parameter_store.objects self) a
                (parameter_store.PyDictObj
                   (<["value"%string := v]> fields)) |}.
Proof.
  unfold parameter_store.change_input_value, entry_of. intros Hchange.
  destruct (parameter_store.py_getitem _ _ T) as [category|e];
    [|discriminate Hchange].
  cbn [mbind result_bind] in *.
  destruct (parameter_store.py_getitem _ category N) as [entry|e];
    [|discriminate Hchange].
  cbn [mbind result_bind] in *.
  destruct entry as [| |s|a]; try discriminate Hchange.
  cbn [parameter_store.py_setitem] in Hchange.
  destruct (parameter_store.objects self a) as [elements|fields] eqn:Hobj;
    [discriminate Hchange|].
  cbn [mbind result_bind] in Hchange. injection Hchange as <-.
  exists a, fields. repeat split. exact Hobj.
Qed.

(** The store after the field ["value"] of the dictionary at [a] has
    been set, seen through keys other than ["value"]. *)
Lemma store_after_update self (a : parameter_store.address) fields v :
  parameter_store.objects self a = parameter_store.PyDictObj fields ->
  let self' :=
    {| parameter_store.input_name := parameter_store.input_name self;
       parameter_store.data := parameter_store.data self;
       parameter_store.objects :=
         parameter_store.heap_update (parameter_store.objects self) a
           (parameter_store.PyDictObj (<["value"%string := v]> fields)) |} in
  forall T N : string, T <> "value"%string -> N <> "value"%string ->
    entry_of self' T N = entry_of self T N
    /\ (entry_of self T N = Ok (parameter_store.PyRef a) ->
        parameter_store.value self' T N = Ok v)
    /\ (entry_of self T N <> Ok (parameter_store.PyRef a) ->
        parameter_store.value self' T N = parameter_store.value self T N).
Proof.
  intros Hobj self' T N HT HN.
  assert (Hentry : entry_of self' T N = entry_of self T N).
  { unfold entry_of, self'.
    cbn [parameter_store.data parameter_store.objects].
    rewrite (py_getitem_after _ _ _ _ _ _ Hobj HT).
    destruct (parameter_store.py_getitem _ _ T) as [category|e];
      [|reflexivity].
    cbn [mbind result_bind]. now apply py_getitem_after. }
  split; [exact Hentry|]. split.
  - intros Hsame. rewrite (value_of_entry self' T N (parameter_store.PyRef a))
      by now rewrite Hentry.
    apply py_get_after_same.
  - intros Hother. apply value_ext.
    + reflexivity.
    + intros x key [-> | ->]; now apply py_contains_after.
    + intros x key [-> | ->]; now apply py_getitem_after.
    + intros entry He. apply py_get_after_other. congruence.
Qed.

(** X13.  After [change_input_value(T, N, v)] has returned, [value(T, N)]
    is [v]; so is [value] of every parameter whose entry is the same
    object (an alias of it in the document), and [value] of every other
    parameter is what it was, errors included.  The keys are any but the
    string ["value"] itself. *)
Theorem value_after_change_input_value self self' (T N : string) v :
  T <> "value"%string -> N <> "value"%string ->
  parameter_store.change_input_value self T N v = Ok self' ->
  exists a : parameter_store.address,
    entry_of self T N = Ok (parameter_store.PyRef a)
    /\ parameter_store.value self' T N = Ok v
    /\ forall T' N' : string,
         T' <> "value"%string -> N' <> "value"%string ->
         (entry_of self T' N' = Ok (parameter_store.PyRef a) ->
          parameter_store.value self' T' N' = Ok v)
         /\ (entry_of self T' N' <> Ok (parameter_store.PyRef a) ->
             parameter_store.value self' T' N'
             = parameter_store.value self T' N').
Proof.
  intros HT HN Hchange.
  destruct (change_input_value_inv _ _ _ _ _ Hchange)
    as (a & fields & Hentry & Hobj & ->).
  exists a. split; [exact Hentry|].
  pose proof (store_after_update self a fields v Hobj) as Hafter.
  cbv zeta in Hafter. split.
  - now apply (Hafter T N HT HN).
  - intros T' N' HT' HN'. now apply (Hafter T' N' HT' HN').
Qed.

(** X14.  [change_input_value] succeeds on exactly the parameters that
    [value] can read.  Where [value] raises, [change_input_value] raises
    too: [TypeError] on a store that is not loaded ([value] raises
    [ValueError] there), or when [value] raises [TypeError] or, on an
    entry that is no mapping, [AttributeError]; and [KeyError] or
    [TypeError] on a missing category or name.  [value] raises nothing
    else. *)
Theorem change_input_value_fails_where_value_fails self (T N : string) v :
  match parameter_store.value self T N with
  | Ok _ => exists self', parameter_store.change_input_value self T N v
                          = Ok self'
  | Raise ValueError =>
      parameter_store.data self = parameter_store.PyNone
      /\ parameter_store.change_input_value self T N v = Raise TypeError
  | Raise KeyError =>
      parameter_store.change_input_value self T N v = Raise KeyError
      \/ parameter_store.change_input_value self T N v = Raise TypeError
  | Raise TypeError | Raise AttributeError =>
      parameter_store.change_input_value self T N v = Raise TypeError
  | Raise _ => False
  end
  /\ ((exists self', parameter_store.change_input_value self T N v
                     = Ok self') ->
      exists x, parameter_store.value self T N = Ok x).
Proof.
  split.
  - unfold parameter_store.value, parameter_store.change_input_value,
      parameter_store.py_contains, parameter_store.py_getitem,
      parameter_store.py_get, parameter_store.py_setitem.
    destruct (parameter_store.data self) as [|n|s|a];
      cbn [mbind result_bind negb]; auto.
    + destruct (parameter_store.is_substring T s);
        cbn [mbind result_bind negb]; auto.
    + destruct (parameter_store.objects self a) as [elements|fields];
        cbn [mbind result_bind negb].
      { destruct (existsb _ elements); cbn [mbind result_bind negb]; auto. }
      destruct (fields !! T) as [[|n|s|c]|];
        cbn [mbind result_bind negb]; auto.
      { destruct (parameter_store.is_substring N s);
          cbn [mbind result_bind negb]; auto. }
      destruct (parameter_store.objects self c) as [elements|cfields];
        cbn [mbind result_bind negb].
      { destruct (existsb _ elements); cbn [mbind result_bind negb]; auto. }
      destruct (cfields !! N) as [[|n|s|e]|];
        cbn [mbind result_bind negb]; auto.
      destruct (parameter_store.objects self e) as [elements|efields];
        cbn [mbind result_bind negb]; eauto.
  - intros [self' Hchange].
    destruct (change_input_value_inv _ _ _ _ _ Hchange)
      as (a & fields & Hentry & Hobj & _).
    rewrite (value_of_entry _ _ _ _ Hentry).
    cbn [parameter_store.py_get]. rewrite Hobj. eauto.
Qed.

(** X15.  When the YAML file cannot be read, or is an empty document,
    [load_data] returns all the same (the error is printed), and from
    then on every [value] raises [ValueError] and every
    [change_input_value] raises [TypeError]. *)
Theorem failed_load_blocks_every_parameter
    (safe_load_file : string ->
                      result (parameter_store.pyvalue V
                              * parameter_store.heap V))
    self :
  (exists e, safe_load_file (parameter_store.input_name self) = Raise e)
  \/ (exists h, safe_load_file (parameter_store.input_name self)
                = Ok (parameter_store.PyNone, h)) ->
  exists self' printed,
    parameter_store.load_data safe_load_file self = Ok (self', printed)
    /\ (forall e,
          safe_load_file (parameter_store.input_name self) = Raise e ->
          printed
          = [("Error occurred when collecting data from YAML file: "
              ++ str_of_error e)%string])
    /\ forall (T N : string),
         parameter_store.value self' T N = Raise ValueError
         /\ forall v,
              parameter_store.change_input_value self' T N v
              = Raise TypeError.
Proof.
  intros Hload. unfold parameter_store.load_data, parameter_store.getYAML,
    try_except.
  destruct Hload as [[e ->] | [h ->]]; cbn [mbind result_bind];
    eexists _, _; (split; [reflexivity|]); split;
    try (intros e' [= <-]; reflexivity); try (intros e' [=]);
    intros T N; split; reflexivity.
Qed.

End ParameterStore.

(** ** The ambient temperature data *)

Section AmbientData.
Context {Point DateTime DataFrame Interpolator : Type}.
Variable fetch_hourly : Point -> DateTime -> DateTime -> result DataFrame.
Variable empty_frame : DataFrame.
Variable build_interpolator : DataFrame -> result Interpolator.

(** X16.  [get_ambient_temps] raises only [ValueError], and only when
    the location, the start time or the end time is not set.  Once the
    three are set it returns, whatever fails inside: the frame is the
    fetched one, or the empty frame when the fetch failed, so it is never
    missing when [interpolate_data] runs; what is returned is the
    interpolant of that frame, or, when building it failed, the
    interpolant the object held before the call ([None] on a fresh
    object); nothing is printed only if both steps succeeded. *)
Theorem get_ambient_temps_outcomes
    (self : ambient.AmbientTempData Point DateTime DataFrame Interpolator) :
  match ambient.get_ambient_temps fetch_hourly empty_frame build_interpolator
          self with
  | Raise e =>
      e = ValueError
      /\ (ambient.location self = None \/ ambient.start_time self = None
          \/ ambient.end_time self = None)
  | Ok (self', returned, printed) =>
      exists loc t0 t1 df,
        ambient.location self = Some loc
        /\ ambient.start_time self = Some t0
        /\ ambient.end_time self = Some t1
        /\ ambient.meteostat_data self' = Some df
        /\ match fetch_hourly loc t0 t1 with
           | Ok fetched => df = fetched
           | Raise _ => df = empty_frame /\ printed <> []
           end
        /\ match build_interpolator df with
           | Ok f => returned = Some f
           | Raise _ =>
               returned = ambient.interpolated_data self /\ printed <> []
           end
        /\ returned = ambient.interpolated_data self'
  end.
Proof.
  unfold ambient.get_ambient_temps, ambient.import_meteostat_data,
    ambient.interpolate_data, try_except.
  destruct (ambient.location self) as [loc|]; [|cbn; auto].
  destruct (ambient.start_time self) as [t0|]; [|cbn; auto].
  destruct (ambient.end_time self) as [t1|]; [|cbn; auto].
  destruct (fetch_hourly loc t0 t1) as [fetched|e] eqn:Hfetch;
    cbn [mbind result_bind ambient.meteostat_data].
  - destruct (build_interpolator fetched) as [f|e] eqn:Hbuild;
      cbn [mbind result_bind ambient.interpolated_data
           ambient.meteostat_data app];
      exists loc, t0, t1, fetched; rewrite Hfetch, Hbuild;
      repeat split; discriminate.
  - destruct (build_interpolator empty_frame) as [f|e'] eqn:Hbuild;
      cbn [mbind result_bind ambient.interpolated_data
           ambient.meteostat_data app];
      exists loc, t0, t1, empty_frame; rewrite Hfetch, Hbuild;
      repeat split; discriminate.
Qed.

End AmbientData.

(** ** The parameter entries of the window *)

Section Entries.
Context {F : Type} `{Arith F}.
Local Open Scope num_scope.
Variable float_of_text : string -> option F.
Implicit Types store : parameter_store.InputValues F.

(** X17.  The loop of [run_simulation] over entries of distinct keys
    (none of them the string ["value"]) whose entries in the store are
    mappings, no two of them the same object: it returns; a parameter
    whose text reads as the number [x] is then [x], or [x + 273.15] for
    the four temperatures entered in Celsius; a parameter whose text is
    not a number keeps its value; and so does every other parameter whose
    entry is none of the objects of the listed ones. *)
Theorem run_simulation_entries_update_the_store
    (entries : list ((string * string) * string)) :
  forall store printed,
    NoDup (map fst entries) ->
    (forall key text, (key, text) ∈ entries ->
       fst key <> "value"%string /\ snd key <> "value"%string
       /\ exists (a : parameter_store.address) fields,
            entry_of store (fst key) (snd key)
            = Ok (parameter_store.PyRef a)
            /\ parameter_store.objects store a
               = parameter_store.PyDictObj fields) ->
    (forall key1 key2, key1 ∈ map fst entries -> key2 ∈ map fst entries ->
       key1 <> key2 ->
       entry_of store (fst key1) (snd key1)
       <> entry_of store (fst key2) (snd key2)) ->
    exists store' printed',
      GUI.run_simulation_entries float_of_text entries (store, printed)
      = Ok (store', printed')
      /\ (forall T N text, ((T, N), text) ∈ entries ->
            parameter_store.value store' T N
            = match float_of_text text with
              | Some x =>
                  Ok (parameter_store.PyNumber
                        (if bool_decide (N ∈ GUI.kelvin_names)
                         then x + (#27315 / #100) else x))
              | None => parameter_store.value store T N
              end)
      /\ (forall T N : string,
            T <> "value"%string -> N <> "value"%string ->
            (forall key, key ∈ map fst entries ->
               entry_of store T N <> entry_of store (fst key) (snd key)) ->
            parameter_store.value store' T N
            = parameter_store.value store T N).
Proof.
  induction entries as [|[[T N] text] entries IH];
    intros store printed Hnd Hkeys Hapart.
  - exists store, printed. split; [reflexivity|]. split.
    + intros T N text Hin. inversion Hin.
    + reflexivity.
  - cbn [map fst] in Hnd. apply NoDup_cons in Hnd as [Hfresh Hnd].
    destruct (Hkeys (T, N) text) as (HT & HN & a & fields & Hentry & Hobj);
      [constructor|].
    cbn [fst snd] in HT, HN, Hentry.
    cbn [GUI.run_simulation_entries GUI.run_simulation_entry].
    assert (Hstep :
      exists store1 printed1,
        match float_of_text text with
        | Some value =>
            inputValues ←
              parameter_store.change_input_value store T N
                (parameter_store.PyNumber
                   (if bool_decide (N ∈ GUI.kelvin_names)
                    then value + (#27315 / #100) else value));
            Ok (inputValues, printed)
        | None =>
            Ok (store,
                printed
                ++ [("Invalid value for " ++ N ++ ": " ++ text)%string])
        end = Ok (store1, printed1)
        /\ parameter_store.value store1 T N
           = match float_of_text text with
             | Some x =>
                 Ok (parameter_store.PyNumber
                       (if bool_decide (N ∈ GUI.kelvin_names)
                        then x + (#27315 / #100) else x))
             | None => parameter_store.value store T N
             end
        /\ (forall a' fields',
              parameter_store.objects store a'
              = parameter_store.PyDictObj fields' ->
              exists fields'',
                parameter_store.objects store1 a'
                = parameter_store.PyDictObj fields'')
        /\ forall T' N' : string,
             T' <> "value"%string -> N' <> "value"%string ->
             entry_of store1 T' N' = entry_of store T' N'
             /\ (entry_of store T' N' <> Ok (parameter_store.PyRef a) ->
                 parameter_store.value store1 T' N'
                 = parameter_store.value store T' N')).
    { destruct (float_of_text text) as [x|].
      - pose proof (store_after_update store a fields
                      (parameter_store.PyNumber
                         (if bool_decide (N ∈ GUI.kelvin_names)
                          then x + (#27315 / #100) else x)) Hobj) as Hafter.
        cbv zeta in Hafter.
        eexists _, printed. split; [|split; [|split]].
        + unfold parameter_store.change_input_value.
          unfold entry_of in Hentry.
          destruct (parameter_store.py_getitem _ _ T) as [category|e];
            [|discriminate Hentry].
          cbn [mbind result_bind] in *. rewrite Hentry.
          cbn [mbind result_bind parameter_store.py_setitem].
          rewrite Hobj. reflexivity.
        + now apply (Hafter T N HT HN).
        + intros a' fields' Hobj'. cbn [parameter_store.objects].
          destruct (decide (a' = a)) as [->|Hne].
          * rewrite heap_update_eq. eauto.
          * rewrite heap_update_ne by exact Hne. eauto.
        + intros T' N' HT' HN'.
          destruct (Hafter T' N' HT' HN') as (He & _ & Hother). auto.
      - eexists _, _. split; [reflexivity|]. split; [reflexivity|].
        split; [eauto|]. auto. }
    destruct Hstep as (store1 & printed1 & -> & Hsame & Hdict & Hframe).
    cbn [mbind result_bind].
    assert (Hnames : forall T' N' text',
              ((T', N'), text') ∈ entries ->
              T' <> "value"%string /\ N' <> "value"%string).
    { intros T' N' text' Hin.
      destruct (Hkeys (T', N') text') as (H1 & H2 & _); [now constructor|].
      auto. }
    assert (Hnames' : forall key, key ∈ map fst entries ->
              fst key <> "value"%string /\ snd key <> "value"%string).
    { intros [T' N'] Hin. apply list_elem_of_fmap in Hin
        as ([key text'] & Heq & Hin). cbn in Heq. subst key.
      apply (Hnames T' N' text' Hin). }
    assert (Hhead : forall key, key ∈ map fst entries ->
              entry_of store (fst key) (snd key)
              <> Ok (parameter_store.PyRef a)).
    { intros key Hin. rewrite <- Hentry.
      apply (Hapart key (T, N)); cbn [map fst].
      - now constructor.
      - constructor.
      - intros ->. contradiction. }
    destruct (IH store1 printed1 Hnd)
      as (store' & printed' & Hrun & Hin & Hout).
    { intros [T' N'] text' Hin'. cbn [fst snd].
      destruct (Hkeys (T', N') text')
        as (H1 & H2 & a' & fields' & He' & Hobj'); [now constructor|].
      cbn [fst snd] in *. split; [exact H1|]. split; [exact H2|].
      destruct (Hdict a' fields' Hobj') as [fields'' Hobj''].
      exists a', fields''. split; [|exact Hobj''].
      destruct (Hframe T' N' H1 H2) as [-> _]. exact He'. }
    { intros key1 key2 H1 H2 Hne.
      destruct (Hnames' key1 H1) as [? ?].
      destruct (Hnames' key2 H2) as [? ?].
      destruct (Hframe (fst key1) (snd key1)) as [-> _]; [assumption ..|].
      destruct (Hframe (fst key2) (snd key2)) as [-> _]; [assumption ..|].
      apply Hapart; cbn [map fst]; [now constructor ..|exact Hne]. }
    exists store', printed'. split; [exact Hrun|]. split.
    + intros T' N' text' Hin'. apply elem_of_cons in Hin' as [Heq|Hin'].
      * injection Heq as -> -> ->. rewrite Hout; [exact Hsame|exact HT|exact HN|].
        intros key Hkey.
        destruct (Hnames' key Hkey) as [? ?].
        destruct (Hframe T N HT HN) as [-> _].
        destruct (Hframe (fst key) (snd key)) as [-> _]; [assumption ..|].
        rewrite Hentry. intros Heq. now apply (Hhead key Hkey).
      * rewrite (Hin _ _ _ Hin').
        destruct (float_of_text text'); [reflexivity|].
        destruct (Hnames T' N' text' Hin') as [HT' HN'].
        apply (Hframe T' N' HT' HN').
        apply (Hhead (T', N')).
        apply (list_elem_of_fmap_2 fst) in Hin'. exact Hin'.
    + intros T' N' HT' HN' Hnot.
      rewrite Hout; [|exact HT'|exact HN'|].
      * apply (Hframe T' N' HT' HN'). rewrite <- Hentry.
        apply (Hnot (T, N)). cbn [map fst]. constructor.
      * intros key Hkey.
        destruct (Hnames' key Hkey) as [? ?].
        destruct (Hframe T' N' HT' HN') as [-> _].
        destruct (Hframe (fst key) (snd key)) as [-> _]; [assumption ..|].
        apply Hnot. cbn [map fst]. now constructor.
Qed.

(** X18.  [run_sensitivity_analysis] on its edge inputs: without a
    selected parameter it raises [ValueError]; with one increment the
    step [(upper - lower) / (increments - 1)] is a division by zero; with
    no increment, or a negative number of them, it returns no result.
    In the three cases the frame keeps its children. *)
Theorem sensitivity_analysis_edge_cases {Widget : Type}
    (frame : list Widget) (param : string) (lower upper : F)
    (increments : Z) :
  (param = ""%string ->
   GUI.run_sensitivity_analysis frame param lower upper increments
   = (Raise ValueError, frame))
  /\ (param <> ""%string -> increments = 1%Z ->
      GUI.run_sensitivity_analysis frame param lower upper increments
      = (Raise ZeroDivisionError, frame))
  /\ (param <> ""%string -> (increments <= 0)%Z ->
      GUI.run_sensitivity_analysis frame param lower upper increments
      = (Ok [], frame)).
Proof.
  unfold GUI.run_sensitivity_analysis, simulation.pydiv_int.
  split; [|split].
  - intros ->. reflexivity.
  - intros Hp ->. now rewrite bool_decide_eq_false_2.
  - intros Hp Hn. rewrite bool_decide_eq_false_2 by exact Hp.
    destruct (Z.eqb_spec (increments - 1) 0); [lia|].
    replace (Z.to_nat increments) with 0%nat by lia. reflexivity.
Qed.

(** On a frame without children every chart call returns, and the loop
    appends one result per turn. *)
Lemma sensitivity_loop_on_empty_frame {Widget : Type} (lower step : F) :
  forall (idx : list nat) (results : list (F * F)),
    GUI.sensitivity_loop (Widget := Widget) idx lower step [] results
    = (Ok (results
           ++ map (fun i : nat =>
                     let value := lower + #(Z.of_nat i) * step in
                     (value, value * (#12 / #10))) idx),
       []).
Proof.
  induction idx as [|i idx IH]; intros results.
  - cbn. now rewrite app_nil_r.
  - cbn [GUI.sensitivity_loop map].
    replace (GUI.display_bar_chart (Widget := Widget) []
               (results
                ++ [(lower + #(Z.of_nat i) * step,
                     (lower + #(Z.of_nat i) * step) * (#12 / #10))]))
      with (Ok tt : result unit, [] : list Widget)
      by (destruct results; reflexivity).
    rewrite IH, <- app_assoc. reflexivity.
Qed.

(** X19.  With a parameter selected and two or more increments,
    [run_sensitivity_analysis] does not get past its first chart on a
    frame that has children, as the frame of the window has: the first
    child is destroyed and [AttributeError] is raised at the first turn.
    Only on a frame without children does it go through the increments,
    with the values [lower + i * step] for [step = (upper - lower) /
    (increments - 1)], each paired with 1.2 times itself. *)
Theorem sensitivity_analysis_stops_at_the_first_chart {Widget : Type}
    (param : string) (lower upper : F) (increments : Z) :
  param <> ""%string -> (2 <= increments)%Z ->
  (forall (widget : Widget) (rest : list Widget),
     GUI.run_sensitivity_analysis (widget :: rest) param lower upper
       increments
     = (Raise AttributeError, rest))
  /\ GUI.run_sensitivity_analysis (Widget := Widget) [] param lower upper
       increments
     = (Ok (map (fun i : nat =>
                   let value :=
                     lower + #(Z.of_nat i)
                             * ((upper - lower) / #(increments - 1)) in
                   (value, value * (#12 / #10)))
                (seq 0 (Z.to_nat increments))),
        []).
Proof.
  intros Hp Hn. unfold GUI.run_sensitivity_analysis, simulation.pydiv_int.
  rewrite bool_decide_eq_false_2 by exact Hp.
  destruct (Z.eqb_spec (increments - 1) 0); [lia|].
  split.
  - intros widget rest.
    destruct (Z.to_nat increments) as [|k] eqn:Hnat; [lia|].
    reflexivity.
  - now rewrite sensitivity_loop_on_empty_frame.
Qed.

End Entries.

(** ** The pressure log *)

Section PressureLog.
Context {F : Type} `{Arith F} {Time : Type}.
Local Open Scope num_scope.
Variable unpack_float : Z -> Z -> F.
Implicit Types turns : list (Time * (Z -> option (Z * Z))).

(** A bounded deque that has seen [xs] holds the last [maxlen] of them. *)
Lemma deque_append_drop {A : Type} (maxlen : nat) (xs : list A) (x : A) :
  Pressure_test.deque_append maxlen (drop (length xs - maxlen) xs) x
  = drop (length (xs ++ [x]) - maxlen) (xs ++ [x]).
Proof.
  unfold Pressure_test.deque_append. rewrite length_app, length_drop. cbn.
  case_decide.
  - rewrite <- drop_app_le by lia. rewrite drop_drop. f_equal. lia.
  - replace (length xs - maxlen)%nat with 0%nat by lia.
    replace (length xs + 1 - maxlen)%nat with 0%nat by lia.
    reflexivity.
Qed.

Lemma run_snoc turns turn :
  Pressure_test.run unpack_float (turns ++ [turn])
  = Pressure_test.poll unpack_float (Pressure_test.run unpack_float turns)
      turn.
Proof. unfold Pressure_test.run. apply foldl_snoc. Qed.

(** X20.  After any number of turns of the polling loop the plot buffers
    hold the last 60 samples at most: the time stamps, and for each of
    the five registers, in the order of [modbus_map], the values read,
    with 0 in the place of a read that failed. *)
Theorem plot_buffers_hold_the_last_sixty turns :
  let log := Pressure_test.run unpack_float turns in
  Pressure_test.timestamps log
  = drop (length turns - 60) (map fst turns)
  /\ forall (j : nat) (label : string) (register : Z),
       Pressure_test.modbus_map !! j = Some (label, register) ->
       Pressure_test.data_log log !! j
       = Some (label,
               drop (length turns - 60)
                 (map (fun turn =>
                         default #0
                           (Pressure_test.read_float unpack_float (snd turn)
                              register))
                      turns)).
Proof.
  induction turns as [|[timestamp client] turns IH] using rev_ind.
  - split; [reflexivity|]. intros j label register Hj.
    unfold Pressure_test.run, Pressure_test.start.
    cbn [foldl Pressure_test.data_log length Nat.sub drop map].
    rewrite list_lookup_fmap, Hj. reflexivity.
  - cbv zeta in IH |- *. destruct IH as [IHt IHd]. rewrite run_snoc.
    unfold Pressure_test.poll, Pressure_test.MAX_POINTS.
    cbn [Pressure_test.timestamps Pressure_test.data_log].
    split.
    + rewrite IHt, map_app. cbn [map fst].
      rewrite <- (length_map fst turns) at 1.
      rewrite deque_append_drop. now rewrite !length_app, length_map.
    + intros j label register Hj.
      rewrite lookup_zip_with, (IHd j label register Hj).
      rewrite list_lookup_fmap, Hj.
      cbn [mbind option_bind fmap option_fmap option_map fst snd].
      rewrite map_app. cbn [map snd].
      set (f := fun turn : Time * (Z -> option (Z * Z)) =>
                  default #0
                    (Pressure_test.read_float unpack_float (snd turn)
                       register)).
      change (match Pressure_test.read_float unpack_float client register with
              | Some v => v
              | None => #0
              end) with (f (timestamp, client)).
      change (default #0
                (Pressure_test.read_float unpack_float client register))
        with (f (timestamp, client)).
      rewrite <- (length_map f turns) at 1.
      rewrite deque_append_drop. now rewrite !length_app, length_map.
Qed.

(** X21.  The rows kept for the CSV file are never dropped: one row per
    turn, in order, with the time stamp and the five readings as read, a
    read that failed being [None] there and not the 0 of the plot
    buffer. *)
Theorem csv_log_keeps_every_turn turns :
  Pressure_test.csv_log (Pressure_test.run unpack_float turns)
  = map (fun turn =>
           (fst turn,
            map (fun item =>
                   Pressure_test.read_float unpack_float (snd turn)
                     (snd item))
                Pressure_test.modbus_map))
        turns.
Proof.
  induction turns as [|[timestamp client] turns IH] using rev_ind.
  - reflexivity.
  - rewrite run_snoc, map_app. unfold Pressure_test.poll.
    cbn [Pressure_test.csv_log]. now rewrite IH.
Qed.

End PressureLog.

(** ** The thermal formulae, over the reals *)

Section ThermalFormulae.
Import RInstance.
Local Open Scope R_scope.

(** X22.  The heat load is the conductance of walls and roof,
    [Aw*Uw + Ar*Ur], times [Tsp - Tamb]: it vanishes at the setpoint, is
    a load (not negative) when the ambient temperature is at or below the
    setpoint and the conductance is not negative, and changes sign
    above. *)
Theorem heat_load_is_proportional_to_the_gap
    (inputValues : InputValues R) (Tamb : R) :
  let G := wall_area inputValues * wall_U_value inputValues
           + roof_area inputValues * roof_U_value inputValues in
  let Tsp := indoor_setpoint_temperature_K inputValues in
  formulae.CalculateQload inputValues Tamb = G * (Tsp - Tamb)
  /\ formulae.CalculateQload inputValues Tsp = 0
  /\ (0 <= G -> Tamb <= Tsp -> 0 <= formulae.CalculateQload inputValues Tamb)
  /\ (0 <= G -> Tsp <= Tamb -> formulae.CalculateQload inputValues Tamb <= 0).
Proof.
  intros G Tsp.
  assert (Heq : forall T, formulae.CalculateQload inputValues T
                          = G * (Tsp - T)).
  { intros T. unfold formulae.CalculateQload. cbn. subst G Tsp. ring. }
  rewrite !Heq. repeat split.
  - ring.
  - intros HG HT. apply Rmult_le_pos; lra.
  - intros HG HT. rewrite <- (Rmult_0_r G).
    apply Rmult_le_compat_l; lra.
Qed.

(** X23.  For a fitted [b > 0] the COP falls as the temperature
    difference grows, stays above [a] for every positive difference, and
    the power drawn for a given heat transfer grows with it. *)
Theorem COP_falls_with_the_temperature_difference (a b d1 d2 : R) :
  0 < b -> 0 < d1 -> d1 < d2 ->
  formulae.COP d2 a b < formulae.COP d1 a b
  /\ a < formulae.COP d2 a b
  /\ forall Qtransfer : R,
       0 < a -> 0 < Qtransfer ->
       step_Pin Qtransfer (formulae.COP d1 a b)
       < step_Pin Qtransfer (formulae.COP d2 a b).
Proof.
  intros Hb Hd1 Hlt. unfold formulae.COP. cbn.
  assert (Hd2 : 0 < d2) by lra.
  assert (Hinv : / d2 < / d1) by (apply Rinv_lt_contravar; [nra|lra]).
  assert (Hpos2 : 0 < / d2) by (apply Rinv_0_lt_compat; lra).
  assert (Hfall : a + b / d2 < a + b / d1) by (unfold Rdiv; nra).
  assert (Habove : a < a + b / d2) by (unfold Rdiv; nra).
  split; [exact Hfall|]. split; [exact Habove|].
  intros Qtransfer Ha HQ. unfold step_Pin. cbn. unfold Rltb.
  destruct (Rlt_dec 0 (a + b / d1)) as [_|Hn]; [|lra].
  destruct (Rlt_dec 0 (a + b / d2)) as [_|Hn]; [|lra].
  unfold Rdiv at 1 3. apply Rmult_lt_compat_l; [exact HQ|].
  apply Rinv_lt_contravar; [|exact Hfall].
  apply Rmult_lt_0_compat; lra.
Qed.

End ThermalFormulae.

(** ** The further properties on concrete data *)

Section FurtherWitnesses.
Import QInstance.
Local Open Scope num_scope.

Lemma euler_series_lengths_witness :
  exists time T hl hloss cop Pin Qtr QDHW,
    simulation.euler (Ok Demo.flow) (Demo.simulator 240 5 true)
    = Ok (time, T, hl, hloss, cop, Pin, Qtr, QDHW)
    /\ len time = 5%nat /\ len Qtr = 5%nat
    /\ items time !! 4%nat = Some (#240 / #3600).
Proof.
  destruct (simulation.euler (Ok Demo.flow) (Demo.simulator 240 5 true))
    as [[[[[[[[time T] hl] hloss] cop] Pin] Qtr] QDHW]|e] eqn:Hrun.
  - exists time, T, hl, hloss, cop, Pin, Qtr, QDHW.
    destruct (euler_series_lengths _ _ _ _ _ _ _ _ _ _ Hrun)
      as ((Lt & _ & _ & _ & _ & _ & LQ) & _ & _ & Hlast).
    split; [reflexivity|]. split; [exact Lt|]. split; [exact LQ|].
    apply Hlast. cbn. lia.
  - vm_compute in Hrun. discriminate Hrun.
Defined.

Lemma uncalibrated_run_raises_witness :
  let self := Examples.cold_uncalibrated in
  let iv := simulation.inputValues self in
  (2 <= time_points iv)%Z
  /\ (initial_tank_temperature_K iv <=? on_temperature_threshold_K iv) = true
  /\ simulation.euler (Ok Demo.flow) self = Raise TypeError.
Proof.
  intros self iv.
  assert (H1 : (2 <= time_points iv)%Z) by (cbn; lia).
  assert (H2 : (initial_tank_temperature_K iv
                <=? on_temperature_threshold_K iv) = true)
    by (vm_compute; reflexivity).
  split; [exact H1|]. split; [exact H2|].
  apply (uncalibrated_run_raises self (Ok Demo.flow) H1).
  - left. reflexivity.
  - intros _. eauto.
  - vm_compute. reflexivity.
  - vm_compute. reflexivity.
  - exact H2.
Defined.

Lemma thresholds_switch_the_pump_witness :
  let self := Demo.simulator 240 5 true in
  (2 <= time_points (simulation.inputValues self))%Z
  /\ (on_temperature_threshold_K (simulation.inputValues self)
      <? off_temperature_threshold_K (simulation.inputValues self)) = true
  /\ exists (T cop Pin Qtr : list Q) time hl hloss QDHW,
       simulation.euler (Ok Demo.flow) self
       = Ok (time, PyList T, hl, hloss, PyList cop, PyList Pin, PyList Qtr,
             QDHW).
Proof.
  intros self.
  assert (H1 : (2 <= time_points (simulation.inputValues self))%Z)
    by (cbn; lia).
  assert (H2 : simulation.fit_a self = Some #3) by reflexivity.
  assert (H3 : simulation.fit_b self = Some #50) by reflexivity.
  assert (H4 : eqb (pi * simulation.RHratio self) #0 = false)
    by (vm_compute; reflexivity).
  assert (H5 : (on_temperature_threshold_K (simulation.inputValues self)
                <? off_temperature_threshold_K (simulation.inputValues self))
               = true) by (vm_compute; reflexivity).
  split; [exact H1|]. split; [exact H5|].
  destruct (thresholds_switch_the_pump self Demo.flow #3 #50 H1 H2 H3 H4 H5)
    as (T & cop & Pin & Qtr & time & hl & hloss & QDHW & Hrun & _).
  exists T, cop, Pin, Qtr, time, hl, hloss, QDHW. exact Hrun.
Defined.

Lemma run_without_heat_transfer_raises_witness :
  (exists time T hl hloss cop Pin Qtr QDHW,
     simulation.euler (Ok Demo.flow) (Demo.simulator 240 5 false)
     = Ok (time, T, hl, hloss, cop, Pin, Qtr, QDHW)
     /\ Forall (fun x => x = #0) (items Qtr))
  /\ simulation.simulate (Ok Demo.flow) (Demo.simulator 240 5 false)
     = Raise ZeroDivisionError.
Proof.
  destruct (simulation.euler (Ok Demo.flow) (Demo.simulator 240 5 false))
    as [[[[[[[[time T] hl] hloss] cop] Pin] Qtr] QDHW]|e] eqn:Hrun.
  - assert (Hzero : Forall (fun x => x = #0) (items Qtr)).
    { pose proof Hrun as Hc. vm_compute in Hc.
      injection Hc as _ _ _ _ _ _ <- _. repeat constructor. }
    split.
    + exists time, T, hl, hloss, cop, Pin, Qtr, QDHW. split; [reflexivity|].
      exact Hzero.
    + exact (run_without_heat_transfer_raises _ _ _ _ _ _ _ _ _ _ Hrun Hzero).
  - vm_compute in Hrun. discriminate Hrun.
Defined.

Lemma short_time_list_wraps_around_witness :
  let vs : PySeq Q := PyList [#1; #2; #3] in
  let hours : list Q := [#0; #1] in
  (len vs <= 3600 * length hours)%nat
  /\ formulae.calculate_total_energy_consumption vs (PyList hours)
     = Ok (#0 + #2 * (#1 - #0) + #3 * (#0 - #1)).
Proof.
  intros vs hours.
  assert (Hlen : (len vs <= 3600 * length hours)%nat) by (cbn; lia).
  split; [exact Hlen|].
  rewrite (short_time_list_wraps_around vs hours Hlen). reflexivity.
Defined.

Lemma in_range_event_bins_witness :
  let s := DHW.start_index #60 Examples.morning_event in
  let e := DHW.end_index #60 Examples.morning_event in
  (0 <= s)%Z /\ (0 <= e)%Z
  /\ DHW.add_event #60 (np_zeros 1440) Examples.morning_event !! 2%nat
     = Some (#0 + flow_rate Examples.morning_event).
Proof.
  intros s e.
  assert (Hs : (0 <= s)%Z) by (vm_compute; intros Hc; discriminate Hc).
  assert (He : (0 <= e)%Z) by (vm_compute; intros Hc; discriminate Hc).
  split; [exact Hs|]. split; [exact He|].
  destruct (in_range_event_bins #60 (np_zeros 1440) Examples.morning_event
              Hs He) as (_ & Hbin).
  apply (Hbin 2%nat #0).
  - apply lookup_replicate_2. lia.
  - vm_compute. split; [intros Hc; discriminate Hc | reflexivity].
Defined.

Lemma straddling_event_is_dropped_witness :
  let profile : list Q := np_zeros 1440 in
  let n := Z.of_nat (length profile) in
  let s := DHW.start_index #60 Examples.straddling_event in
  let e := DHW.end_index #60 Examples.straddling_event in
  (s < 0)%Z /\ (- n <= s)%Z /\ (0 <= e <= n + s)%Z
  /\ DHW.add_event #60 profile Examples.straddling_event = profile.
Proof.
  intros profile n s e.
  assert (Hs : (s < 0)%Z) by (vm_compute; reflexivity).
  assert (Hms : (- n <= s)%Z) by (vm_compute; intros Hc; discriminate Hc).
  assert (He : (0 <= e <= n + s)%Z)
    by (vm_compute; split; intros Hc; discriminate Hc).
  split; [exact Hs|]. split; [exact Hms|]. split; [exact He|].
  exact (straddling_event_is_dropped #60 profile Examples.straddling_event
           Hs Hms He).
Defined.

Lemma value_after_change_input_value_witness :
  "building_properties"%string <> "value"%string
  /\ "roof_area"%string <> "value"%string
  /\ exists store',
       parameter_store.change_input_value Examples.aliased_store
         "building_properties" "roof_area" (parameter_store.PyNumber #150)
       = Ok store'
       /\ parameter_store.value store' "building_properties" "roof_area"
          = Ok (parameter_store.PyNumber #150)
       /\ parameter_store.value store' "building_properties" "wall_area"
          = Ok (parameter_store.PyNumber #150)
       /\ parameter_store.value store' "heat_pump"
            "on_temperature_threshold_K"
          = Ok (parameter_store.PyNumber (#31315 / #100))
       /\ parameter_store.value store' "building_properties" "units"
          = Raise AttributeError.
Proof.
  assert (HT : "building_properties"%string <> "value"%string)
    by discriminate.
  assert (HN : "roof_area"%string <> "value"%string) by discriminate.
  split; [exact HT|]. split; [exact HN|].
  destruct (parameter_store.change_input_value Examples.aliased_store
              "building_properties" "roof_area"
              (parameter_store.PyNumber #150))
    as [store'|e] eqn:Hchange.
  - exists store'. split; [reflexivity|].
    destruct (value_after_change_input_value _ _ _ _ _ HT HN Hchange)
      as (a & Hentry & Hsame & Hother).
    assert (Ha : a = 4%nat).
    { vm_compute in Hentry. now injection Hentry as <-. }
    subst a. split; [exact Hsame|]. split; [|split].
    + apply (Hother "building_properties" "wall_area")%string;
        [discriminate ..|]. vm_compute. reflexivity.
    + destruct (Hother "heat_pump" "on_temperature_threshold_K")%string
        as [_ ->]; [discriminate ..| |].
      * vm_compute. reflexivity.
      * vm_compute. intros Hc. discriminate Hc.
    + destruct (Hother "building_properties" "units")%string
        as [_ ->]; [discriminate ..| |].
      * vm_compute. reflexivity.
      * vm_compute. intros Hc. discriminate Hc.
  - vm_compute in Hchange. discriminate Hchange.
Defined.

Lemma change_input_value_fails_where_value_fails_witness :
  parameter_store.value Examples.aliased_store "building_properties" "units"
  = Raise AttributeError
  /\ parameter_store.change_input_value Examples.aliased_store
       "building_properties" "units" (parameter_store.PyNumber #1)
     = Raise TypeError
  /\ parameter_store.value Examples.aliased_store "building_properties"
       "notes"
     = Raise AttributeError
  /\ parameter_store.value Examples.aliased_store "building_properties"
       "floor_area"
     = Raise KeyError
  /\ parameter_store.change_input_value Examples.aliased_store
       "building_properties" "floor_area" (parameter_store.PyNumber #1)
     = Raise KeyError.
Proof.
  assert (Hunits :
    parameter_store.value Examples.aliased_store "building_properties"
      "units" = Raise AttributeError) by (vm_compute; reflexivity).
  split; [exact Hunits|]. split.
  - destruct (change_input_value_fails_where_value_fails
                Examples.aliased_store "building_properties" "units"
                (parameter_store.PyNumber #1)) as [Hfails _].
    rewrite Hunits in Hfails. exact Hfails.
  - repeat split; vm_compute; reflexivity.
Defined.

Lemma failed_load_blocks_every_parameter_witness :
  let self : parameter_store.InputValues Q :=
    parameter_store.init "inputs.yaml" in
  Examples.no_file (parameter_store.input_name self)
  = Raise FileNotFoundError
  /\ exists self' printed,
       parameter_store.load_data Examples.no_file self = Ok (self', printed)
       /\ parameter_store.value self' "heat_pump" "heat_transfer_area"
          = Raise ValueError.
Proof.
  intros self. split; [reflexivity|].
  destruct (failed_load_blocks_every_parameter Examples.no_file self)
    as (self' & printed & Hload & _ & Hall).
  - left. exists FileNotFoundError. reflexivity.
  - exists self', printed. split; [exact Hload|].
    apply (Hall "heat_pump" "heat_transfer_area")%string.
Defined.

Lemma run_simulation_entries_update_the_store_witness :
  NoDup (map fst Examples.entries)
  /\ exists store' printed',
       GUI.run_simulation_entries Examples.float_of_text Examples.entries
         (Examples.store, [])
       = Ok (store', printed')
       /\ parameter_store.value store' "building_properties"
            "indoor_setpoint_temperature_K"
          = Ok (parameter_store.PyNumber (#21 + #27315 / #100))
       /\ parameter_store.value store' "building_properties" "roof_area"
          = Ok (parameter_store.PyNumber #150)
       /\ parameter_store.value store' "heat_pump"
            "on_temperature_threshold_K"
          = Ok (parameter_store.PyNumber (#31315 / #100)).
Proof.
  assert (Hnd : NoDup (map fst Examples.entries)).
  { apply (bool_decide_unpack _). vm_compute. reflexivity. }
  split; [exact Hnd|].
  destruct (run_simulation_entries_update_the_store Examples.float_of_text
              Examples.entries Examples.store [] Hnd)
    as (store' & printed' & Hrun & Hin & _).
  - intros key text Hkey. unfold Examples.entries in Hkey.
    repeat (apply elem_of_cons in Hkey as [[= -> ->]|Hkey];
            [split; [discriminate|]; split; [discriminate|];
             eexists _, _; split; vm_compute; reflexivity|]).
    inversion Hkey.
  - intros key1 key2 H1 H2 Hne. unfold Examples.entries in H1, H2.
    cbn [map fst] in H1, H2.
    repeat (apply elem_of_cons in H1 as [->|H1]);
      [| | |inversion H1];
      (repeat (apply elem_of_cons in H2 as [->|H2]);
         [| | |inversion H2]);
      try congruence; vm_compute; intros Hc; discriminate Hc.
  - exists store', printed'. split; [exact Hrun|].
    split; [|split].
    + rewrite (Hin _ _ "21"%string)
        by (unfold Examples.entries; constructor).
      reflexivity.
    + rewrite (Hin _ _ "150"%string)
        by (unfold Examples.entries; do 1 constructor; constructor).
      reflexivity.
    + rewrite (Hin _ _ "forty"%string)
        by (unfold Examples.entries; do 2 constructor; constructor).
      vm_compute. reflexivity.
Defined.

End FurtherWitnesses.

Section FurtherWitnessesOnReals.
Import RInstance.
Local Open Scope R_scope.

Lemma COP_falls_with_the_temperature_difference_witness :
  0 < 50 /\ 0 < 40 /\ 40 < 60
  /\ formulae.COP 60 3 50 < formulae.COP 40 3 50.
Proof.
  assert (H1 : 0 < 50) by lra.
  assert (H2 : 0 < 40) by lra.
  assert (H3 : 40 < 60) by lra.
  split; [exact H1|]. split; [exact H2|]. split; [exact H3|].
  apply (COP_falls_with_the_temperature_difference 3 50 40 60 H1 H2 H3).
Defined.

End FurtherWitnessesOnReals.

Section EdgeWitnesses.
Import QInstance.
Local Open Scope num_scope.

Lemma euler_degenerate_point_counts_witness :
  simulation.euler (Ok Demo.flow) (Demo.simulator 240 (-1) false)
  = Raise ValueError
  /\ simulation.euler (Ok Demo.flow) (Demo.simulator 240 1 true)
     = Raise ZeroDivisionError
  /\ simulation.euler (Ok Demo.flow) (Demo.simulator 240 0 true)
     = Raise IndexError.
Proof.
  split; [|split].
  - apply (euler_degenerate_point_counts (Demo.simulator 240 (-1) false)).
    reflexivity.
  - apply (euler_degenerate_point_counts (Demo.simulator 240 1 true)).
    reflexivity.
  - apply (euler_degenerate_point_counts (Demo.simulator 240 0 true)).
    + reflexivity.
    + intros _. eauto.
    + vm_compute. reflexivity.
Defined.

Lemma integral_on_short_inputs_witness :
  formulae.calculate_total_energy_consumption
    (PyList [#5 : Q]) (NdArray []) = Ok #0
  /\ formulae.calculate_total_energy_consumption
       (PyList [#1; #2; #3 : Q]) (NdArray [#0; #1]) = Raise IndexError.
Proof.
  split.
  - apply (integral_on_short_inputs (PyList [#5 : Q])). cbn. lia.
  - apply (integral_on_short_inputs (PyList [#1; #2; #3 : Q])); cbn; lia.
Defined.

Lemma Qmax_is_the_product_of_the_maxima_witness :
  formulae.Qmax (PyList [#1; #3; #2 : Q]) (PyList []) = Raise ValueError
  /\ exists p c : Q,
       formulae.Qmax (PyList [#1; #3; #2]) (PyList [#4; #2]) = Ok (p * c)
       /\ p ∈ [#1; #3; #2 : Q] /\ c ∈ [#4; #2 : Q].
Proof.
  split.
  - apply (Qmax_is_the_product_of_the_maxima (PyList [#1; #3; #2])
             (PyList [])).
    right. reflexivity.
  - destruct (Qmax_is_the_product_of_the_maxima (PyList [#1; #3; #2])
                (PyList [#4; #2])) as [_ Hmax].
    destruct Hmax as (p & c & Hq & Hp & _ & Hc & _); [discriminate ..|].
    exists p, c. repeat split; assumption.
Defined.

Lemma sensitivity_analysis_edge_cases_witness :
  GUI.run_sensitivity_analysis Examples.analysis_frame "" (#10 : Q) #20 5
  = (Raise ValueError, Examples.analysis_frame)
  /\ GUI.run_sensitivity_analysis Examples.analysis_frame "roof_area"
       (#10 : Q) #20 1
     = (Raise ZeroDivisionError, Examples.analysis_frame)
  /\ GUI.run_sensitivity_analysis Examples.analysis_frame "roof_area"
       (#10 : Q) #20 0
     = (Ok [], Examples.analysis_frame).
Proof.
  split; [|split].
  - apply (sensitivity_analysis_edge_cases Examples.analysis_frame ""
             (#10 : Q) #20 5).
    reflexivity.
  - apply (sensitivity_analysis_edge_cases Examples.analysis_frame
             "roof_area" (#10 : Q) #20 1); [discriminate | reflexivity].
  - apply (sensitivity_analysis_edge_cases Examples.analysis_frame
             "roof_area" (#10 : Q) #20 0); [discriminate | lia].
Defined.

Lemma sensitivity_analysis_stops_at_the_first_chart_witness :
  "roof_area"%string <> ""%string /\ (2 <= 3)%Z
  /\ GUI.run_sensitivity_analysis Examples.analysis_frame "roof_area"
       (#10 : Q) #20 3
     = (Raise AttributeError,
        ["sensitivity_dropdown"; "range_entry"; "increment_entry";
         "sensitivity_button"]%string)
  /\ GUI.run_sensitivity_analysis (Widget := string) [] "roof_area"
       (#10 : Q) #20 3
     = (Ok [(#10, #12); (#15, #18); (#20, #24)], []).
Proof.
  assert (Hp : "roof_area"%string <> ""%string) by discriminate.
  assert (Hn : (2 <= 3)%Z) by lia.
  split; [exact Hp|]. split; [exact Hn|].
  destruct (sensitivity_analysis_stops_at_the_first_chart
              (Widget := string) "roof_area" (#10 : Q) #20 3 Hp Hn)
    as [Hfirst Hempty].
  split.
  - apply Hfirst.
  - rewrite Hempty. vm_compute. reflexivity.
Defined.
End EdgeWitnesses.
